(** * Redundancy estimation engine of [iml_1_eda.py]

    A shallow embedding of the pairwise redundancy scorer
    ([prepare], [split_data], [compute_redundancy]), of the preprocessing
    and the redundancy matrix block of [eda] and of the data preparation of
    [main], together with the properties the specification states about
    them.

    The task dictionary is a finite map from keys to Python values, updated
    in place by the scorer.  The scikit-learn / LightGBM collaborators
    (grouped splitter, randomized search, fitted model, metrics,
    preprocessing pipeline) are not part of the repository: they are
    parameters of the development, reached through the [Sklearn] and
    [Pipeline] interfaces; the calls that receive a configured splitter or
    search are recorded in a log. *)

From Stdlib Require Import ZArith QArith Qround Qminmax Lia Lqa.
From stdpp Require Import base option list gmap strings.

Open Scope Z_scope.

(** ** Python values, exceptions, results *)

(** The values a task dictionary holds: the settings of [main] are ints,
    bools, strings and lists of strings or ints. *)
Inductive pyval : Type :=
  | PNone
  | PBool (b : bool)
  | PInt (z : Z)
  | PStr (s : string)
  | PStrs (l : list string)
  | PInts (l : list Z).

#[global] Instance pyval_eq_dec : EqDecision pyval.
Proof. solve_decision. Defined.

Inductive exn : Type :=
  | ValueError (msg : string)
  | KeyError (key : string)
  | TypeError
  | ZeroDivisionError
  | OverflowError
  | IndexError
  | LibraryError (msg : string).

#[global] Instance exn_eq_dec : EqDecision exn.
Proof. solve_decision. Defined.

Inductive result (A : Type) : Type :=
  | Ok (a : A)
  | Raise (e : exn).
Arguments Ok {A} a.
Arguments Raise {A} e.

Definition result_bind {A B} (r : result A) (k : A -> result B) : result B :=
  match r with
  | Ok a => k a
  | Raise e => Raise e
  end.

#[global] Instance result_ret : MRet result := @Ok.
#[global] Instance result_mbind : MBind result :=
  fun A B k r => result_bind r k.

Definition is_ok {A} (r : result A) : bool :=
  match r with Ok _ => true | Raise _ => false end.

(** ** Floats

    A float64 is idealised as a rational, plus the three special values the
    metrics and [np.mean] can produce. *)
Inductive npfloat : Type :=
  | NaN
  | NegInf
  | PosInf
  | Fin (q : Q).

Definition np_add (a b : npfloat) : npfloat :=
  match a, b with
  | NaN, _ | _, NaN => NaN
  | PosInf, NegInf | NegInf, PosInf => NaN
  | PosInf, _ | _, PosInf => PosInf
  | NegInf, _ | _, NegInf => NegInf
  | Fin x, Fin y => Fin (x + y)
  end.

Definition np_sum (l : list npfloat) : npfloat :=
  fold_left np_add l (Fin 0).

(** Division of a sum by a positive count. *)
Definition np_div_count (a : npfloat) (n : nat) : npfloat :=
  match a with
  | Fin x => Fin (x / inject_Z (Z.of_nat n))
  | other => other
  end.

(** [np.mean(scores)] on a Python list: NaN on the empty list. *)
Definition np_mean (l : list npfloat) : npfloat :=
  match l with
  | [] => NaN
  | _ => np_div_count (np_sum l) (length l)
  end.

(** [x > 0] on floats: false for NaN. *)
Definition np_gt0 (x : npfloat) : bool :=
  match x with
  | PosInf => true
  | Fin q => negb (Qle_bool q 0)
  | NaN | NegInf => false
  end.

(** Python's [max(0, x)]: the first argument is kept unless [x > 0]. *)
Definition py_max0 (x : npfloat) : npfloat :=
  if np_gt0 x then x else Fin 0.

(** Numerical equality of floats ([NaN] differs from itself). *)
Definition np_eqb (a b : npfloat) : bool :=
  match a, b with
  | Fin x, Fin y => Qeq_bool x y
  | PosInf, PosInf | NegInf, NegInf => true
  | _, _ => false
  end.

(** [0 <= x <= 1] for a float. *)
Definition in_unit (x : npfloat) : Prop :=
  match x with
  | Fin q => (0 <= q /\ q <= 1)%Q
  | _ => False
  end.

(** A float that does not exceed 1 (NaN and -inf are allowed: they are what a
    degenerate fold gives). *)
Definition at_most_one (x : npfloat) : Prop :=
  match x with
  | Fin q => (q <= 1)%Q
  | PosInf => False
  | NaN | NegInf => True
  end.

(** ** Data frames

    A frame has column labels and rows; a row carries its index label and one
    value per column. *)
Record DataFrame : Type := mkDataFrame {
  df_columns : list string;
  df_rows : list (Z * list npfloat);
}.

(** [pd.DataFrame()] *)
Definition empty_frame : DataFrame := mkDataFrame [] [].

(** [df.shape[0]] *)
Definition shape0 (df : DataFrame) : Z := Z.of_nat (length (df_rows df)).

(** [df.empty]: some axis has length 0. *)
Definition df_empty (df : DataFrame) : bool :=
  match df_columns df, df_rows df with
  | [], _ | _, [] => true
  | _, _ => false
  end.

(** Position addressed by a numpy integer index into [n] rows: negative
    indices count from the end, anything else is out of bounds. *)
Definition norm_index (n : nat) (i : Z) : option nat :=
  if decide (0 <= i < Z.of_nat n) then Some (Z.to_nat i)
  else if decide (- Z.of_nat n <= i < 0) then Some (Z.to_nat (Z.of_nat n + i))
  else None.

Definition iloc_row (rows : list (Z * list npfloat)) (i : Z)
  : result (Z * list npfloat) :=
  match norm_index (length rows) i with
  | Some p =>
      match rows !! p with
      | Some r => Ok r
      | None => Raise IndexError
      end
  | None => Raise IndexError
  end.

Fixpoint iloc_rows (rows : list (Z * list npfloat)) (idx : list Z)
  : result (list (Z * list npfloat)) :=
  match idx with
  | [] => Ok []
  | i :: idx' =>
      r ← iloc_row rows i;
      rs ← iloc_rows rows idx';
      Ok (r :: rs)
  end.

(** [df.iloc[idx]] with an integer array. *)
Definition iloc (df : DataFrame) (idx : list Z) : result DataFrame :=
  rs ← iloc_rows (df_rows df) idx;
  Ok (mkDataFrame (df_columns df) rs).

(** [df.reset_index(drop=True)] *)
Definition reset_index (df : DataFrame) : DataFrame :=
  mkDataFrame (df_columns df)
    (imap (fun k r => (Z.of_nat k, snd r)) (df_rows df)).

(** [split_data(df, i_trn, i_tst)] *)
Definition split_data (df : DataFrame) (i_trn i_tst : list Z)
  : result (DataFrame * DataFrame) :=
  if negb (df_empty df) then
    df_trn ← iloc df i_trn;
    df_tst ← iloc df i_tst;
    Ok (reset_index df_trn, reset_index df_tst)
  else
    Ok (empty_frame, empty_frame).

(** ** Estimator and search space ([prepare]) *)

Inductive estimator_class : Type := LGBMRegressor | LGBMClassifier.

Record Estimator : Type := mkEstimator {
  est_class : estimator_class;
  boosting_type : string;
  num_leaves : Z;
  max_depth : Z;
  learning_rate : Q;
  n_estimators : Z;
  subsample_for_bin : Z;
  est_objective : pyval;
  class_weight : option string;
  min_split_gain : Z;
  min_child_weight : Q;
  min_child_samples : Z;
  subsample : Z;
  subsample_freq : Z;
  colsample_bytree : Z;
  reg_alpha : Z;
  reg_lambda : Z;
  est_random_state : pyval;
  est_n_jobs : Z;
  importance_type : string;
  est_kwargs : list (string * pyval);
}.

Inductive distribution : Type :=
  | uniform (loc scale : Q)
  | loguniform (a b : Q)
  | choice (l : list bool).

Definition lgbm_kwargs : list (string * pyval) :=
  [ ("data_random_seed", PNone);
    ("data_sample_strategy", PStr "bagging");
    ("extra_seed", PNone);
    ("feature_fraction_seed", PNone);
    ("feature_pre_filter", PBool false);
    ("force_col_wise", PBool true);
    ("min_data_in_bin", PInt 1);
    ("use_quantized_grad", PBool true);
    ("verbosity", PInt (-1)) ]%string.

Definition make_estimator (c : estimator_class) (obj : pyval)
    (cw : option string) : Estimator :=
  {| est_class := c;
     boosting_type := "gbdt";
     num_leaves := 100;
     max_depth := -1;
     learning_rate := 1 # 10;
     n_estimators := 100;
     subsample_for_bin := 100000;
     est_objective := obj;
     class_weight := cw;
     min_split_gain := 0;
     min_child_weight := 1 # 10000;
     min_child_samples := 10;
     subsample := 1;
     subsample_freq := 0;
     colsample_bytree := 1;
     reg_alpha := 0;
     reg_lambda := 0;
     est_random_state := PNone;
     est_n_jobs := 1;
     importance_type := "gain";
     est_kwargs := lgbm_kwargs |}.

Definition search_space : list (string * distribution) :=
  [ ("estimator__colsample_bytree", uniform (1 # 10) (9 # 10));
    ("estimator__extra_trees", choice [true; false]);
    ("estimator__path_smooth", loguniform 1 100) ]%string.

Definition objective_error : exn := ValueError "OBJECTIVE not found.".

(** [objective == 'regression'] and the like: a Python value equals a string
    literal exactly when it is that string. *)
Definition py_eq_str (v : pyval) (s : string) : bool :=
  bool_decide (v = PStr s).

(** [prepare(objective)] *)
Definition prepare (objective : pyval)
  : result (Estimator * list (string * distribution)) :=
  estimator ←
    (if py_eq_str objective "regression" then
       Ok (make_estimator LGBMRegressor (PStr "huber") None)
     else if py_eq_str objective "binary" || py_eq_str objective "multiclass" then
       Ok (make_estimator LGBMClassifier objective (Some "balanced"%string))
     else
       Raise objective_error);
  Ok (estimator, search_space).

(** ** The scikit-learn collaborators *)

Record RepeatedGroupKFold : Type := mkRepeatedGroupKFold {
  n_splits : pyval;
  n_repeats : pyval;
  cv_random_state : pyval;
}.

Record RandomizedSearchCV : Type := mkRandomizedSearchCV {
  rs_estimator : Estimator;
  rs_space : list (string * distribution);
  n_iter : pyval;
  scoring : string;
  rs_n_jobs : pyval;
  refit : bool;
  rs_cv : RepeatedGroupKFold;
  rs_verbose : Z;
  pre_dispatch : string;
  rs_random_state : pyval;
  error_score : Z;
  return_train_score : bool;
}.

(** [df.squeeze()]: axes of length one are dropped. *)
Inductive squeezed : Type :=
  | SqScalar (v : npfloat)
  | SqColumn (name : string) (vals : list (Z * npfloat))
  | SqRow (label : Z) (vals : list (string * npfloat))
  | SqFrame (df : DataFrame).

Definition squeeze (df : DataFrame) : squeezed :=
  match df_columns df, df_rows df with
  | [c], [(_, [v])] => SqScalar v
  | [c], rows =>
      SqColumn c (map (fun r => (fst r, hd NaN (snd r))) rows)
  | cols, [(l, vs)] => SqRow l (zip cols vs)
  | _, _ => SqFrame df
  end.

(** What the development assumes of the libraries: a grouped splitter, a
    randomized search returning a fitted model, its prediction, and the two
    metrics.  The splitter and the search draw from a random generator whose
    state is threaded through the calls ([random_state=None]). *)
Class Sklearn : Type := {
  Rng : Type;
  Model : Type;
  cv_split : RepeatedGroupKFold -> DataFrame -> DataFrame -> Rng ->
             result (list (list Z * list Z)) * Rng;
  search_fit : RandomizedSearchCV -> DataFrame -> squeezed -> DataFrame ->
               Rng -> result Model * Rng;
  predict : Model -> DataFrame -> result (list npfloat);
  r2_score : DataFrame -> list npfloat -> result npfloat;
  balanced_accuracy_score :
    DataFrame -> list npfloat -> bool -> result npfloat;
}.

(** Library calls that receive a configured object, as they are logged. *)
Inductive event : Type :=
  | EvSplit (cv : RepeatedGroupKFold) (g : DataFrame)
  | EvFit (search : RandomizedSearchCV) (x_trn y_trn g_trn : DataFrame).

(** ** Arithmetic on task settings *)

(** Python's [a / b] on two ints is the float64 nearest to the exact
    quotient, a tie going to the even significand.  The quotient of two
    positive ints is located by its binary exponent; both sides of every
    comparison are scaled to integers. *)

(** [2^e <= a / b] *)
Definition pow2_le_ratio (e a b : Z) : bool :=
  b * 2 ^ Z.max 0 e <=? a * 2 ^ Z.max 0 (- e).

(** The [e] with [2^e <= a / b < 2^(e+1)]. *)
Definition ratio_exponent (a b : Z) : Z :=
  let e := Z.log2 a - Z.log2 b in
  if pow2_le_ratio e a b then e else e - 1.

(** The integer nearest to [num / den], a tie going to the even one. *)
Definition round_half_even (num den : Z) : Z :=
  let q := num / den in
  let r := num mod den in
  if 2 * r <? den then q
  else if den <? 2 * r then q + 1
  else if Z.even q then q else q + 1.

(** The float64 nearest to [a / b], as a significand [m] and a scale [s]
    standing for [m * 2^(-s)]: 53 significant bits, and below the smallest
    normal number the fixed spacing [2^(-1074)]. *)
Definition float64_ratio (a b : Z) : Z * Z :=
  let e := Z.max (ratio_exponent a b) (-1022) in
  let s := 52 - e in
  (round_half_even (a * 2 ^ Z.max 0 s) (b * 2 ^ Z.max 0 (- s)), s).

Definition float64_value (m s : Z) : Q :=
  if 0 <=? s then m # Z.to_pos (2 ^ s) else inject_Z (m * 2 ^ (- s)).

(** [a / b] for ints: division by zero and a quotient beyond the float
    range raise. *)
Definition py_truediv (a b : Z) : result Q :=
  if decide (b = 0) then Raise ZeroDivisionError
  else if decide (a = 0) then Ok 0%Q
  else
    let '(m, s) := float64_ratio (Z.abs a) (Z.abs b) in
    if 2 ^ 1024 <=? m * 2 ^ Z.max 0 (- s) then Raise OverflowError
    else Ok (inject_Z (Z.sgn a * Z.sgn b) * float64_value m s)%Q.

(** [math.ceil(x)] for a finite float. *)
Definition math_ceil (x : Q) : Z := Qceiling x.

(** The number a setting stands for in [setting / n]: bools are ints in
    Python, the other values do not divide. *)
Definition py_number (v : pyval) : result Z :=
  match v with
  | PInt z => Ok z
  | PBool b => Ok (Z.b2z b)
  | _ => Raise TypeError
  end.

(** [mth.ceil(v / n)] for a setting [v] and a row count [n]. *)
Definition ceil_ratio (v : pyval) (n : Z) : result Z :=
  p ← py_number v;
  q ← py_truediv p n;
  Ok (math_ceil q).

Fixpoint is_substring (s t : string) : bool :=
  String.prefix s t ||
  match t with
  | EmptyString => false
  | String _ t' => is_substring s t'
  end.

(** [name in v] for a string [name]. *)
Definition py_in (name : string) (v : pyval) : result bool :=
  match v with
  | PStrs l => Ok (bool_decide (name ∈ l))
  | PInts _ => Ok false
  | PStr s => Ok (is_substring name s)
  | PNone | PBool _ | PInt _ => Raise TypeError
  end.

(** ** The world: task dictionary, random generator, call log *)

Section Engine.

Context `{SK : Sklearn}.

Record world : Type := mkWorld {
  task : gmap string pyval;
  rng : Rng;
  calls : list event;
}.

Definition M (A : Type) : Type := world -> result A * world.

Definition M_ret {A} (a : A) : M A := fun w => (Ok a, w).

Definition M_bind {A B} (m : M A) (k : A -> M B) : M B :=
  fun w =>
    match m w with
    | (Ok a, w') => k a w'
    | (Raise e, w') => (Raise e, w')
    end.

#[global] Instance M_mret : MRet M := @M_ret.
#[global] Instance M_mbind : MBind M := fun A B k m => M_bind m k.

(** A pure, fallible computation. *)
Definition lift {A} (r : result A) : M A := fun w => (r, w).

(** [task[key]] *)
Definition task_get (key : string) : M pyval :=
  fun w =>
    match task w !! key with
    | Some v => (Ok v, w)
    | None => (Raise (KeyError key), w)
    end.

(** [task[key] = v] *)
Definition task_set (key : string) (v : pyval) : M unit :=
  fun w => (Ok tt, mkWorld (<[key := v]> (task w)) (rng w) (calls w)).

(** [cv.split(g, groups=g)]: the splits the loop consumes, drawn at once (the
    generator of the library is not interleaved with the loop body). *)
Definition call_split (cv : RepeatedGroupKFold) (g : DataFrame)
  : M (list (list Z * list Z)) :=
  fun w =>
    let '(r, rng') := cv_split cv g g (rng w) in
    (r, mkWorld (task w) rng' (calls w ++ [EvSplit cv g])).

(** [search.fit(x_trn, y_trn.squeeze(), groups=g_trn)] *)
Definition call_fit (search : RandomizedSearchCV) (x_trn y_trn g_trn : DataFrame)
  : M Model :=
  fun w =>
    let '(r, rng') := search_fit search x_trn (squeeze y_trn) g_trn (rng w) in
    (r, mkWorld (task w) rng' (calls w ++ [EvFit search x_trn y_trn g_trn])).

(** ** The pairwise scorer ([compute_redundancy]) *)

(** "Get scorer": the scoring name handed to the inner search. *)
Definition get_scorer (objective : pyval) : result string :=
  if py_eq_str objective "regression" then Ok "r2"%string
  else if py_eq_str objective "binary" || py_eq_str objective "multiclass"
  then Ok "balanced_accuracy"%string
  else Raise objective_error.

(** "Score results": the score of one outer fold. *)
Definition score_results (objective : pyval) (y_tst : DataFrame)
    (y_pred : list npfloat) : result npfloat :=
  if py_eq_str objective "regression" then r2_score y_tst y_pred
  else if py_eq_str objective "binary" || py_eq_str objective "multiclass"
  then balanced_accuracy_score y_tst y_pred true
  else Raise objective_error.

(** The inner search of one outer fold, as configured at lines 262-276. *)
Definition make_search (estimator : Estimator)
    (space : list (string * distribution)) (scorer : string)
    (n_samples_rs n_jobs n_cv_folds n_rep_inner : pyval) : RandomizedSearchCV :=
  {| rs_estimator := estimator;
     rs_space := space;
     n_iter := n_samples_rs;
     scoring := scorer;
     rs_n_jobs := n_jobs;
     refit := true;
     rs_cv := mkRepeatedGroupKFold n_cv_folds n_rep_inner PNone;
     rs_verbose := 0;
     pre_dispatch := "2*n_jobs";
     rs_random_state := PNone;
     error_score := 0;
     return_train_score := false |}.

(** Body of the outer cross-validation loop for one split: the score that is
    appended to [scores]. *)
Definition outer_fold (estimator : Estimator)
    (space : list (string * distribution)) (g x y : DataFrame)
    (objective : pyval) (split : list Z * list Z) : M npfloat :=
  let '(i_trn, i_tst) := split in
  '(g_trn, g_tst) ← lift (split_data g i_trn i_tst);
  '(y_trn, y_tst) ← lift (split_data y i_trn i_tst);
  '(x_trn, x_tst) ← lift (split_data x i_trn i_tst);
  scorer ← lift (get_scorer objective);
  n_pred_inner ← task_get "N_PRED_INNER_CV";
  r ← lift (ceil_ratio n_pred_inner (shape0 g_trn));
  _ ← task_set "n_rep_inner_cv" (PInt r);
  n_samples_rs ← task_get "N_SAMPLES_RS";
  n_jobs ← task_get "N_JOBS";
  n_cv_folds ← task_get "N_CV_FOLDS";
  n_rep_inner ← task_get "n_rep_inner_cv";
  let search :=
    make_search estimator space scorer n_samples_rs n_jobs n_cv_folds
      n_rep_inner in
  best ← call_fit search x_trn y_trn g_trn;
  y_pred ← lift (predict best x_tst);
  lift (score_results objective y_tst y_pred).

(** The outer loop: one score appended per split, in order. *)
Fixpoint outer_loop (estimator : Estimator)
    (space : list (string * distribution)) (g x y : DataFrame)
    (objective : pyval) (splits : list (list Z * list Z))
    (scores : list npfloat) : M (list npfloat) :=
  match splits with
  | [] => mret scores
  | split :: rest =>
      s ← outer_fold estimator space g x y objective split;
      outer_loop estimator space g x y objective rest (scores ++ [s])
  end.

(** [compute_redundancy(task, g, x, y, objective)]; the task is the shared
    dictionary of the world. *)
Definition compute_redundancy (g x y : DataFrame) (objective : pyval)
  : M npfloat :=
  '(estimator, space) ← lift (prepare objective);
  n_pred_outer ← task_get "N_PRED_OUTER_CV";
  r ← lift (ceil_ratio n_pred_outer (shape0 g));
  _ ← task_set "n_rep_outer_cv" (PInt r);
  n_cv_folds ← task_get "N_CV_FOLDS";
  n_rep_outer ← task_get "n_rep_outer_cv";
  let cv := mkRepeatedGroupKFold n_cv_folds n_rep_outer PNone in
  splits ← call_split cv g;
  scores ← outer_loop estimator space g x y objective splits [];
  mret (py_max0 (np_mean scores)).

End Engine.

(** ** Pandas helpers of the matrix block *)

(** Codes of [pd.factorize]: each element gets the rank of its first
    occurrence among the distinct elements met so far. *)
Fixpoint factorize_from {A} (eqb : A -> A -> bool) (uniques l : list A)
  : list nat :=
  match l with
  | [] => []
  | a :: l' =>
      match list_find (fun u => eqb u a = true) uniques with
      | Some (i, _) => i :: factorize_from eqb uniques l'
      | None => length uniques :: factorize_from eqb (uniques ++ [a]) l'
      end
  end.

(** [pd.factorize(pd.Series(z.columns))[0]] *)
Definition factorize_labels (cols : list string) : list nat :=
  factorize_from (fun a b => bool_decide (a = b)) [] cols.

(** Codes of a float column: missing values get the sentinel -1 and are not
    ranked. *)
Fixpoint factorize_values_from (uniques l : list npfloat) : list Z :=
  match l with
  | [] => []
  | NaN :: l' => (-1) :: factorize_values_from uniques l'
  | a :: l' =>
      match list_find (fun u => np_eqb u a = true) uniques with
      | Some (i, _) => Z.of_nat i :: factorize_values_from uniques l'
      | None =>
          Z.of_nat (length uniques)
            :: factorize_values_from (uniques ++ [a]) l'
      end
  end.

Definition factorize_values (l : list npfloat) : list Z :=
  factorize_values_from [] l.

(** [itertools.permutations(l, 2)]: ordered pairs of elements at distinct
    positions, in lexicographic order of the positions. *)
Definition permutations2 {A} (l : list A) : list (A * A) :=
  let indexed := imap (fun p a => (p, a)) l in
  flat_map (fun pa =>
    flat_map (fun qb =>
      if decide (fst pa = fst qb) then [] else [(snd pa, snd qb)])
      indexed)
    indexed.

(** [mapping[i]] *)
Definition list_item {A} (l : list A) (i : nat) : result A :=
  match l !! i with
  | Some a => Ok a
  | None => Raise IndexError
  end.

(** Values of a row under the columns labelled [name]. *)
Definition select_cols {A} (cols : list string) (vs : list A) (name : string)
  : list A :=
  map snd (filter (fun cv => fst cv = name) (zip cols vs)).

(** [pd.DataFrame(z[name])]: the column(s) labelled [name], index kept. *)
Definition getitem (z : DataFrame) (name : string) : result DataFrame :=
  if decide (name ∈ df_columns z) then
    Ok (mkDataFrame
          (filter (fun c => c = name) (df_columns z))
          (map (fun r => (fst r, select_cols (df_columns z) (snd r) name))
               (df_rows z)))
  else Raise (KeyError name).

(** [pd.DataFrame(pd.factorize(z[name])[0], columns=[name])]: the codes of
    the column under a fresh range index.  The labels of the combined table
    are unique when it leaves the preprocessing pipeline; factorizing a
    selection of several equally named columns is outside the model and is
    reported as a library failure. *)
Definition factorized (z : DataFrame) (name : string) : result DataFrame :=
  col ← getitem z name;
  match df_columns col with
  | [_] =>
      let codes := factorize_values (map (fun r => hd NaN (snd r)) (df_rows col)) in
      Ok (mkDataFrame [name]
            (imap (fun k c => (Z.of_nat k, [Fin (inject_Z c)])) codes))
  | _ => Raise (LibraryError "factorize: selection is not one column")
  end.

(** [np.ones((n, n))] *)
Definition np_ones (n : nat) : list (list npfloat) :=
  replicate n (replicate n (Fin 1)).

(** [redundancy[i, j] = v] *)
Definition matrix_set (m : list (list npfloat)) (i j : nat) (v : npfloat)
  : result (list (list npfloat)) :=
  match m !! i with
  | Some row =>
      if decide (j < length row)%nat then Ok (<[i := <[j := v]> row]> m)
      else Raise IndexError
  | None => Raise IndexError
  end.

(** [redundancy[i, j]] *)
Definition matrix_get (m : list (list npfloat)) (i j : nat) : option npfloat :=
  row ← m !! i; row !! j.

(** ** The redundancy matrix block of [eda] *)

Section Matrix.

Context `{SK : Sklearn}.

(** Lines 636-680: objective, predictor frame and target frame of the pair
    [(id_pred1, id_pred2)]. *)
Definition select_task (z : DataFrame) (id_pred1 id_pred2 : nat)
  : M (pyval * DataFrame * DataFrame) :=
  let mapping := df_columns z in
  target ← lift (list_item mapping id_pred2);
  con ← task_get "X_CON_NAMES";
  is_con ← lift (py_in target con);
  if is_con : bool then
    predictor ← lift (list_item mapping id_pred1);
    xt ← lift (getitem z predictor);
    yt ← lift (getitem z target);
    mret (PStr "regression", xt, yt)
  else
    bin ← task_get "X_CAT_BIN_NAMES";
    is_bin ← lift (py_in target bin);
    if is_bin : bool then
      predictor ← lift (list_item mapping id_pred1);
      xt ← lift (getitem z predictor);
      yt ← lift (factorized z target);
      mret (PStr "binary", xt, yt)
    else
      mult ← task_get "X_CAT_MULT_NAMES";
      is_mult ← lift (py_in target mult);
      if is_mult : bool then
        predictor ← lift (list_item mapping id_pred1);
        xt ← lift (getitem z predictor);
        yt ← lift (getitem z target);
        mret (PStr "regression", xt, yt)
      else
        ys ← task_get "Y_NAMES";
        is_y ← lift (py_in target ys);
        if is_y : bool then
          objective ← task_get "OBJECTIVE";
          predictor ← lift (list_item mapping id_pred1);
          xt ← lift (getitem z predictor);
          yt ← lift (if py_eq_str objective "regression"
                     then getitem z target else factorized z target);
          mret (objective, xt, yt)
        else
          lift (Raise objective_error).

(** One iteration of the pair loop (lines 633-683). *)
Definition pair_step (g z : DataFrame) (ids : nat * nat)
    (redundancy : list (list npfloat)) : M (list (list npfloat)) :=
  let '(id_pred1, id_pred2) := ids in
  '(objective, xt, yt) ← select_task z id_pred1 id_pred2;
  r ← compute_redundancy g xt yt objective;
  lift (matrix_set redundancy id_pred1 id_pred2 r).

Fixpoint pair_loop (g z : DataFrame) (pairs : list (nat * nat))
    (redundancy : list (list npfloat)) : M (list (list npfloat)) :=
  match pairs with
  | [] => mret redundancy
  | ids :: rest =>
      redundancy' ← pair_step g z ids redundancy;
      pair_loop g z rest redundancy'
  end.

(** The matrix built under [if task['DATA_REDUNDANCY']] (lines 631-683),
    for the preprocessed combined table [z]. *)
Definition eda_redundancy (g z : DataFrame) : M (list (list npfloat)) :=
  let n := length (df_columns z) in
  pair_loop g z (permutations2 (factorize_labels (df_columns z)))
    (np_ones n).

End Matrix.

(** ** The preprocessing of [eda] (lines 333-364) *)

(** The column transformer of lines 343-354: the columns each of its four
    transformers selects, and the fold count of the target encoder. *)
Record ColumnTransformer : Type := mkColumnTransformer {
  te_cv : pyval;
  con_pred : pyval;
  bin_pred : pyval;
  mult_pred : pyval;
  target_cols : pyval;
}.

(** What the development assumes of the preprocessing pipeline:
    [pre_pipe.fit_transform(pd.concat([x, y], axis=1), y.squeeze())] for the
    pipeline around a column transformer.  The target encoder shuffles, so
    the call draws from the random generator. *)
Class Pipeline `{SK : Sklearn} : Type := {
  fit_transform : ColumnTransformer -> DataFrame -> DataFrame -> Rng ->
                  result DataFrame * Rng;
}.

Section Preprocessing.

Context `{PL : Pipeline}.

Definition call_fit_transform (ct : ColumnTransformer) (x y : DataFrame)
  : M DataFrame :=
  fun w =>
    let '(r, rng') := fit_transform ct x y (rng w) in
    (r, mkWorld (task w) rng' (calls w)).

(** The combined, preprocessed table [z] of [eda]. *)
Definition eda_preprocess (x y : DataFrame) : M DataFrame :=
  n_cv_folds ← task_get "N_CV_FOLDS";
  con ← task_get "X_CON_NAMES";
  bin ← task_get "X_CAT_BIN_NAMES";
  mult ← task_get "X_CAT_MULT_NAMES";
  y_name ← task_get "y_name";
  call_fit_transform (mkColumnTransformer n_cv_folds con bin mult y_name) x y.

End Preprocessing.

(** ** Vocabulary of the specification *)

(** Modelled from the spec: [RepeatedGroupKFold] is an imported package; its
    fold-count law (section 4.1, "total number of splits produced = k × r")
    gives the number of splits a configured splitter produces. *)
Definition get_n_splits (cv : RepeatedGroupKFold) : option Z :=
  match n_splits cv, n_repeats cv with
  | PInt k, PInt r => Some (k * r)
  | _, _ => None
  end.

(** [r] is the ceiling of [a / b]. *)
Definition is_ceiling (r a b : Z) : Prop := (r - 1) * b < a <= r * b.

(** The metrics never exceed 1: the contract of [r2_score] (with its default
    [force_finite]) and of the chance-adjusted balanced accuracy. *)
Definition metrics_bounded `{SK : Sklearn} : Prop :=
  (forall y_true y_pred s, r2_score y_true y_pred = Ok s -> at_most_one s) /\
  (forall y_true y_pred s,
     balanced_accuracy_score y_true y_pred true = Ok s -> at_most_one s).

(** The four column roles, in the order the matrix block tests them. *)
Inductive role : Type := Continuous | BinaryCat | MultiCat | Target.

(** The first role list, in test order, that holds a column name. *)
Definition first_role (con bin mult ys : list string) (name : string)
  : option role :=
  if bool_decide (name ∈ con) then Some Continuous
  else if bool_decide (name ∈ bin) then Some BinaryCat
  else if bool_decide (name ∈ mult) then Some MultiCat
  else if bool_decide (name ∈ ys) then Some Target
  else None.

(** Objective of the dispatch table for a role, given the task objective. *)
Definition role_objective (task_objective : pyval) (r : role) : pyval :=
  match r with
  | Continuous => PStr "regression"
  | BinaryCat => PStr "binary"
  | MultiCat => PStr "regression"
  | Target => task_objective
  end.

(** Target encoding of the dispatch table: [true] for integer-factorized
    labels, [false] for raw values. *)
Definition role_factorized (task_objective : pyval) (r : role) : bool :=
  match r with
  | Continuous | MultiCat => false
  | BinaryCat => true
  | Target => negb (py_eq_str task_objective "regression")
  end.

(** The role lists a task holds. *)
Definition role_lists (t : gmap string pyval) (con bin mult ys : list string)
  : Prop :=
  t !! "X_CON_NAMES"%string = Some (PStrs con) /\
  t !! "X_CAT_BIN_NAMES"%string = Some (PStrs bin) /\
  t !! "X_CAT_MULT_NAMES"%string = Some (PStrs mult) /\
  t !! "Y_NAMES"%string = Some (PStrs ys).

(** The first column of a frame, as a list. *)
Definition column0 (df : DataFrame) : list npfloat :=
  map (fun r => hd NaN (snd r)) (df_rows df).


(** A row slice: [out] has the columns of [df], one row per index of [idx],
    in order; row [k] carries the label [k] and the values of the row of
    [df] at the position its index addresses. *)
Definition slice_of (df : DataFrame) (idx : list Z) (out : DataFrame) : Prop :=
  df_columns out = df_columns df /\
  length (df_rows out) = length idx /\
  forall (k : nat) (i : Z), idx !! k = Some i ->
    exists (p : nat) (label : Z) (vals : list npfloat),
      norm_index (length (df_rows df)) i = Some p /\
      df_rows df !! p = Some (label, vals) /\
      df_rows out !! k = Some (Z.of_nat k, vals).

(** An index array whose entries address rows of a frame with [n] rows. *)
Definition valid_indices (n : nat) (idx : list Z) : Prop :=
  Forall (fun i => - Z.of_nat n <= i < Z.of_nat n) idx.

(** Arithmetic mean of rationals. *)
Definition Qmean (qs : list Q) : Q :=
  (fold_right Qplus 0 qs / inject_Z (Z.of_nat (length qs)))%Q.

(** The raw values of the column at position [j], under its label and the
    index of the table. *)
Definition raw_column (z : DataFrame) (j : nat) (name : string) : DataFrame :=
  mkDataFrame [name]
    (map (fun r => (fst r, option_list (snd r !! j))) (df_rows z)).

(** The integer-factorized labels of the column at position [j], under its
    label and a fresh range index. *)
Definition factorized_column (z : DataFrame) (j : nat) (name : string)
  : DataFrame :=
  mkDataFrame [name]
    (imap (fun k c => (Z.of_nat k, [Fin (inject_Z c)]))
       (factorize_values (column0 (raw_column z j name)))).

(** The dispatch table of the matrix builder: objective, predictor frame and
    target frame for predictor column [i] and target column [j] of role [r]. *)
Definition dispatch (task_objective : pyval) (z : DataFrame) (i j : nat)
    (predictor target : string) (r : role) : pyval * DataFrame * DataFrame :=
  (role_objective task_objective r,
   raw_column z i predictor,
   if role_factorized task_objective r then factorized_column z j target
   else raw_column z j target).

Section Vocabulary.

Context `{SK : Sklearn}.

(** A score collected from one outer fold, in some state of the world. *)
Definition fold_scored (estimator : Estimator)
    (space : list (string * distribution)) (g x y : DataFrame)
    (objective : pyval) (split : list Z * list Z) (s : npfloat) : Prop :=
  exists w1 w2,
    outer_fold estimator space g x y objective split w1 = (Ok s, w2).

(** Postcondition of a run, whatever its outcome. *)
Definition post {A} (m : M A) (w : world)
    (Q : result A -> world -> Prop) : Prop :=
  Q (fst (m w)) (snd (m w)).

(** Every entry of the task outside [keys] is the same in both worlds. *)
Definition frame_except (keys : list string) (w w' : world) : Prop :=
  forall key, key ∉ keys -> task w' !! key = task w !! key.

(** The task entries a scorer run may write. *)
Definition derived_keys : list string :=
  ["n_rep_outer_cv"; "n_rep_inner_cv"]%string.

Definition task_frame (w w' : world) : Prop := frame_except derived_keys w w'.

(** What one outer fold does to the world: it writes at most the inner
    repeat count, and logs at most one search, configured from the task with
    the repeat count of its own train partition. *)
Definition fold_effect (g : DataFrame) (i_trn i_tst : list Z) (w w' : world)
  : Prop :=
  frame_except ["n_rep_inner_cv"%string] w w' /\
  (calls w' = calls w \/
   exists search x_trn y_trn g_trn g_tst n_pred_inner r n_cv_folds,
     calls w' = calls w ++ [EvFit search x_trn y_trn g_trn] /\
     split_data g i_trn i_tst = Ok (g_trn, g_tst) /\
     task w !! "N_PRED_INNER_CV"%string = Some n_pred_inner /\
     ceil_ratio n_pred_inner (shape0 g_trn) = Ok r /\
     task w !! "N_CV_FOLDS"%string = Some n_cv_folds /\
     task w' !! "n_rep_inner_cv"%string = Some (PInt r) /\
     rs_cv search = mkRepeatedGroupKFold n_cv_folds (PInt r) PNone).

(** Modelled from the spec: the fold-count law of the imported splitter
    (sections 4.1 and 8): a splitter yields as many splits as its settings
    say, [n_splits * n_repeats]. *)
Definition fold_count_law : Prop :=
  forall cv X groups rng0 splits rng1,
    cv_split cv X groups rng0 = (Ok splits, rng1) ->
    get_n_splits cv = Some (Z.of_nat (length splits)).

(** The search logged for one outer split: its inner splitter has
    [n_splits = k] and, as [n_repeats], the value of
    [mth.ceil(p_inner / n_train)] for [n_train] the row count of the group
    train partition of that split; for a row count a float64 holds exactly,
    this is the ceiling of the exact quotient. *)
Definition inner_repeats (g : DataFrame) (k p_inner : Z)
    (split : list Z * list Z) (ev : event) : Prop :=
  exists search x_trn y_trn g_trn g_tst r_inner,
    ev = EvFit search x_trn y_trn g_trn /\
    split_data g (fst split) (snd split) = Ok (g_trn, g_tst) /\
    ceil_ratio (PInt p_inner) (shape0 g_trn) = Ok r_inner /\
    rs_cv search = mkRepeatedGroupKFold (PInt k) (PInt r_inner) PNone /\
    (shape0 g_trn < 2 ^ 53 -> is_ceiling r_inner p_inner (shape0 g_trn)).

(** The inner repeat count a logged search was given. *)
Definition search_repeats (ev : event) : option pyval :=
  match ev with
  | EvFit search _ _ _ => Some (n_repeats (rs_cv search))
  | EvSplit _ _ => None
  end.

(** The step of the pair loop for [ids] returned, from some matrix and some
    state of the world. *)
Definition pair_succeeds (g z : DataFrame) (ids : nat * nat) : Prop :=
  exists red w1 red' w2, pair_step g z ids red w1 = (Ok red', w2).

End Vocabulary.

(** The contract of the column transformer with [remainder='drop'] and
    [verbose_feature_names_out=False]: a table it returns has one column per
    selected name, under that name, in the order of the transformers. *)
Definition selects_listed_columns `{PL : Pipeline} : Prop :=
  forall k con bin mult ys x y rng0 z rng1,
    fit_transform
      (mkColumnTransformer k (PStrs con) (PStrs bin) (PStrs mult) (PStrs ys))
      x y rng0 = (Ok z, rng1) ->
    df_columns z = con ++ bin ++ mult ++ ys.

(** A table of [n] rows of [n] scores. *)
Definition square (n : nat) (m : list (list npfloat)) : Prop :=
  length m = n /\ Forall (fun row => length row = n) m.

(** Every entry lies in [0, 1] and every diagonal entry is exactly 1. *)
Definition unit_entries (m : list (list npfloat)) : Prop :=
  forall (i j : nat) (v : npfloat),
    matrix_get m i j = Some v -> in_unit v /\ (i = j -> v = Fin 1).

(** A float bounded above by a rational ([NaN] and -inf count as bounded). *)
Definition bounded_by (k : Q) (x : npfloat) : Prop :=
  match x with
  | Fin q => (q <= k)%Q
  | PosInf => False
  | NaN | NegInf => True
  end.


(** ** A reference library in exact arithmetic

    A deterministic instance of the [Sklearn] interface, used to run the
    engine on concrete tables: a rotating grouped splitter, a search that
    runs its inner splitter and memorises the training rows, and the two metrics computed over the
    rationals. *)
Module Reference.

Definition finite (v : npfloat) : option Q :=
  match v with Fin q => Some q | _ => None end.

Definition finite_values (l : list npfloat) : option (list Q) :=
  mapM finite l.

Definition Qsum (l : list Q) : Q := fold_right Qplus 0%Q l.

Definition Qcount (n : nat) : Q := inject_Z (Z.of_nat n).

Definition sq (a : Q) : Q := (a * a)%Q.

(** Residual and total sums of squares. *)
Definition ss_res (ys ps : list Q) : Q :=
  Qsum (zip_with (fun y p => sq (y - p)) ys ps).

Definition ss_tot (ys : list Q) : Q :=
  let mean := (Qsum ys / Qcount (length ys))%Q in
  Qsum (map (fun y => sq (y - mean)) ys).

(** Coefficient of determination, finite by convention when the total sum of
    squares vanishes, NaN on fewer than two samples. *)
Definition r2 (y_true : DataFrame) (y_pred : list npfloat) : result npfloat :=
  match df_columns y_true with
  | [_] =>
      match finite_values (column0 y_true), finite_values y_pred with
      | Some ys, Some ps =>
          if decide (length ys = length ps) then
            if decide (length ys < 2)%nat then Ok NaN
            else if Qeq_bool (ss_tot ys) 0 then
              Ok (Fin (if Qeq_bool (ss_res ys ps) 0 then 1 else 0))
            else Ok (Fin (1 - ss_res ys ps / ss_tot ys))
          else Raise (ValueError "inconsistent numbers of samples")
      | _, _ => Raise (ValueError "Input contains NaN or infinity")
      end
  | _ => Raise (ValueError "y_true and y_pred have different shapes")
  end.

(** Distinct values, in order of first occurrence. *)
Fixpoint distinct (l : list Q) : list Q :=
  match l with
  | [] => []
  | a :: l' => a :: filter (fun b => Qeq_bool a b = false) (distinct l')
  end.

(** Recall of class [c]: hits over occurrences among the true labels. *)
Definition recall (ys ps : list Q) (c : Q) : Q :=
  let of_class := filter (fun yp => Qeq_bool (fst yp) c = true) (zip ys ps) in
  let hits := filter (fun yp => Qeq_bool (snd yp) c = true) of_class in
  (Qcount (length hits) / Qcount (length of_class))%Q.

(** Balanced accuracy: mean recall over the classes of the true labels;
    adjusted, chance maps to 0 and a perfect score to 1. *)
Definition balanced_accuracy (y_true : DataFrame) (y_pred : list npfloat)
    (adjusted : bool) : result npfloat :=
  match df_columns y_true with
  | [_] =>
      match finite_values (column0 y_true), finite_values y_pred with
      | Some ys, Some ps =>
          if decide (length ys = length ps) then
            match distinct ys with
            | [] => Raise (ValueError "no samples")
            | classes =>
                let n := Qcount (length classes) in
                let score := (Qsum (map (recall ys ps) classes) / n)%Q in
                if negb adjusted then Ok (Fin score)
                else if decide (length classes = 1)%nat then
                  Ok (if Qeq_bool score 1 then NaN else NegInf)
                else Ok (Fin ((score - 1 / n) / (1 - 1 / n)))
            end
          else Raise (ValueError "inconsistent numbers of samples")
      | _, _ => Raise (ValueError "Input contains NaN or infinity")
      end
  | _ => Raise (ValueError "y_true and y_pred have different shapes")
  end.

(** Rank of each row's group among the distinct groups. *)
Definition group_ranks (groups : DataFrame) : list nat :=
  factorize_from np_eqb [] (column0 groups).

(** One fold of one repeat: rows whose rotated group rank is [f] are tested,
    the others train. *)
Definition fold_of (k shift f : nat) (ranks : list nat) : list Z * list Z :=
  let tagged := imap (fun i r => (Z.of_nat i, (r + shift) mod k)%nat) ranks in
  (map fst (filter (fun ir => snd ir ≠ f) tagged),
   map fst (filter (fun ir => snd ir = f) tagged)).

Definition split (cv : RepeatedGroupKFold) (X groups : DataFrame) (seed : nat)
  : result (list (list Z * list Z)) * nat :=
  match n_splits cv, n_repeats cv with
  | PInt k, PInt r =>
      if decide (2 <= k /\ 1 <= r) then
        let ranks := group_ranks groups in
        if decide (Z.of_nat (length (remove_dups ranks)) < k) then
          (Raise (ValueError "fewer groups than folds"), seed)
        else
          let k' := Z.to_nat k in
          let r' := Z.to_nat r in
          (Ok (flat_map (fun rep =>
                 map (fun f => fold_of k' (seed + rep) f ranks) (seq 0 k'))
                 (seq 0 r')),
           (seed + r')%nat)
      else (Raise (ValueError "invalid splitter settings"), seed)
  | _, _ => (Raise TypeError, seed)
  end.

(** The fitted model: the training pairs, looked up by predictor value. *)
Definition model : Type := list (npfloat * npfloat).

(** The search runs its inner splitter over the training rows before any
    trial is fitted; a splitter that fails ends the search. *)
Definition fit (search : RandomizedSearchCV) (x_trn : DataFrame)
    (y_trn : squeezed) (g_trn : DataFrame) (seed : nat)
  : result model * nat :=
  match y_trn with
  | SqColumn _ vals =>
      if decide (length vals = length (df_rows x_trn)) then
        match split (rs_cv search) x_trn g_trn seed with
        | (Ok _, seed') => (Ok (zip (column0 x_trn) (map snd vals)), S seed')
        | (Raise e, seed') => (Raise e, seed')
        end
      else (Raise (LibraryError "inconsistent numbers of samples"), seed)
  | _ => (Raise (LibraryError "target is not a column"), seed)
  end.

Definition predict_one (m : model) (v : npfloat) : npfloat :=
  match list_find (fun xy => np_eqb (fst xy) v = true) m with
  | Some (_, xy) => snd xy
  | None => hd NaN (map snd m)
  end.

Definition predict_rows (m : model) (x_tst : DataFrame)
  : result (list npfloat) :=
  match m with
  | [] => Raise (LibraryError "model is not fitted")
  | _ => Ok (map (predict_one m) (column0 x_tst))
  end.

#[export] Instance sklearn : Sklearn := {|
  Rng := nat;
  Model := model;
  cv_split := split;
  search_fit := fit;
  predict := predict_rows;
  r2_score := r2;
  balanced_accuracy_score := balanced_accuracy;
|}.

(** [pd.concat([x, y], axis=1)] for two tables over the same rows. *)
Definition concat_columns (x y : DataFrame) : DataFrame :=
  mkDataFrame (df_columns x ++ df_columns y)
    (zip_with (fun rx ry => (fst rx, snd rx ++ snd ry))
       (df_rows x) (df_rows y)).

Definition listed (v : pyval) : list string :=
  match v with PStrs l => l | _ => [] end.

(** The reference pipeline selects the listed columns and leaves their
    values as they are.  Library versions differ on a name that is selected
    twice: the [strict] ones refuse it, the others return the label twice. *)
Definition select_listed (strict : bool) (ct : ColumnTransformer)
    (x y : DataFrame) (seed : nat) : result DataFrame * nat :=
  let z := concat_columns x y in
  let names :=
    listed (con_pred ct) ++ listed (bin_pred ct) ++ listed (mult_pred ct)
    ++ listed (target_cols ct) in
  if negb (bool_decide (Forall (fun name => name ∈ df_columns z) names)) then
    (Raise (ValueError "A given column is not a column of the dataframe"),
     seed)
  else if strict && negb (bool_decide (NoDup names)) then
    (Raise (ValueError "Duplicated feature names found"), seed)
  else
    (Ok (mkDataFrame names
           (map (fun r =>
                   (fst r,
                    flat_map (select_cols (df_columns z) (snd r)) names))
              (df_rows z))),
     S seed).

#[export] Instance pipeline : Pipeline :=
  {| fit_transform := select_listed true |}.

Definition lenient_pipeline : Pipeline :=
  {| fit_transform := select_listed false |}.

(** A small table: four groups of two rows, a predictor [a], a binary
    column [b], a multi-valued column [c] and a target [t]. *)
Definition column (name : string) (vals : list Q) : DataFrame :=
  mkDataFrame [name] (imap (fun i v => (Z.of_nat i, [Fin v])) vals).

Definition demo_g : DataFrame :=
  column "sample_id" [0; 0; 1; 1; 2; 2; 3; 3]%Q.
Definition demo_x : DataFrame := column "a" [1; 2; 1; 2; 1; 2; 1; 2]%Q.
Definition demo_y : DataFrame :=
  column "t" [10; 20; 10; 20; 10; 22; 10; 20]%Q.

Definition demo_z : DataFrame :=
  mkDataFrame ["a"; "b"; "c"; "t"]%string
    (imap (fun i vs => (Z.of_nat i, map Fin vs))
       [ [1; 0; 1 # 2; 10]; [2; 1; 3 # 2; 20]; [1; 0; 1 # 2; 10];
         [2; 1; 3 # 2; 20]; [1; 0; 1 # 2; 10]; [2; 1; 3 # 2; 22];
         [1; 0; 1 # 2; 10]; [2; 1; 3 # 2; 20] ]%Q).

Definition demo_task : gmap string pyval :=
  list_to_map
    [ ("N_JOBS", PInt (-2));
      ("N_CV_FOLDS", PInt 2);
      ("N_PRED_OUTER_CV", PInt 12);
      ("N_PRED_INNER_CV", PInt 6);
      ("N_SAMPLES_RS", PInt 2);
      ("DATA_REDUNDANCY", PBool true);
      ("OBJECTIVE", PStr "regression");
      ("X_CON_NAMES", PStrs ["a"]);
      ("X_CAT_BIN_NAMES", PStrs ["b"]);
      ("X_CAT_MULT_NAMES", PStrs ["c"]);
      ("Y_NAMES", PStrs ["t"]);
      ("y_name", PStrs ["t"]) ]%string.

Definition demo_world : world := mkWorld demo_task 0%nat [].

(** The same task with column [b] listed both as continuous and as binary
    categorical. *)
Definition overlap_world : world :=
  mkWorld (<["X_CON_NAMES"%string := PStrs ["a"; "b"]%string]> demo_task)
    0%nat [].

(** The three predictor columns of the small table. *)
Definition demo_predictors : DataFrame :=
  mkDataFrame ["a"; "b"; "c"]%string
    (map (fun r => (fst r, take 3 (snd r))) (df_rows demo_z)).

(** The same task with [a] also listed as a designated target, and a binary
    objective for the designated targets. *)
Definition shared_world : world :=
  mkWorld (<["OBJECTIVE"%string := PStr "binary"]>
             (<["Y_NAMES"%string := PStrs ["t"; "a"]%string]> demo_task))
    0%nat [].

(** The same task with column [c] in no role list. *)
Definition unknown_world : world :=
  mkWorld (<["X_CAT_MULT_NAMES"%string := PStrs []]> demo_task) 0%nat [].

(** The same task with a binary objective for the designated target. *)
Definition binary_world : world :=
  mkWorld (<["OBJECTIVE"%string := PStr "binary"]> demo_task) 0%nat [].

(** One scorer run on the small table, its score and the world it leaves. *)
Definition demo_run : result npfloat * world :=
  compute_redundancy demo_g demo_x demo_y (PStr "regression") demo_world.

Definition demo_score : npfloat :=
  Eval vm_compute in
    match fst demo_run with Ok r => r | Raise _ => NaN end.

Definition demo_after : world := snd demo_run.

(** One outer fold: the rows of the first and the third group are held
    out. *)
Definition demo_fold : result npfloat * world :=
  outer_fold (make_estimator LGBMRegressor (PStr "huber") None) search_space
    demo_g demo_x demo_y (PStr "regression")
    ([2; 3; 6; 7], [0; 1; 4; 5]) demo_world.

Definition demo_fold_score : npfloat :=
  Eval vm_compute in
    match fst demo_fold with Ok r => r | Raise _ => NaN end.

(** The matrix of the small table. *)
Definition demo_build : result (list (list npfloat)) * world :=
  eda_redundancy demo_g demo_z demo_world.

Definition demo_matrix : list (list npfloat) :=
  Eval vm_compute in
    match fst demo_build with Ok m => m | Raise _ => [] end.

End Reference.

(** ** Further vocabulary *)

Section MoreVocabulary.

Context `{SK : Sklearn}.

(** The search logged for one outer split: its train partitions of the
    predictor, target and group frames come from the same index arrays. *)
Definition fit_of_split (g x y : DataFrame) (split : list Z * list Z)
    (ev : event) : Prop :=
  exists search g_trn g_tst x_trn x_tst y_trn y_tst,
    ev = EvFit search x_trn y_trn g_trn /\
    split_data g (fst split) (snd split) = Ok (g_trn, g_tst) /\
    split_data x (fst split) (snd split) = Ok (x_trn, x_tst) /\
    split_data y (fst split) (snd split) = Ok (y_trn, y_tst).

(** Settings of a logged call, read against a task [t]: the search gets the
    estimator and space of [prepare], the scoring name of the objective, the
    trial count, job count and fold count of the task, refits the best trial
    and scores a failed fit as 0; no call fixes a random state. *)
Definition call_settings (objective : pyval) (t : gmap string pyval)
    (ev : event) : Prop :=
  match ev with
  | EvSplit cv _ =>
      t !! "N_CV_FOLDS"%string = Some (n_splits cv) /\
      cv_random_state cv = PNone
  | EvFit search _ _ _ =>
      prepare objective = Ok (rs_estimator search, rs_space search) /\
      get_scorer objective = Ok (scoring search) /\
      t !! "N_SAMPLES_RS"%string = Some (n_iter search) /\
      t !! "N_JOBS"%string = Some (rs_n_jobs search) /\
      t !! "N_CV_FOLDS"%string = Some (n_splits (rs_cv search)) /\
      refit search = true /\
      error_score search = 0 /\
      rs_random_state search = PNone /\
      cv_random_state (rs_cv search) = PNone
  end.

(** Two worlds that differ at most in the task entries [keys]. *)
Definition same_except (keys : list string) (w1 w2 : world) : Prop :=
  rng w1 = rng w2 /\ calls w1 = calls w2 /\
  forall key, key ∉ keys -> task w1 !! key = task w2 !! key.

(** Cell [(i, j)] of a matrix holds a score the scorer returned for the
    frames and objective picked for that pair. *)
Definition cell_scored (g z : DataFrame) (m : list (list npfloat))
    (ids : nat * nat) : Prop :=
  exists objective xt yt w1 w2 r,
    select_task z (fst ids) (snd ids) w1 = (Ok (objective, xt, yt), w1) /\
    compute_redundancy g xt yt objective w1 = (Ok r, w2) /\
    matrix_get m (fst ids) (snd ids) = Some r.

(** Two runs from worlds that differ at most in some task entries. *)
Definition sim {A} (R : world -> world -> Prop) (m : M A)
    (R' : world -> world -> Prop) : Prop :=
  forall w1 w2, R w1 w2 ->
    fst (m w1) = fst (m w2) /\ R' (snd (m w1)) (snd (m w2)).

End MoreVocabulary.

Definition is_split (ev : event) : bool :=
  match ev with EvSplit _ _ => true | EvFit _ _ _ _ => false end.

(** Number of splitter calls in a log. *)
Definition count_splits (evs : list event) : nat :=
  length (filter (fun ev => is_split ev = true) evs).

(** ** Data preparation of [main], one designated target (lines 1295-1322) *)

(** [df.index] *)
Definition df_index (df : DataFrame) : list Z := map fst (df_rows df).

Definition not_nan (v : npfloat) : bool :=
  match v with NaN => false | _ => true end.

(** [df.dropna()]: a row with a missing value is dropped; the others keep
    their labels. *)
Definition dropna (df : DataFrame) : DataFrame :=
  mkDataFrame (df_columns df)
    (filter (fun r => forallb not_nan (snd r) = true) (df_rows df)).

(** The row a reindexed frame holds under label [l]: the row of [df] with
    that label, or missing values. *)
Definition reindex_row (df : DataFrame) (l : Z) : Z * list npfloat :=
  match list_find (fun r => fst r = l) (df_rows df) with
  | Some (_, r) => (l, snd r)
  | None => (l, replicate (length (df_columns df)) NaN)
  end.

(** [df.reindex(index=labels)]; pandas refuses a frame whose own labels
    repeat. *)
Definition reindex (df : DataFrame) (labels : list Z) : result DataFrame :=
  if decide (NoDup (df_index df)) then
    Ok (mkDataFrame (df_columns df) (map (reindex_row df) labels))
  else Raise (ValueError "cannot reindex on an axis with duplicate labels").

Definition loc_label (rows : list (Z * list npfloat)) (l : Z)
  : result (list (Z * list npfloat)) :=
  match filter (fun r => fst r = l) rows with
  | [] => Raise (KeyError "not in index")
  | rs => Ok rs
  end.

Fixpoint loc_rows (rows : list (Z * list npfloat)) (labels : list Z)
  : result (list (Z * list npfloat)) :=
  match labels with
  | [] => Ok []
  | l :: labels' =>
      a ← loc_label rows l;
      b ← loc_rows rows labels';
      Ok (a ++ b)
  end.

(** [df.loc[labels, :]]: the rows under each label, in the order of the
    labels; a label the frame does not have is a [KeyError]. *)
Definition loc (df : DataFrame) (labels : list Z) : result DataFrame :=
  rs ← loc_rows (df_rows df) labels;
  Ok (mkDataFrame (df_columns df) rs).

(** [df.sample(n=n, random_state=None, ignore_index=False)]: [n] rows drawn
    without replacement, labels kept.  [choice len n] stands for the
    positions the random generator draws among [len] rows. *)
Definition sample (choice : nat -> nat -> list nat) (df : DataFrame) (n : Z)
  : result DataFrame :=
  if decide (n < 0) then
    Raise (ValueError "A negative number of rows requested.")
  else if decide (shape0 df < n) then
    Raise (ValueError "Cannot take a larger sample than population.")
  else iloc df (map Z.of_nat (choice (length (df_rows df)) (Z.to_nat n))).

(** [Y[y_name].to_frame()]: the column of the target, as a frame.  A label
    that several columns carry selects a frame, which has no [to_frame]. *)
Definition target_frame (Y : DataFrame) (y_name : string) : result DataFrame :=
  col ← getitem Y y_name;
  match df_columns col with
  | [_] => Ok col
  | _ => Raise (LibraryError "AttributeError: to_frame")
  end.

(** The body of the loop over the designated targets, up to the call of
    [eda]: groups, predictors and target of the rows whose target is known,
    limited to [MAX_SAMPLES] rows. *)
Definition prepare_target (choice : nat -> nat -> list nat)
    (G X Y : DataFrame) (y_name : string) (max_samples : Z)
  : result (DataFrame * DataFrame * DataFrame) :=
  col ← target_frame Y y_name;
  let y := dropna col in
  g ← reindex G (df_index y);
  let g := reset_index g in
  x ← reindex X (df_index y);
  let x := reset_index x in
  let y := reset_index y in
  x ← sample choice x (Z.min (shape0 x) max_samples);
  g ← loc g (df_index x);
  let g := reset_index g in
  y ← loc y (df_index x);
  let y := reset_index y in
  let x := reset_index x in
  Ok (g, x, y).

(** The values of the row at position [p]. *)
Definition row_values (F : DataFrame) (p : nat) : list npfloat :=
  from_option snd [] (df_rows F !! p).

(** The rows of [F] at the positions [src], in that order, relabelled
    0..len-1. *)
Definition gather (F : DataFrame) (src : list nat) : DataFrame :=
  mkDataFrame (df_columns F)
    (imap (fun k p => (Z.of_nat k, row_values F p)) src).

(** A frame as [read_excel] returns it: labelled 0..n-1. *)
Definition range_indexed (F : DataFrame) : Prop :=
  df_index F = map Z.of_nat (seq 0 (length (df_rows F))).

(** What [sample] draws: the requested number of distinct positions. *)
Definition sampler_ok (choice : nat -> nat -> list nat) : Prop :=
  forall len n, (n <= len)%nat ->
    length (choice len n) = n /\ NoDup (choice len n) /\
    Forall (fun p => (p < len)%nat) (choice len n).

(** The target at row [p] is known. *)
Definition target_known (Y : DataFrame) (j : nat) (y_name : string) (p : nat)
  : Prop :=
  forallb not_nan (row_values (raw_column Y j y_name) p) = true.

(** ** Further small inputs *)

Module Examples.

Import Reference.

(** The small task without [N_CV_FOLDS]. *)
Definition no_folds_world : world :=
  mkWorld (delete "N_CV_FOLDS"%string demo_task) 0%nat [].

(** The small task with a prediction count no float can hold. *)
Definition huge_world : world :=
  mkWorld (<["N_PRED_OUTER_CV"%string := PInt (2 ^ 1030)]> demo_task) 0%nat [].

(** A world whose task has no entry at all. *)
Definition empty_world : world := mkWorld ∅ 0%nat [].

(** The small task as a previous scorer run may have left it. *)
Definition stale_world : world :=
  mkWorld (<["n_rep_inner_cv"%string := PInt 7]>
             (<["n_rep_outer_cv"%string := PInt 99]> demo_task)) 0%nat [].

(** The small task with the objective of scenario D. *)
Definition ordinal_world : world :=
  mkWorld (<["OBJECTIVE"%string := PStr "ordinal"]> demo_task) 0%nat [].

(** A sampler: the last [n] of [len] positions, last first. *)
Definition last_rows (len n : nat) : list nat :=
  reverse (seq (len - n) n).

(** Two targets over the eight rows of the small table; [t] is unknown at
    rows 1 and 4. *)
Definition demo_Y : DataFrame :=
  mkDataFrame ["t"; "u"]%string
    (imap (fun i vs => (Z.of_nat i, vs))
       [ [Fin 10; Fin 1]; [NaN; Fin 2]; [Fin 10; NaN];
         [Fin 20; Fin 3]; [NaN; NaN]; [Fin 22; Fin 4];
         [Fin 10; Fin 5]; [Fin 20; NaN] ]).

End Examples.

(** * Properties *)

(** ** Running the monad *)

Section MonadFacts.

Context `{SK : Sklearn}.

Lemma run_bind {A B} (m : M A) (k : A -> M B) (w : world) :
  (x ← m; k x) w =
  match m w with
  | (Ok a, w') => k a w'
  | (Raise e, w') => (Raise e, w')
  end.
Proof. reflexivity. Qed.

Lemma bind_ok {A B} (m : M A) (k : A -> M B) (w w' : world) (b : B) :
  (x ← m; k x) w = (Ok b, w') ->
  exists a w1, m w = (Ok a, w1) /\ k a w1 = (Ok b, w').
Proof.
  rewrite run_bind. destruct (m w) as [[a|e] w1]; [eauto | discriminate].
Qed.

Lemma lift_ok {A} (r : result A) (w w' : world) (a : A) :
  lift r w = (Ok a, w') -> r = Ok a /\ w' = w.
Proof. unfold lift. intros [= -> ->]. auto. Qed.

Lemma task_get_ok (key : string) (w w' : world) (v : pyval) :
  task_get key w = (Ok v, w') -> task w !! key = Some v /\ w' = w.
Proof.
  unfold task_get. destruct (task w !! key); intros [= <- <-] || intros [=]; auto.
Qed.

Lemma task_get_some (key : string) (w : world) (v : pyval) :
  task w !! key = Some v -> task_get key w = (Ok v, w).
Proof. unfold task_get. intros ->. reflexivity. Qed.

(** A run whose result is known, paired with the world it leaves. *)
Lemma run_result {A} (p : result A * world) (r : result A) :
  fst p = r -> p = (r, snd p).
Proof. intros <-. destruct p; reflexivity. Qed.

End MonadFacts.

(** ** Row slices ([split_data]) *)

Lemma norm_index_lt (n : nat) (i : Z) (p : nat) :
  norm_index n i = Some p -> (p < n)%nat.
Proof.
  unfold norm_index. repeat case_decide; intros [= <-]; lia.
Qed.

Lemma norm_index_valid (n : nat) (i : Z) :
  - Z.of_nat n <= i < Z.of_nat n -> is_Some (norm_index n i).
Proof.
  intros Hi. unfold norm_index. repeat case_decide; eauto. lia.
Qed.

Lemma iloc_rows_spec (rows : list (Z * list npfloat)) (idx : list Z) :
  valid_indices (length rows) idx ->
  exists out,
    iloc_rows rows idx = Ok out /\
    length out = length idx /\
    forall (k : nat) (i : Z), idx !! k = Some i ->
      exists p r, norm_index (length rows) i = Some p /\
                  rows !! p = Some r /\ out !! k = Some r.
Proof.
  induction 1 as [|i idx Hi _ IH].
  - exists []. repeat split; auto. intros k i Hk. discriminate.
  - destruct IH as (out & Hout & Hlen & Hrows).
    destruct (norm_index_valid _ _ Hi) as [p Hp].
    pose proof (norm_index_lt _ _ _ Hp) as Hlt.
    destruct (lookup_lt_is_Some_2 rows p Hlt) as [r Hr].
    exists (r :: out). split; [|split].
    + cbn. unfold iloc_row. rewrite Hp, Hr. cbn. rewrite Hout. reflexivity.
    + cbn. lia.
    + intros [|k] j Hk.
      * injection Hk as <-. eauto.
      * apply Hrows in Hk. exact Hk.
Qed.

Lemma reset_index_rows (df : DataFrame) (k : nat) (r : Z * list npfloat) :
  df_rows df !! k = Some r ->
  df_rows (reset_index df) !! k = Some (Z.of_nat k, snd r).
Proof.
  intros H. unfold reset_index. cbn. rewrite list_lookup_imap, H. reflexivity.
Qed.

Lemma iloc_slice (df : DataFrame) (idx : list Z) :
  valid_indices (length (df_rows df)) idx ->
  exists out, iloc df idx = Ok out /\ slice_of df idx (reset_index out).
Proof.
  intros Hv. destruct (iloc_rows_spec _ _ Hv) as (rs & Hrs & Hlen & Hrows).
  exists (mkDataFrame (df_columns df) rs). split.
  - unfold iloc. rewrite Hrs. reflexivity.
  - split; [reflexivity | split].
    + cbn. rewrite length_imap. exact Hlen.
    + intros k i Hk. destruct (Hrows k i Hk) as (p & [label vals] & Hp & Hr & Ho).
      exists p, label, vals. repeat split; auto.
      apply (reset_index_rows (mkDataFrame (df_columns df) rs)) in Ho. exact Ho.
Qed.

(** C10: on a non-empty frame [split_data] returns the two row slices its
    index arrays select (in-bounds positions, negative ones counted from the
    end), each relabelled 0..len-1; on an empty frame it returns two empty
    frames whatever the index arrays are. *)
Theorem split_data_slices (df : DataFrame) (i_trn i_tst : list Z) :
  (df_empty df = false ->
   valid_indices (length (df_rows df)) i_trn ->
   valid_indices (length (df_rows df)) i_tst ->
   exists df_trn df_tst,
     split_data df i_trn i_tst = Ok (df_trn, df_tst) /\
     slice_of df i_trn df_trn /\ slice_of df i_tst df_tst) /\
  (df_empty df = true ->
   split_data df i_trn i_tst = Ok (empty_frame, empty_frame)).
Proof.
  split.
  - intros He Htrn Htst. unfold split_data. rewrite He. cbn.
    destruct (iloc_slice df i_trn Htrn) as (a & Ha & Sa).
    destruct (iloc_slice df i_tst Htst) as (b & Hb & Sb).
    exists (reset_index a), (reset_index b). rewrite Ha. cbn. rewrite Hb. cbn.
    auto.
  - intros He. unfold split_data. rewrite He. reflexivity.
Qed.

(** ** The pairwise scorer *)

Section ScorerFacts.

Context `{SK : Sklearn}.

(** Inversion of a successful run of a sequence of binds. *)
Ltac invert_run H :=
  repeat
    (let a := fresh "a" in
     let w1 := fresh "w" in
     let H1 := fresh "Hrun" in
     apply bind_ok in H; destruct H as (a & w1 & H1 & H);
     first
       [ apply lift_ok in H1; destruct H1 as [H1 ->]
       | apply task_get_ok in H1; destruct H1 as [H1 ->]
       | idtac ]).

(** C4: an objective outside regression, binary and multiclass makes
    [prepare] fail with the unsupported-objective error, so no estimator is
    built; [compute_redundancy] raises the same error, returns no score and
    leaves the world as it was. *)
Theorem unsupported_objective_fails (objective : pyval) :
  objective <> PStr "regression" ->
  objective <> PStr "binary" ->
  objective <> PStr "multiclass" ->
  prepare objective = Raise objective_error /\
  forall (g x y : DataFrame) (w : world),
    compute_redundancy g x y objective w = (Raise objective_error, w).
Proof.
  intros Hr Hb Hm.
  assert (Hp : prepare objective = Raise objective_error).
  { unfold prepare, py_eq_str.
    rewrite !bool_decide_eq_false_2 by assumption. reflexivity. }
  split; [exact Hp|].
  intros g x y w. unfold compute_redundancy.
  rewrite run_bind. unfold lift. rewrite Hp. reflexivity.
Qed.

Lemma score_results_cases (objective : pyval) (y_tst : DataFrame)
    (y_pred : list npfloat) (s : npfloat) :
  score_results objective y_tst y_pred = Ok s ->
  (objective = PStr "regression" /\ r2_score y_tst y_pred = Ok s) \/
  ((objective = PStr "binary" \/ objective = PStr "multiclass") /\
   balanced_accuracy_score y_tst y_pred true = Ok s).
Proof.
  unfold score_results, py_eq_str.
  destruct (bool_decide_reflect (objective = PStr "regression")); [auto|].
  destruct (bool_decide_reflect (objective = PStr "binary")); cbn; [auto|].
  destruct (bool_decide_reflect (objective = PStr "multiclass")); cbn; [auto|].
  discriminate.
Qed.

Lemma outer_fold_ok_inv (estimator : Estimator)
    (space : list (string * distribution)) (g x y : DataFrame)
    (objective : pyval) (i_trn i_tst : list Z) (w w' : world) (s : npfloat) :
  outer_fold estimator space g x y objective (i_trn, i_tst) w = (Ok s, w') ->
  exists y_trn y_tst x_trn x_tst g_trn g_tst search best y_pred rng1 rng2,
    split_data g i_trn i_tst = Ok (g_trn, g_tst) /\
    split_data y i_trn i_tst = Ok (y_trn, y_tst) /\
    split_data x i_trn i_tst = Ok (x_trn, x_tst) /\
    search_fit search x_trn (squeeze y_trn) g_trn rng1 = (Ok best, rng2) /\
    predict best x_tst = Ok y_pred /\
    score_results objective y_tst y_pred = Ok s.
Proof.
  intros H. unfold outer_fold in H.
  apply bind_ok in H. destruct H as ([g_trn g_tst] & w1 & Hg & H).
  apply lift_ok in Hg. destruct Hg as [Hg ->].
  apply bind_ok in H. destruct H as ([y_trn y_tst] & w1 & Hy & H).
  apply lift_ok in Hy. destruct Hy as [Hy ->].
  apply bind_ok in H. destruct H as ([x_trn x_tst] & w1 & Hx & H).
  apply lift_ok in Hx. destruct Hx as [Hx ->].
  invert_run H.
  apply lift_ok in H. destruct H as [Hs ->].
  unfold call_fit in Hrun7.
  match type of Hrun7 with
  | context [search_fit ?sr ?a ?b ?c ?d] =>
      destruct (search_fit sr a b c d) as [rb rng2] eqn:Hfit;
      exists y_trn, y_tst, x_trn, x_tst, g_trn, g_tst, sr
  end.
  injection Hrun7 as -> <-.
  eexists _, _, _, _. repeat split; eauto.
Qed.

(** C7: the score of an outer fold is [r2_score] of the held-out targets and
    the predictions of the refit search when the objective is regression, and
    [balanced_accuracy_score] with [adjusted=True] when it is binary or
    multiclass; nothing but the objective selects the metric. *)
Theorem outer_fold_metric (estimator : Estimator)
    (space : list (string * distribution)) (g x y : DataFrame)
    (objective : pyval) (i_trn i_tst : list Z) (w w' : world) (s : npfloat) :
  outer_fold estimator space g x y objective (i_trn, i_tst) w = (Ok s, w') ->
  exists y_trn y_tst x_trn x_tst g_trn g_tst search best y_pred rng1 rng2,
    split_data g i_trn i_tst = Ok (g_trn, g_tst) /\
    split_data y i_trn i_tst = Ok (y_trn, y_tst) /\
    split_data x i_trn i_tst = Ok (x_trn, x_tst) /\
    search_fit search x_trn (squeeze y_trn) g_trn rng1 = (Ok best, rng2) /\
    predict best x_tst = Ok y_pred /\
    ((objective = PStr "regression" /\ r2_score y_tst y_pred = Ok s) \/
     ((objective = PStr "binary" \/ objective = PStr "multiclass") /\
      balanced_accuracy_score y_tst y_pred true = Ok s)).
Proof.
  intros H. apply outer_fold_ok_inv in H.
  destruct H as (y_trn & y_tst & x_trn & x_tst & g_trn & g_tst & search &
                 best & y_pred & rng1 & rng2 & Hg & Hy & Hx & Hfit & Hp & Hs).
  exists y_trn, y_tst, x_trn, x_tst, g_trn, g_tst, search, best, y_pred,
    rng1, rng2.
  repeat split; auto. apply score_results_cases. exact Hs.
Qed.

Lemma outer_loop_scores (estimator : Estimator)
    (space : list (string * distribution)) (g x y : DataFrame)
    (objective : pyval) (splits : list (list Z * list Z)) :
  forall (acc scores : list npfloat) (w w' : world),
    outer_loop estimator space g x y objective splits acc w = (Ok scores, w') ->
    exists new,
      scores = acc ++ new /\
      Forall2 (fold_scored estimator space g x y objective) splits new.
Proof.
  induction splits as [|split rest IH]; intros acc scores w w' H.
  - injection H as <- <-. exists []. rewrite app_nil_r. auto.
  - cbn [outer_loop] in H. apply bind_ok in H.
    destruct H as (s & w1 & Hs & H).
    apply IH in H. destruct H as (new & -> & Hall).
    exists (s :: new). split.
    + rewrite <- app_assoc. reflexivity.
    + constructor; [exists w, w1; exact Hs | exact Hall].
Qed.

Lemma np_sum_finite (qs : list Q) (a : Q) :
  exists s, fold_left np_add (map Fin qs) (Fin a) = Fin s /\
            (s == a + fold_right Qplus 0 qs)%Q.
Proof.
  revert a. induction qs as [|q qs IH]; intros a; cbn.
  - exists a. split; [reflexivity | ring].
  - destruct (IH (a + q)%Q) as (s & Hs & Heq). exists s.
    split; [exact Hs | rewrite Heq; ring].
Qed.

Lemma py_max0_finite (m : Q) :
  exists q, py_max0 (Fin m) = Fin q /\ (q == Qmax 0 m)%Q.
Proof.
  unfold py_max0, np_gt0.
  destruct (Qle_bool m 0) eqn:E; cbn.
  - apply Qle_bool_iff in E. exists 0%Q. split; [reflexivity|].
    symmetry. apply Q.max_l. exact E.
  - exists m. split; [reflexivity|]. symmetry. apply Q.max_r.
    apply Qlt_le_weak, Qnot_le_lt. intros Hle.
    apply Qle_bool_iff in Hle. congruence.
Qed.

Lemma floored_mean_finite (qs : list Q) :
  qs <> [] ->
  exists q, py_max0 (np_mean (map Fin qs)) = Fin q /\
            (q == Qmax 0 (Qmean qs))%Q.
Proof.
  intros Hne. destruct qs as [|q0 qs]; [congruence|].
  unfold np_mean. cbn [map]. unfold np_sum.
  destruct (np_sum_finite (q0 :: qs) 0) as (s & Hs & Heq).
  cbn [map] in Hs. rewrite Hs. cbn [np_div_count].
  destruct (py_max0_finite (s / inject_Z (Z.of_nat (length (Fin q0 :: map Fin qs)))))
    as (q & Hq & Hmax).
  exists q. split; [exact Hq|]. rewrite Hmax. unfold Qmean.
  rewrite Heq, Qplus_0_l. cbn [length]. rewrite length_map. reflexivity.
Qed.

Lemma compute_redundancy_ok_inv (g x y : DataFrame)
    (objective : pyval) (w w' : world) (r : npfloat) :
  compute_redundancy g x y objective w = (Ok r, w') ->
  exists estimator space cv rng1 rng2 splits scores,
    prepare objective = Ok (estimator, space) /\
    cv_split cv g g rng1 = (Ok splits, rng2) /\
    Forall2 (fold_scored estimator space g x y objective) splits scores /\
    r = py_max0 (np_mean scores).
Proof.
  intros H. unfold compute_redundancy in H.
  apply bind_ok in H. destruct H as ([estimator space] & w1 & Hp & H).
  apply lift_ok in Hp. destruct Hp as [Hp ->].
  invert_run H.
  injection H as <- <-.
  unfold call_split in Hrun4.
  match type of Hrun4 with
  | context [cv_split ?cv ?a ?b ?c] =>
      destruct (cv_split cv a b c) as [rs rng2] eqn:Hsplit;
      exists estimator, space, cv, c, rng2
  end.
  injection Hrun4 as -> <-.
  apply outer_loop_scores in Hrun5. destruct Hrun5 as (new & -> & Hall).
  exists a4, new. cbn [app]. repeat split; auto.
Qed.

(** C1: the score [compute_redundancy] returns is [max(0, mean)] of the
    scores collected from the outer folds, one per split of the grouped
    splitter and in its order; for finite fold scores it is the arithmetic
    mean floored at zero. *)
Theorem compute_redundancy_floored_mean (g x y : DataFrame)
    (objective : pyval) (w w' : world) (r : npfloat) :
  compute_redundancy g x y objective w = (Ok r, w') ->
  exists estimator space cv rng1 rng2 splits scores,
    prepare objective = Ok (estimator, space) /\
    cv_split cv g g rng1 = (Ok splits, rng2) /\
    Forall2 (fold_scored estimator space g x y objective) splits scores /\
    r = py_max0 (np_mean scores) /\
    forall qs, scores = map Fin qs -> qs <> [] ->
      exists q, r = Fin q /\ (q == Qmax 0 (Qmean qs))%Q.
Proof.
  intros H. apply compute_redundancy_ok_inv in H.
  destruct H as (estimator & space & cv & rng1 & rng2 & splits & scores &
                 Hp & Hsplit & Hall & ->).
  exists estimator, space, cv, rng1, rng2, splits, scores.
  repeat split; auto.
  intros qs -> Hne. apply floored_mean_finite. exact Hne.
Qed.

End ScorerFacts.

(** ** Effects of the scorer on the world *)

(** A concrete key is not in a concrete list of keys. *)
Ltac solve_notin :=
  let H := fresh in
  intros H;
  repeat (apply elem_of_cons in H; destruct H as [H|H]; [discriminate H|]);
  apply elem_of_nil in H; exact H.

Section WorldFacts.

Context `{SK : Sklearn}.

Lemma post_bind {A B} (m : M A) (k : A -> M B) (w : world)
    (Q : result B -> world -> Prop) :
  post m w (fun r w1 =>
    match r with
    | Ok a => post (k a) w1 Q
    | Raise e => Q (Raise e) w1
    end) ->
  post (x ← m; k x) w Q.
Proof.
  unfold post. rewrite run_bind. destruct (m w) as [[a|e] w1]; auto.
Qed.

Lemma post_lift {A} (r : result A) (w : world)
    (Q : result A -> world -> Prop) :
  Q r w -> post (lift r) w Q.
Proof. auto. Qed.

Lemma post_ret {A} (a : A) (w : world) (Q : result A -> world -> Prop) :
  Q (Ok a) w -> post (mret a) w Q.
Proof. auto. Qed.

Lemma post_get (key : string) (w : world)
    (Q : result pyval -> world -> Prop) :
  (forall v, task w !! key = Some v -> Q (Ok v) w) ->
  (task w !! key = None -> Q (Raise (KeyError key)) w) ->
  post (task_get key) w Q.
Proof.
  intros Hs Hn. unfold post, task_get.
  destruct (task w !! key) as [v|]; cbn; auto.
Qed.

Lemma post_set (key : string) (v : pyval) (w : world)
    (Q : result unit -> world -> Prop) :
  Q (Ok tt) (mkWorld (<[key := v]> (task w)) (rng w) (calls w)) ->
  post (task_set key v) w Q.
Proof. auto. Qed.

Lemma post_call_split (cv : RepeatedGroupKFold) (g : DataFrame) (w : world)
    (Q : result (list (list Z * list Z)) -> world -> Prop) :
  (forall r rng',
     cv_split cv g g (rng w) = (r, rng') ->
     Q r (mkWorld (task w) rng' (calls w ++ [EvSplit cv g]))) ->
  post (call_split cv g) w Q.
Proof.
  intros H. unfold post, call_split.
  destruct (cv_split cv g g (rng w)) as [r rng'] eqn:E. cbn. auto.
Qed.

Lemma post_call_fit (search : RandomizedSearchCV)
    (x_trn y_trn g_trn : DataFrame) (w : world)
    (Q : result Model -> world -> Prop) :
  (forall r rng',
     search_fit search x_trn (squeeze y_trn) g_trn (rng w) = (r, rng') ->
     Q r (mkWorld (task w) rng' (calls w ++ [EvFit search x_trn y_trn g_trn]))) ->
  post (call_fit search x_trn y_trn g_trn) w Q.
Proof.
  intros H. unfold post, call_fit.
  destruct (search_fit search x_trn (squeeze y_trn) g_trn (rng w))
    as [r rng'] eqn:E. cbn. auto.
Qed.

Lemma post_weaken {A} (m : M A) (w : world)
    (Q Q' : result A -> world -> Prop) :
  post m w Q -> (forall r w', Q r w' -> Q' r w') -> post m w Q'.
Proof. unfold post. auto. Qed.

Lemma post_run {A} (m : M A) (w w' : world) (r : result A)
    (Q : result A -> world -> Prop) :
  post m w Q -> m w = (r, w') -> Q r w'.
Proof. unfold post. intros H E. rewrite E in H. exact H. Qed.

Lemma frame_except_refl keys (w : world) : frame_except keys w w.
Proof. intros key _. reflexivity. Qed.

Lemma frame_except_trans keys (w1 w2 w3 : world) :
  frame_except keys w1 w2 -> frame_except keys w2 w3 ->
  frame_except keys w1 w3.
Proof. intros H12 H23 key Hk. rewrite H23, H12 by assumption. reflexivity. Qed.

Lemma frame_except_mono keys keys' (w w' : world) :
  keys ⊆ keys' -> frame_except keys w w' -> frame_except keys' w w'.
Proof. intros Hsub H key Hk. apply H. intros Hin. apply Hk, Hsub, Hin. Qed.

Lemma frame_except_set keys (w0 w : world) (key : string) (v : pyval)
    rng' calls' :
  key ∈ keys ->
  frame_except keys w0 w ->
  frame_except keys w0 (mkWorld (<[key := v]> (task w)) rng' calls').
Proof.
  intros Hd H k Hk. cbn. rewrite lookup_insert_ne; [apply H; exact Hk|].
  intros <-. contradiction.
Qed.

Lemma frame_except_same_task keys (w0 w : world) rng' calls' :
  frame_except keys w0 w -> frame_except keys w0 (mkWorld (task w) rng' calls').
Proof. intros H k Hk. cbn. apply H. exact Hk. Qed.

Lemma outer_fold_effect (estimator : Estimator)
    (space : list (string * distribution)) (g x y : DataFrame)
    (objective : pyval) (i_trn i_tst : list Z) (w : world) :
  post (outer_fold estimator space g x y objective (i_trn, i_tst)) w
    (fun _ w' => fold_effect g i_trn i_tst w w').
Proof.
  assert (Hstay : fold_effect g i_trn i_tst w w).
  { split; [apply frame_except_refl | left; reflexivity]. }
  unfold outer_fold.
  apply post_bind, post_lift.
  destruct (split_data g i_trn i_tst) as [[g_trn g_tst]|e] eqn:Hg; [|exact Hstay].
  apply post_bind, post_lift.
  destruct (split_data y i_trn i_tst) as [[y_trn y_tst]|e]; [|exact Hstay].
  apply post_bind, post_lift.
  destruct (split_data x i_trn i_tst) as [[x_trn x_tst]|e]; [|exact Hstay].
  apply post_bind, post_lift.
  destruct (get_scorer objective) as [scorer|e]; [|exact Hstay].
  apply post_bind, post_get; [intros n_pred_inner Hpi | intros _; exact Hstay].
  apply post_bind, post_lift.
  destruct (ceil_ratio n_pred_inner (shape0 g_trn)) as [r|e] eqn:Hr;
    [|exact Hstay].
  apply post_bind, post_set.
  set (w1 := mkWorld (<["n_rep_inner_cv"%string := PInt r]> (task w)) (rng w) (calls w)).
  assert (Hw1 : fold_effect g i_trn i_tst w w1).
  { split; [|left; reflexivity].
    apply frame_except_set; [apply list_elem_of_here | apply frame_except_refl]. }
  apply post_bind, post_get; [intros n_samples_rs _ | intros _; exact Hw1].
  apply post_bind, post_get; [intros n_jobs _ | intros _; exact Hw1].
  apply post_bind, post_get; [intros n_cv_folds Hk | intros _; exact Hw1].
  apply post_bind, post_get; [intros n_rep_inner Hri | intros _; exact Hw1].
  cbn in Hk, Hri. rewrite lookup_insert_ne in Hk by discriminate.
  rewrite lookup_insert_eq in Hri. injection Hri as <-.
  apply post_bind, post_call_fit. intros rb rng' _.
  match goal with
  | |- context [EvFit ?s _ _ _] => set (search := s)
  end.
  set (w2 := mkWorld (task w1) rng' (calls w1 ++ [EvFit search x_trn y_trn g_trn])).
  assert (Hw2 : fold_effect g i_trn i_tst w w2).
  { split.
    - apply frame_except_same_task. apply Hw1.
    - right. exists search, x_trn, y_trn, g_trn, g_tst, n_pred_inner, r, n_cv_folds.
      repeat split; auto. cbn. apply lookup_insert_eq. }
  destruct rb as [best|e]; [|exact Hw2].
  apply post_bind, post_lift.
  destruct (predict best x_tst) as [y_pred|e]; [|exact Hw2].
  apply post_lift. exact Hw2.
Qed.

(** A fold that returns has logged one call. *)
Lemma outer_fold_logs (estimator : Estimator)
    (space : list (string * distribution)) (g x y : DataFrame)
    (objective : pyval) (i_trn i_tst : list Z) (w : world) :
  post (outer_fold estimator space g x y objective (i_trn, i_tst)) w
    (fun r w' => is_ok r = true -> exists ev, calls w' = calls w ++ [ev]).
Proof.
  unfold outer_fold.
  apply post_bind, post_lift.
  destruct (split_data g i_trn i_tst) as [[g_trn g_tst]|e]; [|discriminate].
  apply post_bind, post_lift.
  destruct (split_data y i_trn i_tst) as [[y_trn y_tst]|e]; [|discriminate].
  apply post_bind, post_lift.
  destruct (split_data x i_trn i_tst) as [[x_trn x_tst]|e]; [|discriminate].
  apply post_bind, post_lift.
  destruct (get_scorer objective) as [scorer|e]; [|discriminate].
  apply post_bind, post_get; [intros n_pred_inner _ | intros _; discriminate].
  apply post_bind, post_lift.
  destruct (ceil_ratio n_pred_inner (shape0 g_trn)) as [r|e]; [|discriminate].
  apply post_bind, post_set.
  apply post_bind, post_get; [intros n_samples_rs _ | intros _; discriminate].
  apply post_bind, post_get; [intros n_jobs _ | intros _; discriminate].
  apply post_bind, post_get; [intros n_cv_folds _ | intros _; discriminate].
  apply post_bind, post_get; [intros n_rep _ | intros _; discriminate].
  apply post_bind, post_call_fit. intros rb rng' _.
  destruct rb as [best|e]; [|discriminate].
  apply post_bind, post_lift.
  destruct (predict best x_tst) as [y_pred|e]; [|discriminate].
  apply post_lift. intros _. cbn [calls]. eexists. reflexivity.
Qed.

End WorldFacts.
(** ** Repeat counts *)

(** *** The float quotient of two counts *)

Lemma pow2_le_ratio_scaled (e a b n : Z) :
  0 <= n -> 0 <= n + e ->
  pow2_le_ratio e a b = true <-> b * 2 ^ (n + e) <= a * 2 ^ n.
Proof.
  intros Hn Hne. unfold pow2_le_ratio. rewrite Z.leb_le.
  destruct (Z.le_gt_cases 0 e) as [He|He].
  - rewrite (Z.max_r 0 e), (Z.max_l 0 (- e)) by lia.
    rewrite Z.pow_0_r, Z.mul_1_r, Z.pow_add_r by lia.
    assert (0 < 2 ^ n) by (apply Z.pow_pos_nonneg; lia). nia.
  - rewrite (Z.max_l 0 e), (Z.max_r 0 (- e)) by lia.
    rewrite Z.pow_0_r, Z.mul_1_r.
    replace n with ((n + e) + - e) at 2 by lia.
    rewrite (Z.pow_add_r 2 (n + e) (- e)) by lia.
    assert (0 < 2 ^ (n + e)) by (apply Z.pow_pos_nonneg; lia). nia.
Qed.

Lemma ratio_exponent_spec (a b : Z) :
  0 < a -> 0 < b ->
  pow2_le_ratio (ratio_exponent a b) a b = true /\
  pow2_le_ratio (ratio_exponent a b + 1) a b = false.
Proof.
  intros Ha Hb.
  destruct (Z.log2_spec a Ha) as [Ha1 Ha2].
  destruct (Z.log2_spec b Hb) as [Hb1 Hb2].
  pose proof (Z.log2_nonneg a) as Hla. pose proof (Z.log2_nonneg b) as Hlb.
  set (la := Z.log2 a) in *. set (lb := Z.log2 b) in *.
  rewrite Z.pow_succ_r in Ha2, Hb2 by assumption.
  assert (Hpa : 0 < 2 ^ la) by (apply Z.pow_pos_nonneg; lia).
  assert (Hpb : 0 < 2 ^ lb) by (apply Z.pow_pos_nonneg; lia).
  assert (Hlow : pow2_le_ratio (la - lb - 1) a b = true).
  { apply (pow2_le_ratio_scaled _ a b (lb + 1)); [lia | lia |].
    replace (lb + 1 + (la - lb - 1)) with la by lia.
    rewrite Z.pow_add_r, Z.pow_1_r by lia. nia. }
  assert (Hhigh : pow2_le_ratio (la - lb + 1) a b = false).
  { apply not_true_is_false. intros H.
    apply (pow2_le_ratio_scaled _ a b lb) in H; [|lia|lia].
    replace (lb + (la - lb + 1)) with (la + 1) in H by lia.
    rewrite Z.pow_add_r, Z.pow_1_r in H by lia. nia. }
  unfold ratio_exponent. fold la lb.
  destruct (pow2_le_ratio (la - lb) a b) eqn:Hmid.
  - split; [exact Hmid | exact Hhigh].
  - split; [exact Hlow|]. replace (la - lb - 1 + 1) with (la - lb) by lia.
    exact Hmid.
Qed.

Lemma round_half_even_cases (num den : Z) :
  0 < den ->
  let m := round_half_even num den in
  (m = num / den /\ 2 * (num mod den) <= den) \/
  (m = num / den + 1 /\ den <= 2 * (num mod den)).
Proof.
  intros Hden. unfold round_half_even. cbn zeta.
  destruct (2 * (num mod den) <? den) eqn:E1; [left; lia|].
  destruct (den <? 2 * (num mod den)) eqn:E2; [right; lia|].
  destruct (Z.even (num / den)); [left | right]; lia.
Qed.

Lemma round_half_even_lower (num den N : Z) :
  0 < den -> N * den <= num -> N <= round_half_even num den.
Proof.
  intros Hden HN.
  assert (N <= num / den) by (apply Z.div_le_lower_bound; lia).
  destruct (round_half_even_cases num den Hden) as [[-> _]|[-> _]]; lia.
Qed.

Lemma round_half_even_upper (num den N : Z) :
  0 < den -> num <= N * den -> round_half_even num den <= N.
Proof.
  intros Hden HN.
  pose proof (Z.div_mod num den ltac:(lia)) as Hdm.
  pose proof (Z.mod_pos_bound num den Hden) as Hm.
  destruct (round_half_even_cases num den Hden) as [[-> _]|[-> Hr]]; nia.
Qed.

(** For counts a float64 holds exactly, the ceiling of the float quotient is
    the ceiling of the exact quotient. *)
Lemma float64_ratio_ceiling (a b : Z) :
  0 < a < 2 ^ 53 -> 0 < b <= 2 ^ 1022 ->
  exists m s,
    float64_ratio a b = (m, s) /\ 0 <= s /\ m <= 2 ^ 53 /\
    is_ceiling (- ((- m) / 2 ^ s)) a b.
Proof.
  intros [Ha Ha53] [Hb Hb1022].
  destruct (ratio_exponent_spec a b Ha Hb) as [Hle Hgt].
  set (e := ratio_exponent a b) in *.
  assert (He52 : e <= 52).
  { destruct (Z.le_gt_cases e 52) as [H|H]; [exact H|exfalso].
    apply (pow2_le_ratio_scaled e a b 0) in Hle; [|lia|lia].
    rewrite Z.pow_0_r, Z.add_0_l in Hle.
    assert (2 ^ 53 <= 2 ^ e) by (apply Z.pow_le_mono_r; lia). nia. }
  assert (Hemin : -1022 <= e).
  { destruct (Z.le_gt_cases (-1022) e) as [H|H]; [exact H|exfalso].
    apply not_true_iff_false in Hgt. apply Hgt.
    apply (pow2_le_ratio_scaled (e + 1) a b (- (e + 1))); [lia|lia|].
    replace (- (e + 1) + (e + 1)) with 0 by lia. rewrite Z.pow_0_r.
    assert (2 ^ 1022 <= 2 ^ (- (e + 1))) by (apply Z.pow_le_mono_r; lia).
    nia. }
  unfold float64_ratio. fold e. rewrite (Z.max_l e (-1022)) by lia.
  set (s := 52 - e).
  assert (Hs : 0 <= s) by (unfold s; lia).
  rewrite (Z.max_r 0 s), (Z.max_l 0 (- s)) by lia.
  rewrite Z.pow_0_r, Z.mul_1_r.
  set (m := round_half_even (a * 2 ^ s) b).
  assert (Hps : 0 < 2 ^ s) by (apply Z.pow_pos_nonneg; lia).
  assert (Hscaled : b * 2 ^ 52 <= a * 2 ^ s).
  { apply (pow2_le_ratio_scaled e a b s) in Hle; [|lia|unfold s; lia].
    replace (s + e) with 52 in Hle by (unfold s; lia). exact Hle. }
  assert (Hm52 : 2 ^ 52 <= m).
  { apply round_half_even_lower; [exact Hb | lia]. }
  assert (Hm53 : m <= 2 ^ 53).
  { apply round_half_even_upper; [exact Hb|].
    apply not_true_iff_false in Hgt.
    destruct (Z.le_gt_cases (a * 2 ^ s) (2 ^ 53 * b)) as [H|H]; [exact H|].
    exfalso. apply Hgt.
    apply (pow2_le_ratio_scaled (e + 1) a b s); [lia | unfold s; lia |].
    replace (s + (e + 1)) with 53 by (unfold s; lia). lia. }
  exists m, s. split; [reflexivity|]. split; [exact Hs|]. split; [exact Hm53|].
  set (c := - ((- m) / 2 ^ s)).
  assert (Hc : (c - 1) * 2 ^ s < m <= c * 2 ^ s).
  { unfold c.
    pose proof (Z.div_mod (- m) (2 ^ s) ltac:(lia)) as Hdm.
    pose proof (Z.mod_pos_bound (- m) (2 ^ s) Hps) as Hmod. nia. }
  assert (Hc1 : 1 <= c).
  { assert (0 < 2 ^ 52) by (apply Z.pow_pos_nonneg; lia). nia. }
  unfold is_ceiling. split.
  - (* (c - 1) * b < a *)
    destruct (Z.lt_ge_cases ((c - 1) * b) a) as [H|H]; [exact H|exfalso].
    assert (m <= (c - 1) * 2 ^ s); [|lia].
    apply round_half_even_upper; [exact Hb | nia].
  - (* a <= c * b *)
    destruct (Z.le_gt_cases a (c * b)) as [H|H]; [exact H|exfalso].
    assert (Hmc : c * 2 ^ s <= m).
    { apply round_half_even_lower; [exact Hb | nia]. }
    assert (Hmeq : m = c * 2 ^ s) by lia.
    pose proof (Z.div_mod (a * 2 ^ s) b ltac:(lia)) as Hdm.
    pose proof (Z.mod_pos_bound (a * 2 ^ s) b Hb) as Hmod.
    destruct (round_half_even_cases (a * 2 ^ s) b Hb) as [[Hq Hr]|[Hq Hr]];
      fold m in Hq.
    + (* rounded down: the remainder is at most half of [b] *)
      assert (Hrem : (a * 2 ^ s) mod b = (a - c * b) * 2 ^ s) by nia.
      rewrite Hrem in Hr, Hmod.
      assert (Hb2 : 2 * 2 ^ s <= b) by nia.
      assert (Halt : a < (c + 1) * b) by nia.
      assert (Hce : 2 ^ 52 <= c * 2 ^ s).
      { lia. }
      assert (H53 : 2 ^ 53 = 2 * 2 ^ 52) by reflexivity.
      nia.
    + (* rounded up: [m] exceeds the quotient *)
      nia.
Qed.

(** [mth.ceil(p / n)] is the ceiling of the exact quotient when both counts
    are below [2^53], the integers a float64 holds exactly. *)
Lemma ceil_ratio_exact (p n r : Z) :
  0 <= p < 2 ^ 53 -> 0 <= n < 2 ^ 53 ->
  ceil_ratio (PInt p) n = Ok r -> is_ceiling r p n.
Proof.
  intros [Hp Hp53] [Hn Hn53]. unfold ceil_ratio, py_truediv.
  cbn [py_number mbind result_mbind result_bind].
  destruct (decide (n = 0)) as [|Hn0]; [discriminate|].
  destruct (decide (p = 0)) as [->|Hp0].
  - intros [= <-]. change (math_ceil 0) with 0. unfold is_ceiling. lia.
  - assert (Hn1022 : n <= 2 ^ 1022).
    { assert (2 ^ 53 <= 2 ^ 1022) by (apply Z.pow_le_mono_r; lia). lia. }
    destruct (float64_ratio_ceiling p n ltac:(lia) ltac:(lia))
      as (m & s & Hms & Hs & Hm & Hceil).
    rewrite (Z.abs_eq p), (Z.abs_eq n), Hms by lia.
    rewrite (Z.max_l 0 (- s)), Z.pow_0_r, Z.mul_1_r by lia.
    assert (H53 : 2 ^ 53 < 2 ^ 1024) by (apply Z.pow_lt_mono_r; lia).
    destruct (Z.leb_spec (2 ^ 1024) m) as [Hover|_]; [lia|].
    intros [= <-].
    assert (Hps : 0 < 2 ^ s) by (apply Z.pow_pos_nonneg; lia).
    assert (Hval : (inject_Z (Z.sgn p * Z.sgn n) * float64_value m s
                    == m # Z.to_pos (2 ^ s))%Q).
    { rewrite (Z.sgn_pos p), (Z.sgn_pos n) by lia. unfold float64_value.
      destruct (Z.leb_spec 0 s) as [_|Hneg]; [|lia].
      change (inject_Z (1 * 1)) with 1%Q. apply Qmult_1_l. }
    unfold math_ceil. rewrite Hval. unfold Qceiling, Qfloor, Qopp.
    cbn [Qnum Qden]. rewrite Z2Pos.id by exact Hps. exact Hceil.
Qed.

Section LoopFacts.

Context `{SK : Sklearn}.

Lemma shape0_nonneg (df : DataFrame) : 0 <= shape0 df.
Proof. unfold shape0. lia. Qed.

(** A fold that returns has logged exactly one search, configured with the
    repeat count of its own train partition, which it has left in the
    task. *)
Lemma outer_fold_repeats (estimator : Estimator)
    (space : list (string * distribution)) (g x y : DataFrame)
    (objective : pyval) (i_trn i_tst : list Z) (w w' : world) (s : npfloat) :
  outer_fold estimator space g x y objective (i_trn, i_tst) w = (Ok s, w') ->
  frame_except ["n_rep_inner_cv"%string] w w' /\
  exists search x_trn y_trn g_trn g_tst n_pred_inner r n_cv_folds,
    calls w' = calls w ++ [EvFit search x_trn y_trn g_trn] /\
    split_data g i_trn i_tst = Ok (g_trn, g_tst) /\
    task w !! "N_PRED_INNER_CV"%string = Some n_pred_inner /\
    ceil_ratio n_pred_inner (shape0 g_trn) = Ok r /\
    task w !! "N_CV_FOLDS"%string = Some n_cv_folds /\
    task w' !! "n_rep_inner_cv"%string = Some (PInt r) /\
    rs_cv search = mkRepeatedGroupKFold n_cv_folds (PInt r) PNone.
Proof.
  intros Hrun.
  pose proof (outer_fold_effect estimator space g x y objective i_trn i_tst w)
    as Heff.
  pose proof (outer_fold_logs estimator space g x y objective i_trn i_tst w)
    as Hlog.
  unfold post in Heff, Hlog. rewrite Hrun in Heff, Hlog. cbn [fst snd] in *.
  destruct Heff as [Hframe Hcalls]. split; [exact Hframe|].
  destruct (Hlog eq_refl) as (ev & Hev).
  destruct Hcalls as [Hnone | Hsome].
  - rewrite Hnone in Hev. apply (f_equal length) in Hev.
    rewrite length_app in Hev. cbn in Hev. lia.
  - exact Hsome.
Qed.

(** A loop that returns has logged one search per split, in order, each with
    the repeat count of its own train partition; the task holds the count of
    the last one. *)
Lemma outer_loop_repeats (estimator : Estimator)
    (space : list (string * distribution)) (g x y : DataFrame)
    (objective : pyval) (k p_inner : Z) (splits : list (list Z * list Z)) :
  0 <= p_inner < 2 ^ 53 ->
  forall (acc scores : list npfloat) (w w' : world),
    task w !! "N_CV_FOLDS"%string = Some (PInt k) ->
    task w !! "N_PRED_INNER_CV"%string = Some (PInt p_inner) ->
    outer_loop estimator space g x y objective splits acc w = (Ok scores, w') ->
    frame_except ["n_rep_inner_cv"%string] w w' /\
    exists fits,
      calls w' = calls w ++ fits /\
      Forall2 (inner_repeats g k p_inner) splits fits /\
      task w' !! "n_rep_inner_cv"%string
      = from_option search_repeats (task w !! "n_rep_inner_cv"%string)
          (last fits).
Proof.
  intros Hp.
  induction splits as [|[i_trn i_tst] rest IH]; intros acc scores w w' Hk Hpi Hrun.
  - cbn in Hrun. injection Hrun as _ <-. split; [apply frame_except_refl|].
    exists []. rewrite app_nil_r. split; [reflexivity|]. split; [constructor|].
    reflexivity.
  - cbn [outer_loop] in Hrun. apply bind_ok in Hrun.
    destruct Hrun as (s & w1 & Hfold & Hrest).
    apply outer_fold_repeats in Hfold.
    destruct Hfold as [Hf1 (search & x_trn & y_trn & g_trn & g_tst & v & r & kf &
                            Hc1 & Hsplit & Hv & Hr & Hkf & Hstored & Hcv)].
    rewrite Hpi in Hv. injection Hv as <-.
    rewrite Hk in Hkf. injection Hkf as <-.
    assert (Hk1 : task w1 !! "N_CV_FOLDS"%string = Some (PInt k))
      by (rewrite Hf1; [exact Hk | solve_notin]).
    assert (Hpi1 : task w1 !! "N_PRED_INNER_CV"%string = Some (PInt p_inner))
      by (rewrite Hf1; [exact Hpi | solve_notin]).
    destruct (IH _ _ _ _ Hk1 Hpi1 Hrest) as [Hf2 (fits & Hc2 & Hall & Hlast)].
    split; [eapply frame_except_trans; eassumption|].
    exists (EvFit search x_trn y_trn g_trn :: fits).
    split; [rewrite Hc2, Hc1, <- app_assoc; reflexivity|]. split.
    + constructor; [|exact Hall].
      exists search, x_trn, y_trn, g_trn, g_tst, r. cbn [fst snd].
      do 4 (split; [solve [auto]|]).
      intros Hrows. apply ceil_ratio_exact; [exact Hp | | exact Hr].
      split; [apply shape0_nonneg | exact Hrows].
    + rewrite Hlast. destruct fits as [|ev fits'].
      * cbn. rewrite Hstored, Hcv. reflexivity.
      * change (last (EvFit search x_trn y_trn g_trn :: ev :: fits'))
          with (last (ev :: fits')).
        destruct (last (ev :: fits')) as [e|] eqn:E; [reflexivity|].
        apply last_None in E. discriminate E.
Qed.

Lemma outer_loop_frame (estimator : Estimator)
    (space : list (string * distribution)) (g x y : DataFrame)
    (objective : pyval) (splits : list (list Z * list Z)) :
  forall (acc : list npfloat) (w : world),
    post (outer_loop estimator space g x y objective splits acc) w
      (fun _ w' => frame_except ["n_rep_inner_cv"%string] w w').
Proof.
  induction splits as [|[i_trn i_tst] rest IH]; intros acc w.
  - apply post_ret. apply frame_except_refl.
  - cbn [outer_loop]. apply post_bind.
    eapply post_weaken; [apply outer_fold_effect|].
    intros r w1 [Hf _]. destruct r as [s|e]; [|exact Hf].
    eapply post_weaken; [apply IH|].
    intros r' w2 H2. cbn beta in H2. eapply frame_except_trans; eassumption.
Qed.

Lemma compute_redundancy_frame (g x y : DataFrame) (objective : pyval)
    (w : world) :
  post (compute_redundancy g x y objective) w
    (fun r w' =>
       task_frame w w' /\
       (is_ok r = true ->
        exists v n,
          task w !! "N_PRED_OUTER_CV"%string = Some v /\
          ceil_ratio v (shape0 g) = Ok n /\
          task w' !! "n_rep_outer_cv"%string = Some (PInt n))).
Proof.
  assert (Hstay : task_frame w w) by apply frame_except_refl.
  unfold compute_redundancy.
  apply post_bind, post_lift.
  destruct (prepare objective) as [[estimator space]|e];
    [|split; [exact Hstay | discriminate]].
  apply post_bind, post_get;
    [intros v Hv | intros _; split; [exact Hstay | discriminate]].
  apply post_bind, post_lift.
  destruct (ceil_ratio v (shape0 g)) as [r|e] eqn:Hr;
    [|split; [exact Hstay | discriminate]].
  apply post_bind, post_set.
  set (w1 := mkWorld (<["n_rep_outer_cv"%string := PInt r]> (task w)) (rng w) (calls w)).
  assert (Hw1 : task_frame w w1).
  { apply frame_except_set; [apply list_elem_of_here | apply frame_except_refl]. }
  apply post_bind, post_get;
    [intros k Hk | intros _; split; [exact Hw1 | discriminate]].
  apply post_bind, post_get;
    [intros v' Hv' | intros _; split; [exact Hw1 | discriminate]].
  apply post_bind, post_call_split. intros rs rng' _.
  match goal with
  | |- context [EvSplit ?c g] => set (cv := c)
  end.
  set (w2 := mkWorld (task w1) rng' (calls w1 ++ [EvSplit cv g])).
  assert (Hw2 : task_frame w w2).
  { apply frame_except_same_task. exact Hw1. }
  destruct rs as [splits|e]; [|split; [exact Hw2 | discriminate]].
  apply post_bind.
  eapply post_weaken; [apply outer_loop_frame|].
  intros rl w3 H3. cbn beta in H3.
  assert (Hw3 : task_frame w w3).
  { eapply frame_except_trans; [exact Hw2|].
    eapply frame_except_mono; [|exact H3].
    intros key Hin. apply list_elem_of_further. exact Hin. }
  destruct rl as [scores|e]; [|split; [exact Hw3 | discriminate]].
  apply post_ret. split; [exact Hw3|]. intros _.
  exists v, r. repeat split; auto.
  rewrite H3 by solve_notin. cbn. apply lookup_insert_eq.
Qed.

(** C6: in a scorer run that returns, for integer settings and counts below
    [2^53] (which a float64 holds exactly).  The outer repeat count is the
    ceiling of [N_PRED_OUTER_CV / n], [n] the row count of the group vector;
    it is stored under [n_rep_outer_cv] and given, with
    [n_splits = N_CV_FOLDS], to the one outer splitter, which is run on the
    group vector.  By the fold-count law that splitter yields
    [N_CV_FOLDS * ceil(N_PRED_OUTER_CV / n)] splits, and each of them gets
    one search, whose inner splitter has as repeat count the ceiling of
    [N_PRED_INNER_CV / n_train], [n_train] the row count of the train
    partition of that split; the count of the last search is what
    [n_rep_inner_cv] holds in the end. *)
Theorem repeat_counts_configured (g x y : DataFrame) (objective : pyval)
    (k p_outer p_inner : Z) (w w' : world) (score : npfloat) :
  fold_count_law ->
  task w !! "N_CV_FOLDS"%string = Some (PInt k) ->
  task w !! "N_PRED_OUTER_CV"%string = Some (PInt p_outer) ->
  task w !! "N_PRED_INNER_CV"%string = Some (PInt p_inner) ->
  0 <= p_outer < 2 ^ 53 -> 0 <= p_inner < 2 ^ 53 -> shape0 g < 2 ^ 53 ->
  compute_redundancy g x y objective w = (Ok score, w') ->
  exists (r_outer : Z) (splits : list (list Z * list Z)) (rng1 : Rng)
         (fits : list event),
    let cv := mkRepeatedGroupKFold (PInt k) (PInt r_outer) PNone in
    is_ceiling r_outer p_outer (shape0 g) /\
    task w' !! "n_rep_outer_cv"%string = Some (PInt r_outer) /\
    cv_split cv g g (rng w) = (Ok splits, rng1) /\
    Z.of_nat (length splits) = k * r_outer /\
    calls w' = calls w ++ EvSplit cv g :: fits /\
    Forall2 (inner_repeats g k p_inner) splits fits /\
    (forall ev, last fits = Some ev ->
       task w' !! "n_rep_inner_cv"%string = search_repeats ev).
Proof.
  intros Hlaw Hk Hpo Hpi Hpo53 Hpi53 Hg53 Hrun.
  unfold compute_redundancy in Hrun.
  apply bind_ok in Hrun. destruct Hrun as ([estimator space] & w0 & Hprep & Hrun).
  apply lift_ok in Hprep. destruct Hprep as [_ ->].
  apply bind_ok in Hrun. destruct Hrun as (v & w0 & Hget & Hrun).
  apply task_get_ok in Hget. destruct Hget as [Hv ->].
  rewrite Hpo in Hv. injection Hv as <-.
  apply bind_ok in Hrun. destruct Hrun as (r_outer & w0 & Hceil & Hrun).
  apply lift_ok in Hceil. destruct Hceil as [Hceil ->].
  apply bind_ok in Hrun. destruct Hrun as ([] & w1 & Hset & Hrun).
  unfold task_set in Hset. injection Hset as <-.
  apply bind_ok in Hrun. destruct Hrun as (kf & w0 & Hget & Hrun).
  apply task_get_ok in Hget. destruct Hget as [Hkf ->].
  cbn [task] in Hkf. rewrite lookup_insert_ne in Hkf by discriminate.
  rewrite Hk in Hkf. injection Hkf as <-.
  apply bind_ok in Hrun. destruct Hrun as (nr & w0 & Hget & Hrun).
  apply task_get_ok in Hget. destruct Hget as [Hnr ->].
  cbn [task] in Hnr. rewrite lookup_insert_eq in Hnr. injection Hnr as <-.
  apply bind_ok in Hrun. destruct Hrun as (splits & w2 & Hsplit & Hrun).
  unfold call_split in Hsplit. cbn [task rng calls] in Hsplit.
  set (cv := mkRepeatedGroupKFold (PInt k) (PInt r_outer) PNone) in *.
  destruct (cv_split cv g g (rng w)) as [rs rng1] eqn:Hcv.
  injection Hsplit as -> <-.
  apply bind_ok in Hrun. destruct Hrun as (scores & w3 & Hloop & Hret).
  injection Hret as _ <-.
  apply (outer_loop_repeats estimator space g x y objective k p_inner splits
           Hpi53) in Hloop.
  - destruct Hloop as [Hframe (fits & Hcalls & Hall & Hlast)].
    exists r_outer, splits, rng1, fits. cbn zeta. fold cv.
    split.
    { apply ceil_ratio_exact; [exact Hpo53 | | exact Hceil].
      split; [apply shape0_nonneg | exact Hg53]. }
    split.
    { rewrite Hframe by solve_notin. cbn [task]. apply lookup_insert_eq. }
    split; [exact Hcv|].
    split.
    { pose proof (Hlaw cv g g (rng w) splits rng1 Hcv) as Hn.
      cbn in Hn. injection Hn as Hn. lia. }
    split.
    { rewrite Hcalls. cbn [calls]. rewrite <- app_assoc. reflexivity. }
    split; [exact Hall|].
    intros ev Hev. rewrite Hlast, Hev. reflexivity.
  - cbn [task]. rewrite lookup_insert_ne by discriminate. exact Hk.
  - cbn [task]. rewrite lookup_insert_ne by discriminate. exact Hpi.
Qed.

(** C8, as the code has it: a scorer run, whatever its outcome, leaves every
    task entry other than the derived repeat counts [n_rep_outer_cv] and
    [n_rep_inner_cv] as it was; those two it writes in place, and a run that
    returns has stored the value of [mth.ceil(N_PRED_OUTER_CV / n)] under
    [n_rep_outer_cv], which for counts below [2^53] is the ceiling of the
    exact quotient. *)
Theorem task_kept_except_repeat_counts (g x y : DataFrame)
    (objective : pyval) (w : world) :
  let out := compute_redundancy g x y objective w in
  (forall key, key ∉ derived_keys -> task (snd out) !! key = task w !! key) /\
  (is_ok (fst out) = true ->
   exists v n,
     task w !! "N_PRED_OUTER_CV"%string = Some v /\
     ceil_ratio v (shape0 g) = Ok n /\
     task (snd out) !! "n_rep_outer_cv"%string = Some (PInt n) /\
     (forall p, v = PInt p -> 0 <= p < 2 ^ 53 -> shape0 g < 2 ^ 53 ->
        is_ceiling n p (shape0 g))).
Proof.
  intros out. pose proof (compute_redundancy_frame g x y objective w) as H.
  unfold post in H. fold out in H. destruct H as [Hframe Hok].
  split; [exact Hframe|]. intros Hret.
  destruct (Hok Hret) as (v & n & Hv & Hn & Hstored).
  exists v, n. do 3 (split; [assumption|]).
  intros p -> Hp Hg. apply ceil_ratio_exact; [exact Hp | | exact Hn].
  split; [apply shape0_nonneg | exact Hg].
Qed.

End LoopFacts.

(** ** Column selection and the dispatch on roles *)

Lemma filter_none {A} (P : A -> Prop) `{forall x, Decision (P x)} (l : list A) :
  (forall x, x ∈ l -> ~ P x) -> filter P l = [].
Proof.
  induction l as [|a l IH]; intros Hall; [reflexivity|].
  rewrite filter_cons_False by (apply Hall, list_elem_of_here).
  apply IH. intros x Hx. apply Hall, list_elem_of_further, Hx.
Qed.

Lemma filter_label_unique (cols : list string) (name : string) (j : nat) :
  NoDup cols -> cols !! j = Some name ->
  filter (fun c => c = name) cols = [name].
Proof.
  revert j. induction cols as [|c cols IH]; intros j Hnd Hj; [discriminate|].
  apply NoDup_cons in Hnd. destruct Hnd as [Hnotin Hnd].
  destruct j as [|j]; cbn in Hj.
  - injection Hj as ->. rewrite filter_cons_True by reflexivity. f_equal.
    apply filter_none. intros c Hc ->. contradiction.
  - rewrite filter_cons_False; [eapply IH; eassumption|].
    intros ->. apply Hnotin. eapply list_elem_of_lookup_2. exact Hj.
Qed.

Lemma select_cols_unique {A} (cols : list string) (vs : list A)
    (name : string) (j : nat) :
  NoDup cols -> cols !! j = Some name ->
  select_cols cols vs name = option_list (vs !! j).
Proof.
  unfold select_cols. revert vs j.
  induction cols as [|c cols IH]; intros vs j Hnd Hj; [discriminate|].
  apply NoDup_cons in Hnd. destruct Hnd as [Hnotin Hnd].
  destruct vs as [|v vs].
  - cbn. reflexivity.
  - destruct j as [|j]; cbn in Hj.
    + injection Hj as ->. cbn [zip_with zip]. change (zip_with pair cols vs) with (zip cols vs).
      rewrite filter_cons_True by reflexivity. cbn. f_equal.
      rewrite filter_none; [reflexivity|].
      intros [c v'] Hin Heq. cbn in Heq. subst c.
      apply Hnotin. apply elem_of_zip_l in Hin. exact Hin.
    + cbn [zip_with zip]. change (zip_with pair cols vs) with (zip cols vs).
      rewrite filter_cons_False.
      * cbn. eapply IH; eassumption.
      * cbn. intros ->. apply Hnotin. eapply list_elem_of_lookup_2. exact Hj.
Qed.

Lemma getitem_raw_column (z : DataFrame) (name : string) (j : nat) :
  NoDup (df_columns z) -> df_columns z !! j = Some name ->
  getitem z name = Ok (raw_column z j name).
Proof.
  intros Hnd Hj. unfold getitem, raw_column.
  rewrite decide_True by (eapply list_elem_of_lookup_2; exact Hj).
  rewrite (filter_label_unique _ _ j Hnd Hj). do 2 f_equal.
  apply map_ext. intros [l vs]. cbn. f_equal.
  apply select_cols_unique; assumption.
Qed.

Lemma factorized_column_spec (z : DataFrame) (name : string) (j : nat) :
  NoDup (df_columns z) -> df_columns z !! j = Some name ->
  factorized z name = Ok (factorized_column z j name).
Proof.
  intros Hnd Hj. unfold factorized.
  rewrite (getitem_raw_column z name j Hnd Hj). reflexivity.
Qed.

Section DispatchFacts.

Context `{SK : Sklearn}.

(** The branch [select_task] takes is the first role list holding the target
    column. *)
Lemma select_task_first_role (z : DataFrame) (i j : nat) (w : world)
    (con bin mult ys : list string) (target : string) :
  role_lists (task w) con bin mult ys ->
  df_columns z !! j = Some target ->
  select_task z i j w =
  (match first_role con bin mult ys target with
   | Some Continuous | Some MultiCat =>
       predictor ← list_item (df_columns z) i;
       xt ← getitem z predictor;
       yt ← getitem z target;
       Ok (PStr "regression", xt, yt)
   | Some BinaryCat =>
       predictor ← list_item (df_columns z) i;
       xt ← getitem z predictor;
       yt ← factorized z target;
       Ok (PStr "binary", xt, yt)
   | Some Target =>
       match task w !! "OBJECTIVE"%string with
       | Some objective =>
           predictor ← list_item (df_columns z) i;
           xt ← getitem z predictor;
           yt ← (if py_eq_str objective "regression"
                 then getitem z target else factorized z target);
           Ok (objective, xt, yt)
       | None => Raise (KeyError "OBJECTIVE")
       end
   | None => Raise objective_error
   end, w).
Proof.
  intros (Hcon & Hbin & Hmult & Hys) Hj.
  assert (Htail : forall (objective : pyval) (yr : result DataFrame),
    (predictor ← lift (list_item (df_columns z) i);
     xt ← lift (getitem z predictor);
     yt ← lift yr;
     mret (objective, xt, yt)) w =
    (predictor ← list_item (df_columns z) i;
     xt ← getitem z predictor;
     yt ← yr;
     Ok (objective, xt, yt), w)).
  { intros objective yr. rewrite run_bind. unfold lift at 1.
    destruct (list_item (df_columns z) i) as [predictor|e]; [|reflexivity].
    rewrite run_bind. unfold lift at 1. cbn [mbind result_mbind result_bind].
    destruct (getitem z predictor) as [xt|e]; [|reflexivity].
    rewrite run_bind. unfold lift at 1. cbn [mbind result_mbind result_bind].
    destruct yr as [yt|e]; reflexivity. }
  unfold select_task, first_role.
  rewrite run_bind. unfold lift at 1, list_item at 1. rewrite Hj.
  rewrite run_bind, (task_get_some _ _ _ Hcon).
  rewrite run_bind. unfold lift at 1. cbn [py_in].
  destruct (bool_decide (target ∈ con)); [apply Htail|].
  rewrite run_bind, (task_get_some _ _ _ Hbin).
  rewrite run_bind. unfold lift at 1. cbn [py_in].
  destruct (bool_decide (target ∈ bin)); [apply Htail|].
  rewrite run_bind, (task_get_some _ _ _ Hmult).
  rewrite run_bind. unfold lift at 1. cbn [py_in].
  destruct (bool_decide (target ∈ mult)); [apply Htail|].
  rewrite run_bind, (task_get_some _ _ _ Hys).
  rewrite run_bind. unfold lift at 1. cbn [py_in].
  destruct (bool_decide (target ∈ ys)); [|reflexivity].
  rewrite run_bind. unfold task_get at 1.
  destruct (task w !! "OBJECTIVE"%string) as [objective|]; [|reflexivity].
  apply Htail.
Qed.

(** With unique labels, the frames selected are the raw or factorized columns
    of the dispatch table. *)
Lemma select_task_dispatch (z : DataFrame) (i j : nat) (w : world)
    (con bin mult ys : list string) (predictor target : string)
    (task_objective : pyval) (r : role) :
  role_lists (task w) con bin mult ys ->
  task w !! "OBJECTIVE"%string = Some task_objective ->
  NoDup (df_columns z) ->
  df_columns z !! i = Some predictor ->
  df_columns z !! j = Some target ->
  first_role con bin mult ys target = Some r ->
  select_task z i j w =
  (Ok (dispatch task_objective z i j predictor target r), w).
Proof.
  intros Hroles Hobj Hnd Hi Hj Hr.
  rewrite (select_task_first_role z i j w con bin mult ys target Hroles Hj).
  rewrite Hr, Hobj. unfold dispatch, list_item. rewrite Hi.
  pose proof (getitem_raw_column z predictor i Hnd Hi) as Hx.
  pose proof (getitem_raw_column z target j Hnd Hj) as Hy.
  pose proof (factorized_column_spec z target j Hnd Hj) as Hf.
  destruct r; cbn; rewrite Hx; cbn; rewrite ?Hy, ?Hf; try reflexivity.
  destruct (py_eq_str task_objective "regression"); cbn;
    rewrite ?Hy, ?Hf; reflexivity.
Qed.

(** C3: for columns [i] and [j] of a table with unique labels, the objective
    and target encoding handed to the scorer follow the role of the predicted
    column [j] alone: continuous gives regression on raw values, binary
    categorical gives binary on integer-factorized labels, multi-categorical
    gives regression on raw values, and a designated target gives the task
    objective with raw values if that is regression and integer-factorized
    labels otherwise; the predictor frame is column [i] as it is. *)
Theorem objective_follows_target_role (z : DataFrame) (i j : nat) (w : world)
    (con bin mult ys : list string) (predictor target : string)
    (task_objective : pyval) :
  role_lists (task w) con bin mult ys ->
  task w !! "OBJECTIVE"%string = Some task_objective ->
  NoDup (df_columns z) ->
  df_columns z !! i = Some predictor ->
  df_columns z !! j = Some target ->
  (target ∈ con ->
   select_task z i j w =
   (Ok (PStr "regression", raw_column z i predictor, raw_column z j target),
    w)) /\
  (target ∉ con -> target ∈ bin ->
   select_task z i j w =
   (Ok (PStr "binary", raw_column z i predictor, factorized_column z j target),
    w)) /\
  (target ∉ con -> target ∉ bin -> target ∈ mult ->
   select_task z i j w =
   (Ok (PStr "regression", raw_column z i predictor, raw_column z j target),
    w)) /\
  (target ∉ con -> target ∉ bin -> target ∉ mult -> target ∈ ys ->
   select_task z i j w =
   (Ok (task_objective, raw_column z i predictor,
        if bool_decide (task_objective = PStr "regression")
        then raw_column z j target else factorized_column z j target),
    w)).
Proof.
  intros Hroles Hobj Hnd Hi Hj.
  pose proof (fun r => select_task_dispatch z i j w con bin mult ys predictor
                         target task_objective r Hroles Hobj Hnd Hi Hj) as H.
  unfold first_role in H.
  repeat split.
  - intros Hc. rewrite (H Continuous); [reflexivity|].
    rewrite bool_decide_eq_true_2 by assumption. reflexivity.
  - intros Hc Hb. rewrite (H BinaryCat); [reflexivity|].
    rewrite bool_decide_eq_false_2, bool_decide_eq_true_2 by assumption.
    reflexivity.
  - intros Hc Hb Hm. rewrite (H MultiCat); [reflexivity|].
    rewrite !bool_decide_eq_false_2, bool_decide_eq_true_2 by assumption.
    reflexivity.
  - intros Hc Hb Hm Hy. rewrite (H Target).
    + unfold dispatch. cbn. unfold py_eq_str.
      destruct (bool_decide (task_objective = PStr "regression")); reflexivity.
    + rewrite !bool_decide_eq_false_2, bool_decide_eq_true_2 by assumption.
      reflexivity.
Qed.

End DispatchFacts.

Section Overlap.

Context `{PL : Pipeline}.

(** The preprocessing reads the task and does not write it; under the
    contract of the column transformer the labels of the table it returns
    are the three predictor lists and the current target, in that order. *)
Lemma eda_preprocess_columns (x y z : DataFrame) (w w1 : world)
    (con bin mult ys : list string) (yn : string) :
  selects_listed_columns ->
  role_lists (task w) con bin mult ys ->
  task w !! "y_name"%string = Some (PStrs [yn]) ->
  eda_preprocess x y w = (Ok z, w1) ->
  df_columns z = con ++ bin ++ mult ++ [yn] /\ task w1 = task w.
Proof.
  intros Hct (Hcon & Hbin & Hmult & _) Hyn Hrun.
  unfold eda_preprocess in Hrun.
  apply bind_ok in Hrun. destruct Hrun as (k & w0 & Hget & Hrun).
  apply task_get_ok in Hget. destruct Hget as [_ ->].
  apply bind_ok in Hrun. destruct Hrun as (v1 & w0 & Hget & Hrun).
  apply task_get_ok in Hget. destruct Hget as [H1 ->].
  rewrite Hcon in H1. injection H1 as <-.
  apply bind_ok in Hrun. destruct Hrun as (v2 & w0 & Hget & Hrun).
  apply task_get_ok in Hget. destruct Hget as [H2 ->].
  rewrite Hbin in H2. injection H2 as <-.
  apply bind_ok in Hrun. destruct Hrun as (v3 & w0 & Hget & Hrun).
  apply task_get_ok in Hget. destruct Hget as [H3 ->].
  rewrite Hmult in H3. injection H3 as <-.
  apply bind_ok in Hrun. destruct Hrun as (v4 & w0 & Hget & Hrun).
  apply task_get_ok in Hget. destruct Hget as [H4 ->].
  rewrite Hyn in H4. injection H4 as <-.
  unfold call_fit_transform in Hrun.
  destruct (fit_transform _ x y (rng w)) as [rz rng1] eqn:Hfit.
  injection Hrun as -> <-.
  split; [|reflexivity]. eapply Hct. exact Hfit.
Qed.

(** C9, as the code has it.  The table the matrix block works on has one
    column per name the preprocessing selects, so its labels are unique
    exactly when the three predictor lists and the current target share no
    name; a name in two role lists then is a predictor that [Y_NAMES] lists
    too.  On such a table a column named in several role lists raises no
    error in the dispatch; its role is the first list, in the order
    continuous, binary-categorical, multi-categorical, designated target,
    that names it.  In particular a column both continuous and designated
    target is predicted under the regression objective on raw values,
    whatever the task objective. *)
Theorem overlapping_roles_by_precedence (x y z : DataFrame) (w w1 w2 : world)
    (con bin mult ys : list string) (yn : string) (task_objective : pyval) :
  selects_listed_columns ->
  role_lists (task w) con bin mult ys ->
  task w !! "y_name"%string = Some (PStrs [yn]) ->
  task w !! "OBJECTIVE"%string = Some task_objective ->
  eda_preprocess x y w = (Ok z, w1) ->
  task w2 = task w1 ->
  (NoDup (df_columns z) <-> NoDup (con ++ bin ++ mult ++ [yn])) /\
  (NoDup (df_columns z) ->
   forall (i j : nat) (predictor target : string) (r : role),
     df_columns z !! i = Some predictor ->
     df_columns z !! j = Some target ->
     first_role con bin mult ys target = Some r ->
     select_task z i j w2 =
       (Ok (dispatch task_objective z i j predictor target r), w2) /\
     (target ∈ con -> r = Continuous) /\
     (target ∉ con -> target ∈ bin -> r = BinaryCat) /\
     (target ∉ con -> target ∉ bin -> target ∈ mult -> r = MultiCat) /\
     (target ∈ con -> target ∈ ys ->
      select_task z i j w2 =
      (Ok (PStr "regression", raw_column z i predictor, raw_column z j target),
       w2))).
Proof.
  intros Hct Hroles Hyn Hobj Hrun Htask.
  destruct (eda_preprocess_columns x y z w w1 con bin mult ys yn
              Hct Hroles Hyn Hrun) as [Hcols Hkeep].
  split; [rewrite Hcols; reflexivity|].
  intros Hnd i j predictor target r Hi Hj Hr.
  assert (Hroles2 : role_lists (task w2) con bin mult ys)
    by (rewrite Htask, Hkeep; exact Hroles).
  assert (Hobj2 : task w2 !! "OBJECTIVE"%string = Some task_objective)
    by (rewrite Htask, Hkeep; exact Hobj).
  pose proof (select_task_dispatch z i j w2 con bin mult ys predictor target
                task_objective r Hroles2 Hobj2 Hnd Hi Hj Hr) as H.
  split; [exact H|].
  unfold first_role in Hr.
  split; [|split; [|split]].
  - intros Hc. rewrite bool_decide_eq_true_2 in Hr by assumption. congruence.
  - intros Hc Hb.
    rewrite bool_decide_eq_false_2, bool_decide_eq_true_2 in Hr by assumption.
    congruence.
  - intros Hc Hb Hm.
    rewrite !bool_decide_eq_false_2, bool_decide_eq_true_2 in Hr by assumption.
    congruence.
  - intros Hc _. rewrite bool_decide_eq_true_2 in Hr by assumption.
    injection Hr as <-. exact H.
Qed.

End Overlap.


(** ** Scores in the unit interval *)

Lemma np_add_bounded (k : Q) (acc s : npfloat) :
  bounded_by k acc -> at_most_one s -> bounded_by (k + 1) (np_add acc s).
Proof.
  destruct acc as [| | |a], s as [| | |b]; cbn; try tauto.
  intros Ha Hb. lra.
Qed.

Lemma np_sum_bounded (l : list npfloat) :
  forall (k : Q) (acc : npfloat),
    bounded_by k acc -> Forall at_most_one l ->
    bounded_by (k + inject_Z (Z.of_nat (length l))) (fold_left np_add l acc).
Proof.
  induction l as [|s l IH]; intros k acc Hacc Hall.
  - cbn [fold_left length]. change (inject_Z (Z.of_nat 0)) with 0%Q.
    destruct acc; cbn [bounded_by] in *; auto. lra.
  - apply Forall_cons in Hall. destruct Hall as [Hs Hall].
    cbn [fold_left].
    pose proof (IH (k + 1)%Q (np_add acc s) (np_add_bounded k acc s Hacc Hs) Hall)
      as H.
    assert (Heq : (k + 1 + inject_Z (Z.of_nat (length l))
                   == k + inject_Z (Z.of_nat (length (s :: l))))%Q).
    { cbn [length]. rewrite Nat2Z.inj_succ. unfold Z.succ.
      rewrite inject_Z_plus. ring. }
    destruct (fold_left np_add l (np_add acc s)); cbn [bounded_by] in *; auto.
    rewrite <- Heq. exact H.
Qed.

Lemma py_max0_in_unit (x : npfloat) : at_most_one x -> in_unit (py_max0 x).
Proof.
  unfold py_max0, np_gt0. destruct x as [| | |q]; cbn; try lra; try tauto.
  intros Hq. destruct (Qle_bool q 0) eqn:E; cbn.
  - lra.
  - split; [|exact Hq]. apply Qlt_le_weak, Qnot_le_lt. intros Hle.
    apply Qle_bool_iff in Hle. congruence.
Qed.

Lemma floored_mean_in_unit (scores : list npfloat) :
  Forall at_most_one scores -> in_unit (py_max0 (np_mean scores)).
Proof.
  intros Hall. apply py_max0_in_unit.
  destruct scores as [|s scores]; [exact I|].
  unfold np_mean, np_sum.
  pose proof (np_sum_bounded (s :: scores) 0 (Fin 0) ltac:(cbn; lra) Hall) as H.
  set (n := length (s :: scores)) in *.
  assert (Hn : (0 < inject_Z (Z.of_nat n))%Q).
  { change 0%Q with (inject_Z 0). rewrite <- Zlt_Qlt. subst n. cbn [length]. lia. }
  destruct (fold_left np_add (s :: scores) (Fin 0)) as [| | |q]; cbn in *; auto.
  apply Qle_shift_div_r; [exact Hn|]. lra.
Qed.

(** ** Pairs of column codes *)

Lemma factorize_from_fresh (l : list string) :
  forall uniques : list string,
    NoDup (uniques ++ l) ->
    factorize_from (fun a b => bool_decide (a = b)) uniques l
    = seq (length uniques) (length l).
Proof.
  induction l as [|a l IH]; intros uniques Hnd; [reflexivity|].
  cbn [factorize_from length seq].
  assert (Hfind : list_find (fun u => bool_decide (u = a) = true) uniques = None).
  { apply list_find_None, Forall_forall. intros u Hu Heq.
    apply bool_decide_eq_true_1 in Heq. subst u.
    apply NoDup_app in Hnd. destruct Hnd as (_ & Hdisj & _).
    apply (Hdisj a Hu), list_elem_of_here. }
  rewrite Hfind. f_equal.
  rewrite IH.
  - rewrite length_app. cbn. f_equal. lia.
  - rewrite <- app_assoc. exact Hnd.
Qed.

Lemma factorize_labels_unique (cols : list string) :
  NoDup cols -> factorize_labels cols = seq 0 (length cols).
Proof. intros Hnd. apply (factorize_from_fresh cols []). exact Hnd. Qed.

Lemma elem_of_permutations2 {A} (l : list A) (a b : A) :
  (a, b) ∈ permutations2 l <->
  exists p q, p <> q /\ l !! p = Some a /\ l !! q = Some b.
Proof.
  unfold permutations2. split.
  - intros H. apply list_elem_of_In, in_flat_map in H.
    destruct H as ([p a'] & Hp & H). apply in_flat_map in H.
    destruct H as ([q b'] & Hq & H).
    apply list_elem_of_In, elem_of_lookup_imap in Hp, Hq.
    destruct Hp as (p' & a'' & [= -> ->] & Hp).
    destruct Hq as (q' & b'' & [= -> ->] & Hq).
    cbn in H. case_decide; [destruct H|].
    destruct H as [[= -> ->]|[]]. eauto.
  - intros (p & q & Hne & Hp & Hq).
    apply list_elem_of_In, in_flat_map. exists (p, a). split.
    { apply list_elem_of_In, elem_of_lookup_imap. eauto. }
    apply in_flat_map. exists (q, b). split.
    { apply list_elem_of_In, elem_of_lookup_imap. eauto. }
    cbn. rewrite decide_False by assumption. left. reflexivity.
Qed.

Lemma pairs_of_unique_labels (cols : list string) (i j : nat) :
  NoDup cols ->
  ((i, j) ∈ permutations2 (factorize_labels cols) <->
   i <> j /\ (i < length cols)%nat /\ (j < length cols)%nat).
Proof.
  intros Hnd. rewrite (factorize_labels_unique cols Hnd), elem_of_permutations2.
  split.
  - intros (p & q & Hne & Hp & Hq).
    apply lookup_seq in Hp, Hq. destruct Hp as [-> Hp], Hq as [-> Hq].
    cbn. auto.
  - intros (Hne & Hi & Hj). exists i, j. split; [exact Hne|].
    split; apply lookup_seq; cbn; auto.
Qed.

(** ** The matrix build *)

Lemma matrix_set_ok (m m' : list (list npfloat)) (i j : nat) (v : npfloat) :
  matrix_set m i j v = Ok m' ->
  exists row, m !! i = Some row /\ (j < length row)%nat /\
              m' = <[i := <[j := v]> row]> m.
Proof.
  unfold matrix_set. destruct (m !! i) as [row|]; [|discriminate].
  case_decide; [|discriminate]. intros [= <-]. eauto.
Qed.

Lemma matrix_set_square (n : nat) (m m' : list (list npfloat)) (i j : nat)
    (v : npfloat) :
  matrix_set m i j v = Ok m' -> square n m -> square n m'.
Proof.
  intros H [Hlen Hrows]. apply matrix_set_ok in H.
  destruct H as (row & Hrow & Hj & ->). split.
  - rewrite length_insert. exact Hlen.
  - apply Forall_insert; [exact Hrows|]. rewrite length_insert.
    eapply Forall_lookup_1 in Hrows; [|exact Hrow]. exact Hrows.
Qed.

Lemma matrix_set_unit_entries (m m' : list (list npfloat)) (i j : nat)
    (v : npfloat) :
  matrix_set m i j v = Ok m' -> i <> j -> in_unit v ->
  unit_entries m -> unit_entries m'.
Proof.
  intros H Hne Hv Hm. apply matrix_set_ok in H.
  destruct H as (row & Hrow & Hj & ->).
  intros a b u Hget. unfold matrix_get in Hget.
  destruct (decide (a = i)) as [->|Ha].
  - rewrite list_lookup_insert_eq in Hget by (eapply lookup_lt_Some; exact Hrow).
    cbn in Hget. destruct (decide (b = j)) as [->|Hb].
    + rewrite list_lookup_insert_eq in Hget by exact Hj.
      injection Hget as <-. split; [exact Hv | intros ?; contradiction].
    + rewrite list_lookup_insert_ne in Hget by auto.
      apply (Hm i b u). unfold matrix_get. rewrite Hrow. exact Hget.
  - rewrite list_lookup_insert_ne in Hget by auto. apply (Hm a b u). exact Hget.
Qed.

Lemma np_ones_square (n : nat) : square n (np_ones n).
Proof.
  unfold np_ones. split; [apply length_replicate|].
  apply Forall_replicate. apply length_replicate.
Qed.

Lemma np_ones_unit_entries (n : nat) : unit_entries (np_ones n).
Proof.
  intros i j v H. unfold matrix_get, np_ones in H.
  destruct (replicate n (replicate n (Fin 1)) !! i) as [row|] eqn:E;
    [|discriminate].
  apply lookup_replicate in E. destruct E as [-> _]. cbn in H.
  apply lookup_replicate in H. destruct H as [-> _].
  split; [cbn; lra | reflexivity].
Qed.

Lemma role_lists_frame `{SK : Sklearn} (w w' : world)
    (con bin mult ys : list string) :
  task_frame w w' ->
  role_lists (task w) con bin mult ys -> role_lists (task w') con bin mult ys.
Proof.
  intros Hf (Hc & Hb & Hm & Hy). unfold role_lists.
  rewrite !Hf by solve_notin. auto.
Qed.

Section BuildFacts.

Context `{SK : Sklearn}.

Lemma select_task_world (z : DataFrame) (i j : nat) (w : world) :
  post (select_task z i j) w (fun _ w' => w' = w).
Proof.
  unfold select_task.
  repeat first
    [ reflexivity
    | apply post_bind
    | apply post_lift
    | apply post_ret
    | apply post_get; intros
    | match goal with
      | |- match ?r with Ok _ => _ | Raise _ => _ end => destruct r
      | |- post (if ?b then _ else _) _ _ => destruct b
      end ].
Qed.

Lemma pair_step_frame (g z : DataFrame) (ids : nat * nat)
    (red : list (list npfloat)) (w : world) :
  post (pair_step g z ids red) w (fun _ w' => task_frame w w').
Proof.
  destruct ids as [i j]. unfold pair_step.
  apply post_bind.
  eapply post_weaken; [apply select_task_world|].
  intros r w1 ->. destruct r as [[[objective xt] yt]|e];
    [|apply frame_except_refl].
  apply post_bind.
  eapply post_weaken; [apply compute_redundancy_frame|].
  intros r w2 [Hf _]. destruct r as [v|e]; [|exact Hf].
  apply post_lift. exact Hf.
Qed.

Lemma pair_loop_frame (g z : DataFrame) (pairs : list (nat * nat)) :
  forall (red : list (list npfloat)) (w : world),
    post (pair_loop g z pairs red) w (fun _ w' => task_frame w w').
Proof.
  induction pairs as [|ids rest IH]; intros red w.
  - apply post_ret. apply frame_except_refl.
  - cbn [pair_loop]. apply post_bind.
    eapply post_weaken; [apply pair_step_frame|].
    intros r w1 Hf. cbn beta in Hf. destruct r as [red1|e]; [|exact Hf].
    eapply post_weaken; [apply IH|].
    intros r' w2 H2. cbn beta in H2. eapply frame_except_trans; eassumption.
Qed.

Lemma pair_loop_app (g z : DataFrame) (l1 l2 : list (nat * nat)) :
  forall (red : list (list npfloat)) (w : world),
    pair_loop g z (l1 ++ l2) red w =
    match pair_loop g z l1 red w with
    | (Ok red1, w1) => pair_loop g z l2 red1 w1
    | (Raise e, w1) => (Raise e, w1)
    end.
Proof.
  induction l1 as [|ids l1 IH]; intros red w; [reflexivity|].
  cbn [app pair_loop]. rewrite !run_bind.
  destruct (pair_step g z ids red w) as [[red1|e] w1]; [apply IH | reflexivity].
Qed.

Lemma pair_step_unknown_role (g z : DataFrame) (i j : nat)
    (red : list (list npfloat)) (w : world) (con bin mult ys : list string)
    (target : string) :
  role_lists (task w) con bin mult ys ->
  df_columns z !! j = Some target ->
  first_role con bin mult ys target = None ->
  pair_step g z (i, j) red w = (Raise objective_error, w).
Proof.
  intros Hroles Hj Hnone. unfold pair_step. rewrite run_bind.
  rewrite (select_task_first_role z i j w con bin mult ys target Hroles Hj).
  rewrite Hnone. reflexivity.
Qed.

Lemma pair_loop_succeeds (g z : DataFrame) (pairs : list (nat * nat)) :
  forall (red m : list (list npfloat)) (w w' : world),
    pair_loop g z pairs red w = (Ok m, w') ->
    Forall (pair_succeeds g z) pairs.
Proof.
  induction pairs as [|ids rest IH]; intros red m w w' H; [constructor|].
  cbn [pair_loop] in H. apply bind_ok in H.
  destruct H as (red1 & w1 & Hstep & H). constructor.
  - exists red, w, red1, w1. exact Hstep.
  - eapply IH. exact H.
Qed.

(** C5: when a column of the combined table is in none of the four role
    lists, the pair loop raises the configuration error as soon as it reaches
    a pair that predicts that column, whatever pairs succeeded before; with
    unique labels and at least two columns such a pair is always on the way,
    so the build ends in an exception and returns no matrix.  A matrix is
    returned only if the step of every pair succeeded. *)
Theorem unknown_role_aborts_build (g z : DataFrame) (w : world) :
  (forall (con bin mult ys : list string) (j : nat) (target : string),
     role_lists (task w) con bin mult ys ->
     df_columns z !! j = Some target ->
     first_role con bin mult ys target = None ->
     (forall prefix rest i red red1 w1,
        pair_loop g z prefix red w = (Ok red1, w1) ->
        pair_loop g z (prefix ++ (i, j) :: rest) red w
        = (Raise objective_error, w1)) /\
     (NoDup (df_columns z) -> (2 <= length (df_columns z))%nat ->
      exists e w', eda_redundancy g z w = (Raise e, w'))) /\
  (forall m w',
     eda_redundancy g z w = (Ok m, w') ->
     Forall (pair_succeeds g z)
       (permutations2 (factorize_labels (df_columns z)))).
Proof.
  split.
  - intros con bin mult ys j target Hroles Hj Hnone.
    assert (Hreach : forall prefix rest i red red1 w1,
      pair_loop g z prefix red w = (Ok red1, w1) ->
      pair_loop g z (prefix ++ (i, j) :: rest) red w
      = (Raise objective_error, w1)).
    { intros prefix rest i red red1 w1 Hpre.
      rewrite pair_loop_app, Hpre. cbn [pair_loop]. rewrite run_bind.
      pose proof (pair_loop_frame g z prefix red w) as Hf.
      unfold post in Hf. rewrite Hpre in Hf. cbn in Hf.
      rewrite (pair_step_unknown_role g z i j red1 w1 con bin mult ys target);
        [reflexivity | eapply role_lists_frame; eassumption | exact Hj
        | exact Hnone]. }
    split; [exact Hreach|].
    intros Hnd Hlen. unfold eda_redundancy.
    set (pairs := permutations2 (factorize_labels (df_columns z))).
    set (red := np_ones (length (df_columns z))).
    assert (Hjlt : (j < length (df_columns z))%nat)
      by (eapply lookup_lt_Some; exact Hj).
    assert (Hin : exists i, (i, j) ∈ pairs).
    { exists (if decide (j = 0)%nat then 1%nat else 0%nat).
      apply pairs_of_unique_labels; [exact Hnd|].
      case_decide; repeat split; lia. }
    destruct Hin as (i & Hin).
    apply list_elem_of_split in Hin. destruct Hin as (prefix & rest & Hsplit).
    rewrite Hsplit.
    destruct (pair_loop g z prefix red w) as [[red1|e] w1] eqn:Hpre.
    + exists objective_error, w1. eapply Hreach. exact Hpre.
    + exists e, w1. rewrite pair_loop_app, Hpre. reflexivity.
  - intros m w' H. unfold eda_redundancy in H.
    eapply pair_loop_succeeds. exact H.
Qed.

Lemma compute_redundancy_in_unit (g x y : DataFrame) (objective : pyval)
    (w w' : world) (r : npfloat) :
  metrics_bounded ->
  compute_redundancy g x y objective w = (Ok r, w') -> in_unit r.
Proof.
  intros [Hr2 Hba] H.
  apply compute_redundancy_ok_inv in H.
  destruct H as (estimator & space & cv & rng1 & rng2 & splits & scores &
                 _ & _ & Hall & ->).
  apply floored_mean_in_unit.
  clear -Hall Hr2 Hba. induction Hall as [|split s splits scores Hs _ IH];
    constructor; [|exact IH].
  destruct split as [i_trn i_tst]. destruct Hs as (w1 & w2 & Hs).
  apply outer_fold_ok_inv in Hs.
  destruct Hs as (? & y_tst & ? & ? & ? & ? & ? & ? & y_pred & ? & ? &
                  _ & _ & _ & _ & _ & Hs).
  apply score_results_cases in Hs. destruct Hs as [[_ Hs]|[_ Hs]]; eauto.
Qed.

Lemma pair_loop_unit (g z : DataFrame) (n : nat) (pairs : list (nat * nat)) :
  metrics_bounded ->
  Forall (fun ids => fst ids <> snd ids) pairs ->
  forall (red m : list (list npfloat)) (w w' : world),
    pair_loop g z pairs red w = (Ok m, w') ->
    square n red -> unit_entries red ->
    square n m /\ unit_entries m.
Proof.
  intros Hmb Hne. induction Hne as [|[i j] rest Hij _ IH];
    intros red m w w' H Hsq Hun.
  - injection H as <- <-. auto.
  - cbn [pair_loop] in H. apply bind_ok in H.
    destruct H as (red1 & w1 & Hstep & H).
    unfold pair_step in Hstep. apply bind_ok in Hstep.
    destruct Hstep as ([[objective xt] yt] & w2 & _ & Hstep).
    apply bind_ok in Hstep. destruct Hstep as (r & w3 & Hr & Hset).
    apply lift_ok in Hset. destruct Hset as [Hset ->].
    apply (compute_redundancy_in_unit _ _ _ _ _ _ _ Hmb) in Hr.
    eapply IH; [exact H | |].
    + eapply matrix_set_square; eassumption.
    + eapply matrix_set_unit_entries; eauto.
Qed.

(** C2: with metrics that never exceed 1, every score [compute_redundancy]
    returns lies in [0, 1]; and for a combined table with unique labels the
    matrix the build returns is square over the columns, has every entry in
    [0, 1] and every diagonal entry exactly 1: the seed of the all-ones
    initialisation, which no pair overwrites. *)
Theorem redundancy_in_unit_range :
  metrics_bounded ->
  (forall g x y objective w w' r,
     compute_redundancy g x y objective w = (Ok r, w') -> in_unit r) /\
  (forall g z w w' m,
     NoDup (df_columns z) ->
     eda_redundancy g z w = (Ok m, w') ->
     square (length (df_columns z)) m /\ unit_entries m).
Proof.
  intros Hmb. split.
  - intros g x y objective w w' r H.
    eapply compute_redundancy_in_unit; eassumption.
  - intros g z w w' m Hnd H. unfold eda_redundancy in H.
    eapply pair_loop_unit; [exact Hmb | | exact H | | ].
    + apply Forall_forall. intros [i j] Hin.
      apply pairs_of_unique_labels in Hin; [|exact Hnd]. cbn. tauto.
    + apply np_ones_square.
    + apply np_ones_unit_entries.
Qed.

End BuildFacts.

(** ** The reference metrics meet the contract *)

Lemma flat_map_length_const {A B} (f : A -> list B) (c : nat) (l : list A) :
  (forall x, x ∈ l -> length (f x) = c) ->
  length (flat_map f l) = (length l * c)%nat.
Proof.
  induction l as [|a l IH]; intros H; [reflexivity|].
  cbn. rewrite length_app, (H a) by apply list_elem_of_here.
  rewrite IH; [lia|]. intros x Hx. apply H, list_elem_of_further, Hx.
Qed.

Module ReferenceFacts.

Import Reference.

Lemma sq_nonneg (a : Q) : (0 <= sq a)%Q.
Proof. unfold sq. nra. Qed.

Lemma Qsum_nonneg (l : list Q) :
  Forall (fun q => 0 <= q)%Q l -> (0 <= Qsum l)%Q.
Proof.
  unfold Qsum. induction 1 as [|q l Hq _ IH]; cbn [fold_right]; lra.
Qed.

Lemma Qsum_at_most (l : list Q) :
  Forall (fun q => q <= 1)%Q l -> (Qsum l <= Qcount (length l))%Q.
Proof.
  unfold Qcount, Qsum. induction 1 as [|q l Hq _ IH].
  - cbn [fold_right length]. change (inject_Z (Z.of_nat 0)) with 0%Q. lra.
  - cbn [fold_right length]. rewrite Nat2Z.inj_succ. unfold Z.succ.
    rewrite inject_Z_plus. change (inject_Z 1) with 1%Q. lra.
Qed.

Lemma Qcount_pos (n : nat) : (0 < n)%nat -> (0 < Qcount n)%Q.
Proof.
  intros Hn. unfold Qcount. change 0%Q with (inject_Z 0).
  rewrite <- Zlt_Qlt. lia.
Qed.

Lemma Qcount_le (n m : nat) : (n <= m)%nat -> (Qcount n <= Qcount m)%Q.
Proof. intros H. unfold Qcount. rewrite <- Zle_Qle. lia. Qed.

Lemma ss_res_nonneg (ys ps : list Q) : (0 <= ss_res ys ps)%Q.
Proof.
  unfold ss_res. apply Qsum_nonneg.
  revert ps. induction ys as [|y ys IH]; intros [|p ps]; cbn; constructor;
    auto using sq_nonneg.
Qed.

Lemma ss_tot_nonneg (ys : list Q) : (0 <= ss_tot ys)%Q.
Proof.
  unfold ss_tot. apply Qsum_nonneg, Forall_map, Forall_forall.
  intros y _. apply sq_nonneg.
Qed.

Lemma r2_at_most_one (y_true : DataFrame) (y_pred : list npfloat)
    (s : npfloat) :
  r2 y_true y_pred = Ok s -> at_most_one s.
Proof.
  unfold r2. destruct (df_columns y_true) as [|c [|c' cs]]; try discriminate.
  destruct (finite_values (column0 y_true)) as [ys|]; [|discriminate].
  destruct (finite_values y_pred) as [ps|]; [|discriminate].
  case_decide; [|discriminate]. case_decide.
  { intros [= <-]. exact I. }
  destruct (Qeq_bool (ss_tot ys) 0) eqn:Etot.
  - intros [= <-]. cbn. destruct (Qeq_bool (ss_res ys ps) 0); lra.
  - intros [= <-]. cbn.
    pose proof (ss_res_nonneg ys ps) as Hres.
    pose proof (ss_tot_nonneg ys) as Htot.
    assert (Hpos : (0 < ss_tot ys)%Q).
    { apply Qle_lteq in Htot. destruct Htot as [Hlt|Heq]; [exact Hlt|].
      symmetry in Heq. apply Qeq_bool_iff in Heq. congruence. }
    assert (Hdiv : (0 <= ss_res ys ps / ss_tot ys)%Q).
    { apply Qle_shift_div_l; [exact Hpos | lra]. }
    lra.
Qed.

Lemma recall_at_most_one (ys ps : list Q) (c : Q) : (recall ys ps c <= 1)%Q.
Proof.
  unfold recall.
  set (of_class := filter (fun yp => Qeq_bool (fst yp) c = true) (zip ys ps)).
  set (hits := filter (fun yp => Qeq_bool (snd yp) c = true) of_class).
  assert (Hle : (length hits <= length of_class)%nat) by apply length_filter.
  destruct (length of_class) as [|n] eqn:E.
  - assert (length hits = 0)%nat as -> by lia. unfold Qle. cbn. lia.
  - apply Qle_shift_div_r; [apply Qcount_pos; lia|].
    rewrite Qmult_1_l. apply Qcount_le. exact Hle.
Qed.

Lemma adjusted_at_most_one (total n : Q) :
  (2 <= n)%Q -> (total <= n)%Q ->
  ((total / n - 1 / n) / (1 - 1 / n) <= 1)%Q.
Proof.
  intros Hn Htotal.
  assert (Hscore : (total / n <= 1)%Q).
  { apply Qle_shift_div_r; lra. }
  assert (Hinv : (1 / n <= 1 # 2)%Q).
  { apply Qle_shift_div_r; lra. }
  generalize dependent (total / n)%Q. generalize dependent (1 / n)%Q.
  intros b Hb a Ha. apply Qle_shift_div_r; lra.
Qed.

Lemma balanced_accuracy_at_most_one (y_true : DataFrame)
    (y_pred : list npfloat) (s : npfloat) :
  balanced_accuracy y_true y_pred true = Ok s -> at_most_one s.
Proof.
  unfold balanced_accuracy.
  destruct (df_columns y_true) as [|c [|c' cs]]; try discriminate.
  destruct (finite_values (column0 y_true)) as [ys|]; [|discriminate].
  destruct (finite_values y_pred) as [ps|]; [|discriminate].
  case_decide; [|discriminate].
  destruct (distinct ys) as [|c0 classes] eqn:Ec; [discriminate|].
  cbn [negb]. case_decide.
  { intros [= <-]. destruct (Qeq_bool _ 1); exact I. }
  intros [= <-]. cbn [at_most_one].
  set (n := Qcount (length (c0 :: classes))).
  set (total := Qsum (map (recall ys ps) (c0 :: classes))).
  assert (Hn : (2 <= n)%Q).
  { unfold n, Qcount. change 2%Q with (inject_Z 2). rewrite <- Zle_Qle.
    cbn [length] in *. lia. }
  assert (Htotal : (total <= n)%Q).
  { unfold total, n.
    rewrite <- (length_map (recall ys ps) (c0 :: classes)).
    apply Qsum_at_most, Forall_map, Forall_forall.
    intros c1 _. apply recall_at_most_one. }
  exact (adjusted_at_most_one total n Hn Htotal).
Qed.

Lemma reference_metrics_bounded : metrics_bounded.
Proof.
  split; cbn.
  - apply r2_at_most_one.
  - apply balanced_accuracy_at_most_one.
Qed.

(** The reference splitter meets the fold-count law. *)
Lemma reference_fold_count_law : fold_count_law.
Proof.
  intros cv X groups seed splits seed'. cbn [cv_split sklearn].
  unfold split, get_n_splits.
  destruct (n_splits cv) as [| | k | | |]; try discriminate.
  destruct (n_repeats cv) as [| | r | | |]; try discriminate.
  case_decide as Hkr; [|discriminate].
  case_decide; [discriminate|].
  intros [= <- _]. f_equal.
  rewrite (flat_map_length_const _ (Z.to_nat k)).
  - rewrite length_seq. lia.
  - intros rep _. rewrite length_map, length_seq. reflexivity.
Qed.

(** Both reference pipelines meet the contract of the column
    transformer. *)
Lemma select_listed_columns (strict : bool) :
  @selects_listed_columns sklearn {| fit_transform := select_listed strict |}.
Proof.
  intros k con bin mult ys x y seed z seed'. cbn [fit_transform].
  unfold select_listed. cbn [con_pred bin_pred mult_pred target_cols listed].
  destruct (negb _); [discriminate|].
  destruct (strict && _); [discriminate|].
  intros [= <- _]. reflexivity.
Qed.

Lemma reference_selects_listed_columns : selects_listed_columns.
Proof. exact (select_listed_columns true). Qed.

End ReferenceFacts.

(** ** The properties on the small table *)

(** The labels of a concrete list are pairwise distinct. *)
Ltac solve_nodup :=
  repeat (apply NoDup_cons_2; [solve_notin|]); apply NoDup_nil_2.

Module Witnesses.

Import Reference ReferenceFacts.

(** C1 on the small table: the run returns, and its score is a floored mean. *)
Lemma compute_redundancy_floored_mean_witness :
  compute_redundancy demo_g demo_x demo_y (PStr "regression") demo_world
  = (Ok demo_score, demo_after) /\
  exists scores, demo_score = py_max0 (np_mean scores).
Proof.
  assert (H : compute_redundancy demo_g demo_x demo_y (PStr "regression")
                demo_world = (Ok demo_score, demo_after))
    by (apply run_result; vm_compute; reflexivity).
  split; [exact H|].
  destruct (compute_redundancy_floored_mean _ _ _ _ _ _ _ H)
    as (_ & _ & _ & _ & _ & _ & scores & _ & _ & _ & Hr & _).
  exists scores. exact Hr.
Defined.

(** C2 on the small table, with the reference metrics: the score and the
    4 x 4 matrix. *)
Lemma redundancy_in_unit_range_witness :
  (compute_redundancy demo_g demo_x demo_y (PStr "regression") demo_world
   = (Ok demo_score, demo_after) /\
   in_unit demo_score) /\
  (NoDup (df_columns demo_z) /\
   eda_redundancy demo_g demo_z demo_world = (Ok demo_matrix, snd demo_build) /\
   square 4 demo_matrix /\ unit_entries demo_matrix).
Proof.
  destruct (redundancy_in_unit_range reference_metrics_bounded)
    as [Hscore Hmatrix].
  assert (Hrun : compute_redundancy demo_g demo_x demo_y (PStr "regression")
                   demo_world = (Ok demo_score, demo_after))
    by (apply run_result; vm_compute; reflexivity).
  assert (Hnd : NoDup (df_columns demo_z)) by solve_nodup.
  assert (Hbuild : eda_redundancy demo_g demo_z demo_world
                   = (Ok demo_matrix, snd demo_build))
    by (apply run_result; vm_compute; reflexivity).
  split.
  - split; [exact Hrun | exact (Hscore _ _ _ _ _ _ _ Hrun)].
  - split; [exact Hnd|]. split; [exact Hbuild|].
    exact (Hmatrix _ _ _ _ _ Hnd Hbuild).
Defined.

(** C3 on the small table: one pair per role of the predicted column, and the
    designated target under a binary task objective. *)
Lemma objective_follows_target_role_witness :
  select_task demo_z 1 0 demo_world
  = (Ok (PStr "regression", raw_column demo_z 1 "b", raw_column demo_z 0 "a"),
     demo_world) /\
  select_task demo_z 0 1 demo_world
  = (Ok (PStr "binary", raw_column demo_z 0 "a", factorized_column demo_z 1 "b"),
     demo_world) /\
  select_task demo_z 0 2 demo_world
  = (Ok (PStr "regression", raw_column demo_z 0 "a", raw_column demo_z 2 "c"),
     demo_world) /\
  select_task demo_z 0 3 demo_world
  = (Ok (PStr "regression", raw_column demo_z 0 "a", raw_column demo_z 3 "t"),
     demo_world) /\
  select_task demo_z 0 3 binary_world
  = (Ok (PStr "binary", raw_column demo_z 0 "a", factorized_column demo_z 3 "t"),
     binary_world).
Proof.
  assert (Hnd : NoDup (df_columns demo_z)) by solve_nodup.
  assert (Hroles : role_lists (task demo_world) ["a"] ["b"] ["c"] ["t"]%string)
    by (unfold role_lists; repeat split; reflexivity).
  assert (Hroles' : role_lists (task binary_world) ["a"] ["b"] ["c"] ["t"]%string)
    by (unfold role_lists; repeat split; reflexivity).
  split; [|split; [|split; [|split]]].
  - refine (proj1 (objective_follows_target_role demo_z 1 0 demo_world
                     ["a"] ["b"] ["c"] ["t"] "b" "a" (PStr "regression")
                     Hroles eq_refl Hnd eq_refl eq_refl) _)%string.
    apply list_elem_of_here.
  - refine (proj1 (proj2 (objective_follows_target_role demo_z 0 1 demo_world
                     ["a"] ["b"] ["c"] ["t"] "a" "b" (PStr "regression")
                     Hroles eq_refl Hnd eq_refl eq_refl)) _ _)%string.
    + solve_notin.
    + apply list_elem_of_here.
  - refine (proj1 (proj2 (proj2 (objective_follows_target_role demo_z 0 2
                     demo_world ["a"] ["b"] ["c"] ["t"] "a" "c"
                     (PStr "regression")
                     Hroles eq_refl Hnd eq_refl eq_refl))) _ _ _)%string.
    + solve_notin.
    + solve_notin.
    + apply list_elem_of_here.
  - refine (proj2 (proj2 (proj2 (objective_follows_target_role demo_z 0 3
                     demo_world ["a"] ["b"] ["c"] ["t"] "a" "t"
                     (PStr "regression")
                     Hroles eq_refl Hnd eq_refl eq_refl))) _ _ _ _)%string.
    + solve_notin.
    + solve_notin.
    + solve_notin.
    + apply list_elem_of_here.
  - refine (proj2 (proj2 (proj2 (objective_follows_target_role demo_z 0 3
                     binary_world ["a"] ["b"] ["c"] ["t"] "a" "t"
                     (PStr "binary")
                     Hroles' eq_refl Hnd eq_refl eq_refl))) _ _ _ _)%string.
    + solve_notin.
    + solve_notin.
    + solve_notin.
    + apply list_elem_of_here.
Defined.

(** C4 for the objective [ordinal] of scenario D. *)
Lemma unsupported_objective_fails_witness :
  prepare (PStr "ordinal") = Raise objective_error /\
  compute_redundancy demo_g demo_x demo_y (PStr "ordinal") demo_world
  = (Raise objective_error, demo_world).
Proof.
  destruct (unsupported_objective_fails (PStr "ordinal")
              ltac:(discriminate) ltac:(discriminate) ltac:(discriminate))
    as [Hp Hc].
  split; [exact Hp | exact (Hc demo_g demo_x demo_y demo_world)].
Defined.

(** C5 on the small table when column [c] has no role. *)
Lemma unknown_role_aborts_build_witness :
  pair_loop demo_g demo_z [(0, 2)%nat] (np_ones 4) unknown_world
  = (Raise objective_error, unknown_world) /\
  exists e w', eda_redundancy demo_g demo_z unknown_world = (Raise e, w').
Proof.
  assert (Hroles : role_lists (task unknown_world) ["a"] ["b"] [] ["t"]%string)
    by (unfold role_lists; repeat split; reflexivity).
  destruct (proj1 (unknown_role_aborts_build demo_g demo_z unknown_world)
              ["a"] ["b"] [] ["t"] 2%nat "c" Hroles eq_refl eq_refl)%string
    as [Hreach Habort].
  split.
  - exact (Hreach [] [] 0%nat (np_ones 4) (np_ones 4) unknown_world eq_refl).
  - apply Habort; [solve_nodup | cbn; lia].
Defined.

(** C6 on the small table: 2 folds, 12 outer predictions over 8 rows and 6
    inner predictions over 4 training rows give 2 outer repeats, 4 splits
    and 2 inner repeats. *)
Lemma repeat_counts_configured_witness :
  compute_redundancy demo_g demo_x demo_y (PStr "regression") demo_world
  = (Ok demo_score, demo_after) /\
  exists (r_outer : Z) (splits : list (list Z * list Z)) (rng1 : nat)
         (fits : list event),
    let cv := mkRepeatedGroupKFold (PInt 2) (PInt r_outer) PNone in
    is_ceiling r_outer 12 (shape0 demo_g) /\
    task demo_after !! "n_rep_outer_cv"%string = Some (PInt r_outer) /\
    cv_split cv demo_g demo_g (rng demo_world) = (Ok splits, rng1) /\
    Z.of_nat (length splits) = 2 * r_outer /\
    calls demo_after = calls demo_world ++ EvSplit cv demo_g :: fits /\
    Forall2 (inner_repeats demo_g 2 6) splits fits /\
    (forall ev, last fits = Some ev ->
       task demo_after !! "n_rep_inner_cv"%string = search_repeats ev).
Proof.
  assert (H : compute_redundancy demo_g demo_x demo_y (PStr "regression")
                demo_world = (Ok demo_score, demo_after))
    by (apply run_result; vm_compute; reflexivity).
  split; [exact H|].
  apply (repeat_counts_configured demo_g demo_x demo_y (PStr "regression")
           2 12 6 demo_world demo_after demo_score
           reference_fold_count_law eq_refl eq_refl eq_refl);
    [lia | lia | vm_compute; reflexivity | exact H].
Defined.

(** C7 on one fold of the small table under the regression objective. *)
Lemma outer_fold_metric_witness :
  outer_fold (make_estimator LGBMRegressor (PStr "huber") None) search_space
    demo_g demo_x demo_y (PStr "regression") ([2; 3; 6; 7], [0; 1; 4; 5])
    demo_world
  = (Ok demo_fold_score, snd demo_fold) /\
  exists y_tst y_pred, r2_score y_tst y_pred = Ok demo_fold_score.
Proof.
  assert (H : outer_fold (make_estimator LGBMRegressor (PStr "huber") None)
                search_space demo_g demo_x demo_y (PStr "regression")
                ([2; 3; 6; 7], [0; 1; 4; 5]) demo_world
              = (Ok demo_fold_score, snd demo_fold))
    by (apply run_result; vm_compute; reflexivity).
  split; [exact H|].
  destruct (outer_fold_metric _ _ _ _ _ _ _ _ _ _ _ H)
    as (_ & y_tst & _ & _ & _ & _ & _ & _ & y_pred & _ & _ &
        _ & _ & _ & _ & _ & [[_ Hs]|[[Hb|Hb] _]]).
  - exists y_tst, y_pred. exact Hs.
  - discriminate Hb.
  - discriminate Hb.
Defined.

(** C8 as stated fails: the run on the small table returns a score and
    leaves a task that holds [n_rep_outer_cv], which the task passed in did
    not. *)
Lemma task_is_mutated_by_scorer :
  is_ok (fst (compute_redundancy demo_g demo_x demo_y (PStr "regression")
                demo_world)) = true /\
  task demo_world !! "n_rep_outer_cv"%string = None /\
  task (snd (compute_redundancy demo_g demo_x demo_y (PStr "regression")
               demo_world)) !! "n_rep_outer_cv"%string = Some (PInt 2) /\
  task (snd (compute_redundancy demo_g demo_x demo_y (PStr "regression")
               demo_world)) <> task demo_world.
Proof.
  assert (Hafter : task demo_after !! "n_rep_outer_cv"%string = Some (PInt 2))
    by (vm_compute; reflexivity).
  split; [vm_compute; reflexivity|].
  split; [reflexivity|]. split; [exact Hafter|].
  intros Heq. change (task demo_after = task demo_world) in Heq.
  rewrite Heq in Hafter. discriminate Hafter.
Qed.

(** C8, amended, on the small table. *)
Lemma task_kept_except_repeat_counts_witness :
  task demo_after !! "N_CV_FOLDS"%string = task demo_world !! "N_CV_FOLDS"%string /\
  exists v n,
    task demo_world !! "N_PRED_OUTER_CV"%string = Some v /\
    ceil_ratio v (shape0 demo_g) = Ok n /\
    task demo_after !! "n_rep_outer_cv"%string = Some (PInt n) /\
    (forall p, v = PInt p -> 0 <= p < 2 ^ 53 -> shape0 demo_g < 2 ^ 53 ->
       is_ceiling n p (shape0 demo_g)).
Proof.
  destruct (task_kept_except_repeat_counts demo_g demo_x demo_y
              (PStr "regression") demo_world) as [Hkeep Hok].
  split.
  - apply Hkeep. solve_notin.
  - apply Hok. vm_compute. reflexivity.
Defined.

(** C9 as stated fails: with [b] listed as continuous and as binary
    categorical the column transformer selects [b] twice.  A library that
    refuses the repeated name ends [eda] in the preprocessing; a library
    that returns the label twice hands the matrix block a table on which the
    build raises. *)
Lemma overlap_of_predictor_lists_raises :
  role_lists (task overlap_world) ["a"; "b"] ["b"] ["c"] ["t"]%string /\
  is_ok (fst (eda_preprocess demo_predictors demo_y overlap_world)) = false /\
  exists z w1,
    @eda_preprocess sklearn lenient_pipeline demo_predictors demo_y
      overlap_world = (Ok z, w1) /\
    df_columns z = ["a"; "b"; "b"; "c"; "t"]%string /\
    is_ok (fst (eda_redundancy demo_g z w1)) = false.
Proof.
  split; [unfold role_lists; repeat split; reflexivity|].
  split; [vm_compute; reflexivity|].
  destruct (@eda_preprocess sklearn lenient_pipeline demo_predictors demo_y
              overlap_world) as [[z|e] w1] eqn:Hrun.
  - exists z, w1. split; [reflexivity|].
    assert (Hz : (Ok z : result DataFrame)
                 = fst (@eda_preprocess sklearn lenient_pipeline
                          demo_predictors demo_y overlap_world))
      by (rewrite Hrun; reflexivity).
    assert (Hw : w1 = snd (@eda_preprocess sklearn lenient_pipeline
                             demo_predictors demo_y overlap_world))
      by (rewrite Hrun; reflexivity).
    vm_compute in Hz. injection Hz as ->. vm_compute in Hw. subst w1.
    split; [reflexivity|]. vm_compute. reflexivity.
  - exfalso.
    assert (Hz : is_ok (fst (@eda_preprocess sklearn lenient_pipeline
                               demo_predictors demo_y overlap_world)) = true)
      by (vm_compute; reflexivity).
    rewrite Hrun in Hz. discriminate Hz.
Qed.

(** C9, amended, on the small table: [a] is listed as continuous and as
    designated target, the task objective is binary, and [a] is predicted
    from [b] under regression on raw values. *)
Lemma overlapping_roles_by_precedence_witness :
  exists z w1,
    eda_preprocess demo_predictors demo_y shared_world = (Ok z, w1) /\
    NoDup (df_columns z) /\
    first_role ["a"] ["b"] ["c"] ["t"; "a"] "a" = Some Continuous /\
    select_task z 1 0 w1
    = (Ok (PStr "regression", raw_column z 1 "b", raw_column z 0 "a"), w1).
Proof.
  destruct (eda_preprocess demo_predictors demo_y shared_world)
    as [rz w1] eqn:Hrun.
  assert (Hok : is_ok rz = true).
  { change rz with (fst (rz, w1)). rewrite <- Hrun. vm_compute. reflexivity. }
  destruct rz as [z|e]; [|discriminate Hok].
  assert (Hroles : role_lists (task shared_world)
                     ["a"] ["b"] ["c"] ["t"; "a"]%string)
    by (unfold role_lists; repeat split; reflexivity).
  destruct (overlapping_roles_by_precedence demo_predictors demo_y z
              shared_world w1 w1 ["a"] ["b"] ["c"] ["t"; "a"] "t"
              (PStr "binary") reference_selects_listed_columns Hroles
              eq_refl eq_refl Hrun eq_refl)%string as [Huniq Hdisp].
  assert (Hnd : NoDup (df_columns z)) by (apply Huniq; solve_nodup).
  assert (Hcols : df_columns z = ["a"; "b"; "c"; "t"]%string).
  { change (df_columns z) with
      (from_option df_columns [] (Some z)).
    replace (Some z) with
      (match fst (eda_preprocess demo_predictors demo_y shared_world) with
       | Ok z' => Some z' | Raise _ => None end) by (rewrite Hrun; reflexivity).
    vm_compute. reflexivity. }
  exists z, w1. split; [reflexivity|]. split; [exact Hnd|].
  split; [reflexivity|].
  refine (proj2 (proj2 (proj2 (proj2
            (Hdisp Hnd 1%nat 0%nat "b" "a" Continuous _ _ eq_refl)))) _ _)%string.
  - rewrite Hcols. reflexivity.
  - rewrite Hcols. reflexivity.
  - apply list_elem_of_here.
  - apply list_elem_of_further, list_elem_of_here.
Defined.

(** C10 on the predictor column of the small table and on an empty frame. *)
Lemma split_data_slices_witness :
  (exists df_trn df_tst,
     split_data demo_x [0; 1; -1] [2; 3] = Ok (df_trn, df_tst) /\
     slice_of demo_x [0; 1; -1] df_trn /\ slice_of demo_x [2; 3] df_tst) /\
  split_data (mkDataFrame ["a"%string] []) [7] [] = Ok (empty_frame, empty_frame).
Proof.
  split.
  - apply (proj1 (split_data_slices demo_x [0; 1; -1] [2; 3])).
    + reflexivity.
    + repeat constructor; cbn; lia.
    + repeat constructor; cbn; lia.
  - apply (proj2 (split_data_slices (mkDataFrame ["a"%string] []) [7] [])).
    reflexivity.
Defined.

End Witnesses.

(** * Further properties of the code *)

(** ** Bounds of [split_data] *)

Lemma norm_index_some_valid (n : nat) (i : Z) (p : nat) :
  norm_index n i = Some p -> - Z.of_nat n <= i < Z.of_nat n.
Proof. unfold norm_index. repeat case_decide; intros [=]; lia. Qed.

Lemma iloc_rows_outcome (rows : list (Z * list npfloat)) (idx : list Z) :
  (exists out, iloc_rows rows idx = Ok out /\ valid_indices (length rows) idx)
  \/ (iloc_rows rows idx = Raise IndexError /\
      ~ valid_indices (length rows) idx).
Proof.
  induction idx as [|i idx IH].
  - left. exists []. split; [reflexivity | constructor].
  - cbn [iloc_rows]. unfold iloc_row.
    destruct (norm_index (length rows) i) as [p|] eqn:Hp.
    + pose proof (norm_index_lt _ _ _ Hp) as Hlt.
      destruct (lookup_lt_is_Some_2 rows p Hlt) as [r Hr]. rewrite Hr. cbn.
      destruct IH as [(out & -> & Hv) | [-> Hnv]].
      * left. exists (r :: out). split; [reflexivity|].
        constructor; [eapply norm_index_some_valid; exact Hp | exact Hv].
      * right. split; [reflexivity|]. intros Hv. apply Hnv.
        apply Forall_cons in Hv. tauto.
    + right. split; [reflexivity|]. intros Hv.
      apply Forall_cons in Hv. destruct Hv as [Hi _].
      destruct (norm_index_valid _ _ Hi) as [p' Hp']. congruence.
Qed.

(** X1: on a non-empty frame [split_data] returns exactly when all positions
    of both index arrays are in bounds, and raises [IndexError] otherwise. *)
Theorem split_data_in_bounds_iff (df : DataFrame) (i_trn i_tst : list Z) :
  df_empty df = false ->
  (is_ok (split_data df i_trn i_tst) = true <->
   valid_indices (length (df_rows df)) i_trn /\
   valid_indices (length (df_rows df)) i_tst) /\
  (is_ok (split_data df i_trn i_tst) = false ->
   split_data df i_trn i_tst = Raise IndexError).
Proof.
  intros He. unfold split_data, iloc. rewrite He. cbn [negb].
  destruct (iloc_rows_outcome (df_rows df) i_trn) as [(a & Ha & Va)|[Ha Na]];
    rewrite Ha; cbn.
  - destruct (iloc_rows_outcome (df_rows df) i_tst) as [(b & Hb & Vb)|[Hb Nb]];
      rewrite Hb; cbn.
    + split; [tauto | discriminate].
    + split; [|reflexivity]. split; [discriminate | tauto].
  - split; [|reflexivity]. split; [discriminate | tauto].
Qed.

Lemma iloc_rows_app (rows : list (Z * list npfloat)) (a b : list Z)
    (oa ob : list (Z * list npfloat)) :
  iloc_rows rows a = Ok oa -> iloc_rows rows b = Ok ob ->
  iloc_rows rows (a ++ b) = Ok (oa ++ ob).
Proof.
  revert oa. induction a as [|i a IH]; intros oa Ha Hb.
  - injection Ha as <-. exact Hb.
  - cbn [iloc_rows app] in *. destruct (iloc_row rows i) as [r|e]; [|discriminate].
    cbn in *. destruct (iloc_rows rows a) as [ra|e]; [|discriminate].
    cbn in Ha. injection Ha as <-. rewrite (IH ra eq_refl Hb). reflexivity.
Qed.

Lemma iloc_rows_positions (rows : list (Z * list npfloat)) (ps : list nat)
    (out : list (Z * list npfloat)) :
  iloc_rows rows (map Z.of_nat ps) = Ok out ->
  map Some out = map (fun p => rows !! p) ps.
Proof.
  revert out. induction ps as [|p ps IH]; intros out H.
  - injection H as <-. reflexivity.
  - cbn [map iloc_rows] in H. unfold iloc_row, norm_index in H.
    destruct (decide (0 <= Z.of_nat p < Z.of_nat (length rows))) as [Hp|Hp].
    + rewrite Nat2Z.id in H. destruct (rows !! p) as [r|] eqn:Hr; [|discriminate].
      cbn in H. destruct (iloc_rows rows (map Z.of_nat ps)) as [rs|e];
        [|discriminate].
      cbn in H. injection H as <-. cbn. rewrite Hr, (IH rs eq_refl). reflexivity.
    + destruct (decide (- Z.of_nat (length rows) <= Z.of_nat p < 0)); [lia|].
      discriminate.
Qed.

Lemma lookup_all_positions {A} (l : list A) :
  map (fun p => l !! p) (seq 0 (length l)) = map Some l.
Proof.
  apply list_eq. intros i. rewrite !list_lookup_fmap.
  destruct (decide (i < length l)%nat) as [Hi|Hi].
  - rewrite lookup_seq_lt by exact Hi. cbn.
    destruct (lookup_lt_is_Some_2 l i Hi) as [a Ha]. rewrite Ha. reflexivity.
  - rewrite lookup_seq_ge by lia. rewrite lookup_ge_None_2 by lia. reflexivity.
Qed.

Lemma reset_index_values (df : DataFrame) :
  map snd (df_rows (reset_index df)) = map snd (df_rows df).
Proof.
  unfold reset_index. cbn. apply list_eq. intros i.
  rewrite !list_lookup_fmap, list_lookup_imap.
  destruct (df_rows df !! i); reflexivity.
Qed.

(** X2: when the two index arrays together name every position of a
    non-empty frame exactly once, the train and test frames together hold
    the rows of the frame exactly once: no row is lost or repeated. *)
Theorem split_data_partition (df df_trn df_tst : DataFrame)
    (p_trn p_tst : list nat) :
  df_empty df = false ->
  p_trn ++ p_tst ≡ₚ seq 0 (length (df_rows df)) ->
  split_data df (map Z.of_nat p_trn) (map Z.of_nat p_tst) = Ok (df_trn, df_tst) ->
  map snd (df_rows df_trn) ++ map snd (df_rows df_tst)
  ≡ₚ map snd (df_rows df).
Proof.
  intros He Hperm H. unfold split_data, iloc in H. rewrite He in H.
  cbn [negb] in H.
  destruct (iloc_rows (df_rows df) (map Z.of_nat p_trn)) as [a|e] eqn:Ha;
    [|discriminate].
  cbn in H.
  destruct (iloc_rows (df_rows df) (map Z.of_nat p_tst)) as [b|e] eqn:Hb;
    [|discriminate].
  cbn in H. injection H as <- <-.
  rewrite !reset_index_values. cbn [df_rows]. rewrite <- map_app.
  apply fmap_Permutation.
  assert (Hsome : map Some (a ++ b) ≡ₚ map Some (df_rows df)).
  { rewrite <- (lookup_all_positions (df_rows df)).
    rewrite map_app, (iloc_rows_positions _ _ _ Ha),
      (iloc_rows_positions _ _ _ Hb), <- map_app.
    apply Permutation_map. exact Hperm. }
  apply (Permutation_map_inv Some) in Hsome.
  destruct Hsome as (l & Heq & Hl).
  assert (Hinj : forall l1 l2 : list (Z * list npfloat),
             map Some l1 = map Some l2 -> l1 = l2).
  { induction l1 as [|u l1 IH]; intros [|v l2] E; try discriminate; [reflexivity|].
    cbn in E. injection E as -> E. f_equal. apply IH. exact E. }
  apply Hinj in Heq. subst l. symmetry. exact Hl.
Qed.

(** ** The scorer: agreement of its branches, failures, calls *)

Section ScorerMore.

Context `{SK : Sklearn}.

(** X3: once [prepare] has accepted the objective, the scorer selection and
    the scoring step cannot take their own error branches, and the three
    places agree: regression pairs an [LGBMRegressor] with huber loss with
    the inner scoring [r2] and the outer [r2_score]; binary and multiclass
    pair an [LGBMClassifier] with that objective and balanced class weights
    with the inner scoring [balanced_accuracy] and the outer adjusted
    balanced accuracy.  The search space is the same in every case. *)
Theorem prepare_scorer_metric_agree (objective : pyval)
    (estimator : Estimator) (space : list (string * distribution)) :
  prepare objective = Ok (estimator, space) ->
  space = search_space /\
  ((objective = PStr "regression" /\
    estimator = make_estimator LGBMRegressor (PStr "huber") None /\
    get_scorer objective = Ok "r2"%string /\
    forall y_tst y_pred,
      score_results objective y_tst y_pred = r2_score y_tst y_pred) \/
   ((objective = PStr "binary" \/ objective = PStr "multiclass") /\
    estimator = make_estimator LGBMClassifier objective (Some "balanced"%string) /\
    get_scorer objective = Ok "balanced_accuracy"%string /\
    forall y_tst y_pred,
      score_results objective y_tst y_pred
      = balanced_accuracy_score y_tst y_pred true)).
Proof.
  unfold prepare, get_scorer, score_results, py_eq_str.
  destruct (bool_decide_reflect (objective = PStr "regression")) as [->|Hr].
  - cbn. intros [= <- <-]. split; [reflexivity|]. left. auto.
  - destruct (bool_decide_reflect (objective = PStr "binary")) as [->|Hb].
    + cbn. intros [= <- <-]. split; [reflexivity|]. right. auto.
    + destruct (bool_decide_reflect (objective = PStr "multiclass")) as [->|Hm].
      * cbn. intros [= <- <-]. split; [reflexivity|]. right. auto.
      * cbn. discriminate.
Qed.

(** X4: failures of [compute_redundancy] on its first settings.  A missing
    [N_PRED_OUTER_CV], a setting that is no number, a group vector without
    rows or a quotient beyond the float range end the call with [KeyError],
    [TypeError], [ZeroDivisionError], [OverflowError] before the task is
    written or a library is called.  A missing [N_CV_FOLDS] is only met
    after the outer repeat count was stored: the call raises [KeyError] and
    leaves the value of [mth.ceil(N_PRED_OUTER_CV / n)] under
    [n_rep_outer_cv] in the caller's task. *)
Theorem compute_redundancy_setting_failures (g x y : DataFrame)
    (objective : pyval) (w : world) :
  is_ok (prepare objective) = true ->
  (task w !! "N_PRED_OUTER_CV"%string = None ->
   compute_redundancy g x y objective w
   = (Raise (KeyError "N_PRED_OUTER_CV"), w)) /\
  (forall v,
     task w !! "N_PRED_OUTER_CV"%string = Some v ->
     py_number v = Raise TypeError ->
     compute_redundancy g x y objective w = (Raise TypeError, w)) /\
  (forall v p,
     task w !! "N_PRED_OUTER_CV"%string = Some v ->
     py_number v = Ok p ->
     shape0 g = 0 ->
     compute_redundancy g x y objective w = (Raise ZeroDivisionError, w)) /\
  (forall v p,
     task w !! "N_PRED_OUTER_CV"%string = Some v ->
     py_number v = Ok p ->
     py_truediv p (shape0 g) = Raise OverflowError ->
     compute_redundancy g x y objective w = (Raise OverflowError, w)) /\
  (forall v r,
     task w !! "N_PRED_OUTER_CV"%string = Some v ->
     ceil_ratio v (shape0 g) = Ok r ->
     task w !! "N_CV_FOLDS"%string = None ->
     compute_redundancy g x y objective w
     = (Raise (KeyError "N_CV_FOLDS"),
        mkWorld (<["n_rep_outer_cv"%string := PInt r]> (task w))
          (rng w) (calls w))).
Proof.
  intros Hp. destruct (prepare objective) as [[estimator space]|e] eqn:Hprep;
    [|discriminate].
  assert (Hstart : forall v,
    task w !! "N_PRED_OUTER_CV"%string = v ->
    compute_redundancy g x y objective w =
    match v with
    | Some v =>
        (r ← lift (ceil_ratio v (shape0 g));
         _ ← task_set "n_rep_outer_cv" (PInt r);
         n_cv_folds ← task_get "N_CV_FOLDS";
         n_rep_outer ← task_get "n_rep_outer_cv";
         splits ← call_split (mkRepeatedGroupKFold n_cv_folds n_rep_outer PNone) g;
         scores ← outer_loop estimator space g x y objective splits [];
         mret (py_max0 (np_mean scores))) w
    | None => (Raise (KeyError "N_PRED_OUTER_CV"), w)
    end).
  { intros v Hv. unfold compute_redundancy. rewrite run_bind. unfold lift at 1.
    rewrite Hprep. rewrite run_bind. unfold task_get at 1. rewrite Hv.
    destruct v; reflexivity. }
  split; [|split; [|split; [|split]]].
  - intros Hv. rewrite (Hstart _ Hv). reflexivity.
  - intros v Hv Hn. rewrite (Hstart _ Hv). rewrite run_bind.
    unfold lift at 1, ceil_ratio. rewrite Hn. reflexivity.
  - intros v p Hv Hp' Hn. rewrite (Hstart _ Hv). rewrite run_bind.
    unfold lift at 1, ceil_ratio, py_truediv. rewrite Hp'.
    cbn [mbind result_mbind result_bind].
    rewrite decide_True by exact Hn. reflexivity.
  - intros v p Hv Hp' Hover. rewrite (Hstart _ Hv). rewrite run_bind.
    unfold lift at 1, ceil_ratio. rewrite Hp'.
    cbn [mbind result_mbind result_bind]. rewrite Hover. reflexivity.
  - intros v r Hv Hr Hk. rewrite (Hstart _ Hv). rewrite run_bind.
    unfold lift at 1. rewrite Hr.
    rewrite run_bind. unfold task_set at 1.
    rewrite run_bind. unfold task_get at 1. cbn [task].
    rewrite lookup_insert_ne by discriminate. rewrite Hk. reflexivity.
Qed.

(** What one outer fold logs, in full: nothing, or one search built by
    [make_search] from the task at the start of the fold. *)
Lemma outer_fold_search (estimator : Estimator)
    (space : list (string * distribution)) (g x y : DataFrame)
    (objective : pyval) (i_trn i_tst : list Z) (w : world) :
  post (outer_fold estimator space g x y objective (i_trn, i_tst)) w
    (fun _ w' =>
       calls w' = calls w \/
       exists scorer n_samples_rs n_jobs n_cv_folds n_rep x_trn y_trn g_trn,
         get_scorer objective = Ok scorer /\
         task w !! "N_SAMPLES_RS"%string = Some n_samples_rs /\
         task w !! "N_JOBS"%string = Some n_jobs /\
         task w !! "N_CV_FOLDS"%string = Some n_cv_folds /\
         calls w' = calls w ++
           [EvFit (make_search estimator space scorer n_samples_rs n_jobs
                     n_cv_folds n_rep) x_trn y_trn g_trn]).
Proof.
  unfold outer_fold.
  apply post_bind, post_lift.
  destruct (split_data g i_trn i_tst) as [[g_trn g_tst]|e]; [|left; reflexivity].
  apply post_bind, post_lift.
  destruct (split_data y i_trn i_tst) as [[y_trn y_tst]|e]; [|left; reflexivity].
  apply post_bind, post_lift.
  destruct (split_data x i_trn i_tst) as [[x_trn x_tst]|e]; [|left; reflexivity].
  apply post_bind, post_lift.
  destruct (get_scorer objective) as [scorer|e] eqn:Hsc; [|left; reflexivity].
  apply post_bind, post_get; [intros n_pred_inner _ | intros _; left; reflexivity].
  apply post_bind, post_lift.
  destruct (ceil_ratio n_pred_inner (shape0 g_trn)) as [r|e];
    [|left; reflexivity].
  apply post_bind, post_set.
  apply post_bind, post_get; [intros n_samples_rs Hrs | intros _; left; reflexivity].
  apply post_bind, post_get; [intros n_jobs Hj | intros _; left; reflexivity].
  apply post_bind, post_get; [intros n_cv_folds Hk | intros _; left; reflexivity].
  apply post_bind, post_get; [intros n_rep _ | intros _; left; reflexivity].
  cbn [task] in Hrs, Hj, Hk.
  rewrite lookup_insert_ne in Hrs, Hj, Hk by discriminate.
  apply post_bind, post_call_fit. intros rb rng' _.
  assert (Hlog : calls
            (mkWorld (<["n_rep_inner_cv"%string := PInt r]> (task w)) rng'
               (calls w ++
                [EvFit (make_search estimator space scorer n_samples_rs n_jobs
                          n_cv_folds n_rep) x_trn y_trn g_trn])) = calls w \/
          exists scorer' n_samples_rs' n_jobs' n_cv_folds' n_rep' x_trn' y_trn'
                 g_trn',
            Ok scorer = Ok scorer' /\
            task w !! "N_SAMPLES_RS"%string = Some n_samples_rs' /\
            task w !! "N_JOBS"%string = Some n_jobs' /\
            task w !! "N_CV_FOLDS"%string = Some n_cv_folds' /\
            calls w ++
              [EvFit (make_search estimator space scorer n_samples_rs n_jobs
                        n_cv_folds n_rep) x_trn y_trn g_trn]
            = calls w ++
              [EvFit (make_search estimator space scorer' n_samples_rs' n_jobs'
                        n_cv_folds' n_rep') x_trn' y_trn' g_trn']).
  { right. exists scorer, n_samples_rs, n_jobs, n_cv_folds, n_rep, x_trn, y_trn,
      g_trn. auto. }
  destruct rb as [best|e]; [|exact Hlog].
  apply post_bind, post_lift.
  destruct (predict best x_tst) as [y_pred|e]; [|exact Hlog].
  apply post_lift. exact Hlog.
Qed.

Lemma make_search_settings (objective : pyval) (t : gmap string pyval)
    (estimator : Estimator) (space : list (string * distribution))
    (scorer : string) (n_samples_rs n_jobs n_cv_folds n_rep : pyval)
    (x_trn y_trn g_trn : DataFrame) :
  prepare objective = Ok (estimator, space) ->
  get_scorer objective = Ok scorer ->
  t !! "N_SAMPLES_RS"%string = Some n_samples_rs ->
  t !! "N_JOBS"%string = Some n_jobs ->
  t !! "N_CV_FOLDS"%string = Some n_cv_folds ->
  call_settings objective t
    (EvFit (make_search estimator space scorer n_samples_rs n_jobs n_cv_folds
              n_rep) x_trn y_trn g_trn).
Proof. intros. cbn. auto 10. Qed.

Lemma call_settings_frame (objective : pyval) (w w' : world) (ev : event) :
  frame_except derived_keys w w' ->
  call_settings objective (task w') ev -> call_settings objective (task w) ev.
Proof.
  intros Hf. destruct ev as [cv g'|search a b c]; cbn.
  - rewrite Hf by solve_notin. auto.
  - rewrite !Hf by solve_notin. auto.
Qed.

Lemma outer_loop_settings (estimator : Estimator)
    (space : list (string * distribution)) (g x y : DataFrame)
    (objective : pyval) (splits : list (list Z * list Z)) :
  prepare objective = Ok (estimator, space) ->
  forall (acc : list npfloat) (w : world),
    post (outer_loop estimator space g x y objective splits acc) w
      (fun _ w' =>
         frame_except derived_keys w w' /\
         exists evs, calls w' = calls w ++ evs /\
                     Forall (call_settings objective (task w)) evs).
Proof.
  intros Hprep.
  induction splits as [|[i_trn i_tst] rest IH]; intros acc w.
  - apply post_ret. split; [apply frame_except_refl|].
    exists []. rewrite app_nil_r. auto.
  - cbn [outer_loop]. apply post_bind.
    pose proof (outer_fold_search estimator space g x y objective i_trn i_tst w)
      as Hs.
    pose proof (outer_fold_effect estimator space g x y objective i_trn i_tst w)
      as He.
    unfold post in *.
    destruct (outer_fold estimator space g x y objective (i_trn, i_tst) w)
      as [r w1]. cbn [fst snd] in *.
    destruct He as [Hf _].
    assert (Hf' : frame_except derived_keys w w1).
    { eapply frame_except_mono; [|exact Hf].
      intros key Hin. apply list_elem_of_further. exact Hin. }
    assert (H1 : exists evs, calls w1 = calls w ++ evs /\
                             Forall (call_settings objective (task w)) evs).
    { destruct Hs as [Hc|(scorer & rs & nj & k & nr & a & b & c &
                          Hsc & Hrs & Hj & Hk & Hc)].
      - exists []. rewrite app_nil_r. auto.
      - eexists. split; [exact Hc|]. constructor; [|constructor].
        apply make_search_settings; assumption. }
    destruct r as [s|e]; [|split; assumption].
    specialize (IH (acc ++ [s]) w1).
    destruct (outer_loop estimator space g x y objective rest (acc ++ [s]) w1)
      as [r2 w2]. cbn [fst snd] in *.
    destruct IH as [Hf2 (evs2 & Hc2 & Ha2)].
    destruct H1 as (evs1 & Hc1 & Ha1).
    split; [eapply frame_except_trans; eassumption|].
    exists (evs1 ++ evs2). rewrite Hc2, Hc1, app_assoc. split; [reflexivity|].
    apply Forall_app. split; [exact Ha1|].
    eapply Forall_impl; [exact Ha2|].
    intros ev. apply call_settings_frame. exact Hf'.
Qed.

(** X6: whatever the outcome of a scorer run, every library call it made got
    its settings from [prepare] and from the task as it was passed in: each
    search carries the estimator and search space of [prepare], the scoring
    name of the objective, [N_SAMPLES_RS] trials, [N_JOBS] jobs and an inner
    splitter of [N_CV_FOLDS] folds, refits the best trial, scores a failed
    fit as 0 and fixes no random state; the outer splitter has [N_CV_FOLDS]
    folds and no random state. *)
Theorem library_calls_follow_task (g x y : DataFrame) (objective : pyval)
    (w : world) :
  exists evs,
    calls (snd (compute_redundancy g x y objective w)) = calls w ++ evs /\
    Forall (call_settings objective (task w)) evs.
Proof.
  assert (Hnone : exists evs, calls w = calls w ++ evs /\
                    Forall (call_settings objective (task w)) evs).
  { exists []. rewrite app_nil_r. auto. }
  change (post (compute_redundancy g x y objective) w
            (fun _ w' => exists evs, calls w' = calls w ++ evs /\
                           Forall (call_settings objective (task w)) evs)).
  unfold compute_redundancy.
  apply post_bind, post_lift.
  destruct (prepare objective) as [[estimator space]|e] eqn:Hprep;
    [|exact Hnone].
  apply post_bind, post_get; [intros v _ | intros _; exact Hnone].
  apply post_bind, post_lift.
  destruct (ceil_ratio v (shape0 g)) as [r|e]; [|exact Hnone].
  apply post_bind, post_set.
  apply post_bind, post_get; [intros k Hk | intros _; exact Hnone].
  apply post_bind, post_get; [intros nr _ | intros _; exact Hnone].
  cbn [task] in Hk. rewrite lookup_insert_ne in Hk by discriminate.
  apply post_bind, post_call_split. intros rs rng' _.
  set (cv := mkRepeatedGroupKFold k nr PNone).
  set (w2 := mkWorld (<["n_rep_outer_cv"%string := PInt r]> (task w)) rng'
               (calls w ++ [EvSplit cv g])).
  assert (Hf2 : frame_except derived_keys w w2).
  { apply frame_except_set; [apply list_elem_of_here | apply frame_except_refl]. }
  assert (H2 : exists evs, calls w2 = calls w ++ evs /\
                 Forall (call_settings objective (task w)) evs).
  { exists [EvSplit cv g]. split; [reflexivity|].
    constructor; [|constructor]. cbn. auto. }
  destruct rs as [splits|e]; [|exact H2].
  apply post_bind.
  eapply post_weaken; [apply (outer_loop_settings _ _ g x y _ splits Hprep)|].
  intros rl w3 [Hf3 (evs3 & Hc3 & Ha3)].
  assert (H3 : exists evs, calls w3 = calls w ++ evs /\
                 Forall (call_settings objective (task w)) evs).
  { exists ([EvSplit cv g] ++ evs3). rewrite Hc3. cbn [calls].
    rewrite <- app_assoc. split; [reflexivity|].
    apply Forall_app. split.
    - constructor; [|constructor]. cbn. auto.
    - eapply Forall_impl; [exact Ha3|].
      intros ev. apply call_settings_frame. exact Hf2. }
  destruct rl as [scores|e]; [|exact H3].
  apply post_ret. exact H3.
Qed.

Lemma outer_fold_fit (estimator : Estimator)
    (space : list (string * distribution)) (g x y : DataFrame)
    (objective : pyval) (i_trn i_tst : list Z) (w : world) :
  post (outer_fold estimator space g x y objective (i_trn, i_tst)) w
    (fun r w' =>
       is_ok r = true ->
       exists ev, calls w' = calls w ++ [ev] /\
                  fit_of_split g x y (i_trn, i_tst) ev).
Proof.
  unfold outer_fold.
  apply post_bind, post_lift.
  destruct (split_data g i_trn i_tst) as [[g_trn g_tst]|e] eqn:Hg;
    [|discriminate].
  apply post_bind, post_lift.
  destruct (split_data y i_trn i_tst) as [[y_trn y_tst]|e] eqn:Hy;
    [|discriminate].
  apply post_bind, post_lift.
  destruct (split_data x i_trn i_tst) as [[x_trn x_tst]|e] eqn:Hx;
    [|discriminate].
  apply post_bind, post_lift.
  destruct (get_scorer objective) as [scorer|e]; [|discriminate].
  apply post_bind, post_get; [intros n_pred_inner _ | intros _; discriminate].
  apply post_bind, post_lift.
  destruct (ceil_ratio n_pred_inner (shape0 g_trn)) as [r|e]; [|discriminate].
  apply post_bind, post_set.
  apply post_bind, post_get; [intros n_samples_rs _ | intros _; discriminate].
  apply post_bind, post_get; [intros n_jobs _ | intros _; discriminate].
  apply post_bind, post_get; [intros n_cv_folds _ | intros _; discriminate].
  apply post_bind, post_get; [intros n_rep _ | intros _; discriminate].
  apply post_bind, post_call_fit. intros rb rng' _.
  destruct rb as [best|e]; [|discriminate].
  apply post_bind, post_lift.
  destruct (predict best x_tst) as [y_pred|e]; [|discriminate].
  apply post_lift. intros _. cbn [calls].
  eexists. split; [reflexivity|].
  unfold fit_of_split. cbn [fst snd]. eauto 12.
Qed.

Lemma outer_loop_fits (estimator : Estimator)
    (space : list (string * distribution)) (g x y : DataFrame)
    (objective : pyval) (splits : list (list Z * list Z)) :
  forall (acc : list npfloat) (w : world),
    post (outer_loop estimator space g x y objective splits acc) w
      (fun r w' =>
         is_ok r = true ->
         exists fits, calls w' = calls w ++ fits /\
                      Forall2 (fit_of_split g x y) splits fits).
Proof.
  induction splits as [|[i_trn i_tst] rest IH]; intros acc w.
  - apply post_ret. intros _. exists []. rewrite app_nil_r. auto.
  - cbn [outer_loop]. apply post_bind.
    eapply post_weaken; [apply outer_fold_fit|].
    intros r w1 H1. destruct r as [s|e]; [|discriminate].
    destruct (H1 eq_refl) as (ev & Hc1 & Hev).
    eapply post_weaken; [apply IH|].
    intros r2 w2 H2 Hok. destruct (H2 Hok) as (fits & Hc2 & Hfits).
    exists (ev :: fits). rewrite Hc2, Hc1, <- app_assoc. split; [reflexivity|].
    constructor; assumption.
Qed.

Lemma compute_redundancy_fits (g x y : DataFrame) (objective : pyval)
    (w : world) :
  post (compute_redundancy g x y objective) w
    (fun r w' =>
       is_ok r = true ->
       exists cv splits rng1 fits,
         cv_split cv g g (rng w) = (Ok splits, rng1) /\
         calls w' = calls w ++ EvSplit cv g :: fits /\
         Forall2 (fit_of_split g x y) splits fits).
Proof.
  unfold compute_redundancy.
  apply post_bind, post_lift.
  destruct (prepare objective) as [[estimator space]|e]; [|discriminate].
  apply post_bind, post_get; [intros v _ | intros _; discriminate].
  apply post_bind, post_lift.
  destruct (ceil_ratio v (shape0 g)) as [n|e]; [|discriminate].
  apply post_bind, post_set.
  apply post_bind, post_get; [intros k _ | intros _; discriminate].
  apply post_bind, post_get; [intros nr _ | intros _; discriminate].
  apply post_bind, post_call_split. intros rs rng' Hsplit. cbn [rng] in Hsplit.
  destruct rs as [splits|e]; [|discriminate].
  apply post_bind.
  eapply post_weaken; [apply outer_loop_fits|].
  intros rl w3 H3. destruct rl as [scores|e]; [|discriminate].
  apply post_ret. intros _.
  destruct (H3 eq_refl) as (fits & Hc & Hfits). cbn [calls] in Hc.
  eexists _, splits, rng', fits. split; [exact Hsplit|].
  split; [|exact Hfits]. rewrite Hc, <- app_assoc. reflexivity.
Qed.

(** X5: a scorer run that returns has called the splitter once, with the
    random state it was started in, and then run exactly one search per
    split, in the order of the splits; the predictor, target and group train
    partitions given to a search are cut from the three frames by the index
    arrays of the same split. *)
Theorem one_search_per_split (g x y : DataFrame) (objective : pyval)
    (w w' : world) (r : npfloat) :
  compute_redundancy g x y objective w = (Ok r, w') ->
  exists cv splits rng1 fits,
    cv_split cv g g (rng w) = (Ok splits, rng1) /\
    calls w' = calls w ++ EvSplit cv g :: fits /\
    Forall2 (fit_of_split g x y) splits fits.
Proof.
  intros Hrun.
  apply (post_run _ _ _ _ _ (compute_redundancy_fits g x y objective w) Hrun).
  reflexivity.
Qed.

Lemma sim_bind {A B} (R R1 R2 : world -> world -> Prop) (m : M A)
    (k : A -> M B) :
  sim R m R1 ->
  (forall a, sim R1 (k a) R2) ->
  (forall w1 w2, R1 w1 w2 -> R2 w1 w2) ->
  sim R (x ← m; k x) R2.
Proof.
  intros Hm Hk Hsub w1 w2 HR. rewrite !run_bind.
  destruct (Hm w1 w2 HR) as [Hfst Hsnd].
  destruct (m w1) as [r1 u1], (m w2) as [r2 u2]. cbn [fst snd] in *. subst r2.
  destruct r1 as [a|e]; [apply Hk; exact Hsnd | cbn; auto].
Qed.

Lemma sim_lift {A} (R : world -> world -> Prop) (r : result A) :
  sim R (lift r) R.
Proof. intros w1 w2 HR. cbn. auto. Qed.

Lemma sim_ret {A} (R : world -> world -> Prop) (a : A) : sim R (mret a) R.
Proof. intros w1 w2 HR. cbn. auto. Qed.

Lemma sim_weaken {A} (R R1 R2 : world -> world -> Prop) (m : M A) :
  sim R m R1 -> (forall w1 w2, R1 w1 w2 -> R2 w1 w2) -> sim R m R2.
Proof. intros Hm Hsub w1 w2 HR. destruct (Hm w1 w2 HR). auto. Qed.

Lemma sim_get (keys : list string) (key : string) :
  key ∉ keys -> sim (same_except keys) (task_get key) (same_except keys).
Proof.
  intros Hk w1 w2 HR. unfold task_get.
  destruct HR as (Hr & Hc & Ht). rewrite (Ht key Hk).
  destruct (task w2 !! key); cbn; unfold same_except; auto.
Qed.

Lemma sim_set (keys : list string) (key : string) (v : pyval) :
  sim (same_except (key :: keys)) (task_set key v) (same_except keys).
Proof.
  intros w1 w2 (Hr & Hc & Ht). unfold task_set, same_except.
  cbn [fst snd task rng calls].
  split; [reflexivity|]. split; [exact Hr|]. split; [exact Hc|].
  intros k Hk. destruct (decide (key = k)) as [->|Hne].
  - rewrite !lookup_insert_eq. reflexivity.
  - rewrite !lookup_insert_ne by exact Hne. apply Ht.
    intros Hin. apply elem_of_cons in Hin. destruct Hin as [->|Hin]; auto.
Qed.

Lemma sim_call_split (keys : list string) (cv : RepeatedGroupKFold)
    (g : DataFrame) :
  sim (same_except keys) (call_split cv g) (same_except keys).
Proof.
  intros w1 w2 (Hr & Hc & Ht). unfold call_split. rewrite Hr, Hc.
  destruct (cv_split cv g g (rng w2)) as [r rng']. cbn.
  split; [reflexivity|]. split; [reflexivity|]. split; [reflexivity|]. exact Ht.
Qed.

Lemma sim_call_fit (keys : list string) (search : RandomizedSearchCV)
    (x_trn y_trn g_trn : DataFrame) :
  sim (same_except keys) (call_fit search x_trn y_trn g_trn)
    (same_except keys).
Proof.
  intros w1 w2 (Hr & Hc & Ht). unfold call_fit. rewrite Hr, Hc.
  destruct (search_fit search x_trn (squeeze y_trn) g_trn (rng w2))
    as [r rng']. cbn.
  split; [reflexivity|]. split; [reflexivity|]. split; [reflexivity|]. exact Ht.
Qed.

Lemma same_except_mono (keys keys' : list string) (w1 w2 : world) :
  keys ⊆ keys' -> same_except keys w1 w2 -> same_except keys' w1 w2.
Proof.
  intros Hsub (Hr & Hc & Ht). split; [exact Hr|]. split; [exact Hc|].
  intros key Hk. apply Ht. intros Hin. apply Hk, Hsub, Hin.
Qed.

Lemma sim_outer_fold (estimator : Estimator)
    (space : list (string * distribution)) (g x y : DataFrame)
    (objective : pyval) (split : list Z * list Z) :
  sim (same_except ["n_rep_inner_cv"%string])
    (outer_fold estimator space g x y objective split)
    (same_except ["n_rep_inner_cv"%string]).
Proof.
  assert (Hsub : forall w1 w2, same_except [] w1 w2 ->
                   same_except ["n_rep_inner_cv"%string] w1 w2).
  { intros w1 w2. apply same_except_mono. intros k Hk.
    apply elem_of_nil in Hk. destruct Hk. }
  destruct split as [i_trn i_tst]. unfold outer_fold.
  eapply sim_bind; [apply sim_lift | intros [g_trn g_tst] | auto].
  eapply sim_bind; [apply sim_lift | intros [y_trn y_tst] | auto].
  eapply sim_bind; [apply sim_lift | intros [x_trn x_tst] | auto].
  eapply sim_bind; [apply sim_lift | intros scorer | auto].
  eapply sim_bind; [apply sim_get; solve_notin | intros n_pred_inner | auto].
  eapply sim_bind; [apply sim_lift | intros r | auto].
  eapply sim_bind; [apply sim_set | intros _ | exact Hsub].
  eapply sim_weaken; [|exact Hsub].
  eapply sim_bind; [apply sim_get; solve_notin | intros n_samples_rs | auto].
  eapply sim_bind; [apply sim_get; solve_notin | intros n_jobs | auto].
  eapply sim_bind; [apply sim_get; solve_notin | intros n_cv_folds | auto].
  eapply sim_bind; [apply sim_get; solve_notin | intros n_rep | auto].
  eapply sim_bind; [apply sim_call_fit | intros best | auto].
  eapply sim_bind; [apply sim_lift | intros y_pred | auto].
  apply sim_lift.
Qed.

Lemma sim_outer_loop (estimator : Estimator)
    (space : list (string * distribution)) (g x y : DataFrame)
    (objective : pyval) (splits : list (list Z * list Z)) :
  forall acc : list npfloat,
    sim (same_except ["n_rep_inner_cv"%string])
      (outer_loop estimator space g x y objective splits acc)
      (same_except ["n_rep_inner_cv"%string]).
Proof.
  induction splits as [|split rest IH]; intros acc.
  - apply sim_ret.
  - cbn [outer_loop].
    eapply sim_bind; [apply sim_outer_fold | intros s; apply IH | auto].
Qed.

(** X7: the derived repeat counts a previous call left in the task never
    influence a scorer run.  Two runs from worlds that differ at most in
    [n_rep_outer_cv] and [n_rep_inner_cv] end with the same result, make the
    same library calls, leave the random generator in the same state and
    again differ at most in those two entries. *)
Theorem stale_repeat_counts_ignored (g x y : DataFrame) (objective : pyval)
    (w1 w2 : world) :
  same_except derived_keys w1 w2 ->
  fst (compute_redundancy g x y objective w1)
  = fst (compute_redundancy g x y objective w2) /\
  same_except derived_keys (snd (compute_redundancy g x y objective w1))
    (snd (compute_redundancy g x y objective w2)).
Proof.
  revert w1 w2.
  change (sim (same_except derived_keys) (compute_redundancy g x y objective)
            (same_except derived_keys)).
  assert (Hsub : forall w1 w2, same_except ["n_rep_inner_cv"%string] w1 w2 ->
                   same_except derived_keys w1 w2).
  { intros w1 w2. apply same_except_mono. intros k Hk.
    apply list_elem_of_further. exact Hk. }
  unfold compute_redundancy.
  eapply sim_bind; [apply sim_lift | intros [estimator space] | auto].
  eapply sim_bind; [apply sim_get; solve_notin | intros n_pred_outer | auto].
  eapply sim_bind; [apply sim_lift | intros r | auto].
  eapply sim_bind; [apply sim_set | intros _ | exact Hsub].
  eapply sim_weaken; [|exact Hsub].
  eapply sim_bind; [apply sim_get; solve_notin | intros n_cv_folds | auto].
  eapply sim_bind; [apply sim_get; solve_notin | intros n_rep_outer | auto].
  eapply sim_bind; [apply sim_call_split | intros splits | auto].
  eapply sim_bind; [apply sim_outer_loop | intros scores | auto].
  apply sim_ret.
Qed.

End ScorerMore.

(** ** The matrix build: enumeration, entries, failures *)

Lemma indexed_lookup {A} (l : list A) (x : nat * A) :
  x ∈ imap (fun p a => (p, a)) l <-> l !! fst x = Some (snd x).
Proof.
  rewrite elem_of_lookup_imap. destruct x as [p a]. cbn. split.
  - intros (i & b & [= -> ->] & H). exact H.
  - intros H. eauto.
Qed.

Lemma indexed_NoDup {A} (l : list A) : NoDup (imap (fun p a => (p, a)) l).
Proof.
  apply NoDup_alt. intros i j [p a] Hi Hj.
  rewrite list_lookup_imap in Hi, Hj.
  destruct (l !! i) as [u|]; [|discriminate].
  destruct (l !! j) as [v|]; [|discriminate].
  cbn in Hi, Hj. congruence.
Qed.

Lemma permutations2_NoDup {A} (l : list A) :
  NoDup l -> NoDup (permutations2 l).
Proof.
  intros Hnd. unfold permutations2.
  set (indexed := imap (fun p a => (p, a)) l).
  assert (Hpos : forall p q a, l !! p = Some a -> l !! q = Some a -> p = q).
  { intros p q a Hp Hq. eapply NoDup_lookup; eassumption. }
  match goal with
  | |- NoDup (flat_map ?f indexed) => change (NoDup (indexed ≫= f))
  end.
  apply NoDup_bind; [| |apply indexed_NoDup].
  - intros [p a] [p' a'] [u v] Hx Hx' Hy Hy'.
    apply indexed_lookup in Hx, Hx'. cbn in Hx, Hx'.
    apply list_elem_of_In, in_flat_map in Hy, Hy'.
    destruct Hy as ([q b] & _ & Hy), Hy' as ([q' b'] & _ & Hy').
    apply list_elem_of_In in Hy, Hy'. cbn [fst snd] in Hy, Hy'.
    destruct (decide (p = q)); [apply elem_of_nil in Hy; destruct Hy|].
    destruct (decide (p' = q')); [apply elem_of_nil in Hy'; destruct Hy'|].
    apply list_elem_of_singleton in Hy, Hy'.
    injection Hy as -> _. injection Hy' as <- _.
    assert (p = p') by (eapply Hpos; eassumption). congruence.
  - intros [p a] Hx.
    match goal with
    | |- NoDup (flat_map ?f indexed) => change (NoDup (indexed ≫= f))
    end.
    apply NoDup_bind; [| |apply indexed_NoDup].
    + intros [q b] [q' b'] [u v] Hq Hq' Hy Hy'.
      apply indexed_lookup in Hq, Hq'. cbn in Hq, Hq'.
      cbn in Hy, Hy'.
      destruct (decide (p = q)); [apply elem_of_nil in Hy; destruct Hy|].
      destruct (decide (p = q')); [apply elem_of_nil in Hy'; destruct Hy'|].
      apply list_elem_of_singleton in Hy, Hy'.
      injection Hy as -> ->. injection Hy' as <-.
      assert (q = q') by (eapply Hpos; eassumption). congruence.
    + intros [q b] _. cbn. destruct (decide (p = q)); [constructor|].
      apply NoDup_singleton.
Qed.

Lemma inner_pairs_length {A B} (h : nat * A -> B) (p : nat) (l : list A) :
  forall off : nat,
    length (flat_map (fun qb => if decide (p = fst qb) then [] else [h qb])
              (imap (fun q b => (off + q, b)%nat) l))
    = (length l - (if decide (off <= p < off + length l)%nat then 1 else 0))%nat.
Proof.
  induction l as [|b l IH]; intros off.
  - cbn. reflexivity.
  - rewrite imap_cons. cbn [flat_map fst length].
    rewrite length_app.
    rewrite (imap_ext _ (fun q b => (S off + q, b)%nat))
      by (intros; cbn; f_equal; lia).
    rewrite (IH (S off)). rewrite Nat.add_0_r.
    destruct (decide (p = off)) as [->|Hne].
    + cbn [length]. rewrite decide_False by lia. rewrite decide_True by lia. lia.
    + cbn [length].
      destruct (decide (S off <= p < S off + length l)%nat);
        destruct (decide (off <= p < off + S (length l))%nat); lia.
Qed.

Lemma permutations2_length {A} (l : list A) :
  length (permutations2 l) = (length l * (length l - 1))%nat.
Proof.
  unfold permutations2.
  rewrite (flat_map_length_const _ (length l - 1)).
  - rewrite length_imap. reflexivity.
  - intros [p a] Hx. apply indexed_lookup in Hx. cbn in Hx.
    apply lookup_lt_Some in Hx.
    pose proof (inner_pairs_length (fun qb : nat * A => (a, snd qb)) p l 0) as H.
    cbn [Nat.add] in H.
    cbn [fst snd]. rewrite H. rewrite decide_True by lia. reflexivity.
Qed.

Lemma factorize_from_length {A} (eqb : A -> A -> bool) (l : list A) :
  forall uniques, length (factorize_from eqb uniques l) = length l.
Proof.
  induction l as [|a l IH]; intros uniques; [reflexivity|].
  cbn [factorize_from].
  destruct (list_find (fun u => eqb u a = true) uniques) as [[i u]|];
    cbn; rewrite IH; reflexivity.
Qed.


Section MatrixMore.

Context `{SK : Sklearn}.

(** X11: whatever its outcome, the matrix build leaves every task entry
    other than the two derived repeat counts as it was: the role lists, the
    objective and the cross-validation settings the next analysis step reads
    are those that were passed in. *)
Theorem build_keeps_task (g z : DataFrame) (w : world) :
  frame_except derived_keys w (snd (eda_redundancy g z w)).
Proof.
  unfold eda_redundancy.
  exact (pair_loop_frame g z _ _ w).
Qed.

Lemma pair_step_ok (g z : DataFrame) (i j : nat)
    (red red' : list (list npfloat)) (w w' : world) :
  pair_step g z (i, j) red w = (Ok red', w') ->
  exists objective xt yt r,
    select_task z i j w = (Ok (objective, xt, yt), w) /\
    compute_redundancy g xt yt objective w = (Ok r, w') /\
    matrix_set red i j r = Ok red'.
Proof.
  intros H. unfold pair_step in H. apply bind_ok in H.
  destruct H as ([[objective xt] yt] & w1 & Hsel & H).
  pose proof (select_task_world z i j w) as Hw. unfold post in Hw.
  rewrite Hsel in Hw. cbn in Hw. subst w1.
  apply bind_ok in H. destruct H as (r & w2 & Hr & H).
  apply lift_ok in H. destruct H as [Hset ->]. eauto 8.
Qed.

Lemma matrix_set_get (m m' : list (list npfloat)) (i j : nat) (v : npfloat) :
  matrix_set m i j v = Ok m' ->
  matrix_get m' i j = Some v /\
  forall a b, (a, b) <> (i, j) -> matrix_get m' a b = matrix_get m a b.
Proof.
  intros H. apply matrix_set_ok in H. destruct H as (row & Hrow & Hj & ->).
  unfold matrix_get. split.
  - rewrite list_lookup_insert_eq by (eapply lookup_lt_Some; exact Hrow).
    cbn. apply list_lookup_insert_eq. exact Hj.
  - intros a b Hne. destruct (decide (a = i)) as [->|Ha].
    + rewrite list_lookup_insert_eq by (eapply lookup_lt_Some; exact Hrow).
      rewrite Hrow. cbn. apply list_lookup_insert_ne. congruence.
    + rewrite list_lookup_insert_ne by auto. reflexivity.
Qed.

Lemma pair_loop_other_cells (g z : DataFrame) (pairs : list (nat * nat)) :
  forall (red m : list (list npfloat)) (w w' : world) (ids : nat * nat),
    pair_loop g z pairs red w = (Ok m, w') ->
    ids ∉ pairs ->
    matrix_get m (fst ids) (snd ids) = matrix_get red (fst ids) (snd ids).
Proof.
  induction pairs as [|[i j] rest IH]; intros red m w w' ids H Hnotin.
  - injection H as <- <-. reflexivity.
  - cbn [pair_loop] in H. apply bind_ok in H.
    destruct H as (red1 & w1 & Hstep & H).
    apply not_elem_of_cons in Hnotin. destruct Hnotin as [Hne Hnotin].
    rewrite (IH _ _ _ _ _ H Hnotin).
    apply pair_step_ok in Hstep.
    destruct Hstep as (objective & xt & yt & r & _ & _ & Hset).
    apply matrix_set_get in Hset. destruct Hset as [_ Hother].
    apply Hother. destruct ids. cbn. congruence.
Qed.

Lemma pair_loop_cells (g z : DataFrame) (pairs : list (nat * nat)) :
  NoDup pairs ->
  forall (red m : list (list npfloat)) (w w' : world),
    pair_loop g z pairs red w = (Ok m, w') ->
    Forall (cell_scored g z m) pairs.
Proof.
  induction 1 as [|[i j] rest Hnotin Hnd IH]; intros red m w w' H;
    [constructor|].
  cbn [pair_loop] in H. apply bind_ok in H.
  destruct H as (red1 & w1 & Hstep & H).
  constructor; [|eapply IH; exact H].
  apply pair_step_ok in Hstep.
  destruct Hstep as (objective & xt & yt & r & Hsel & Hr & Hset).
  exists objective, xt, yt, w, w1, r. cbn [fst snd].
  split; [exact Hsel|]. split; [exact Hr|].
  pose proof (pair_loop_other_cells g z rest red1 m w1 w' (i, j) H Hnotin)
    as Hkeep.
  cbn [fst snd] in Hkeep. rewrite Hkeep.
  apply matrix_set_get in Hset. apply Hset.
Qed.

(** X9: in the matrix a build returns for a table with unique labels, every
    off-diagonal entry [(i, j)] is the score the scorer returned for the
    pair: the frames and objective the dispatch picked for predictor column
    [i] and target column [j].  No later pair overwrites it. *)
Theorem matrix_entries_are_scores (g z : DataFrame) (w w' : world)
    (m : list (list npfloat)) (i j : nat) :
  NoDup (df_columns z) ->
  eda_redundancy g z w = (Ok m, w') ->
  i <> j -> (i < length (df_columns z))%nat -> (j < length (df_columns z))%nat ->
  cell_scored g z m (i, j).
Proof.
  intros Hnd H Hij Hi Hj. unfold eda_redundancy in H.
  assert (Hpairs : NoDup (permutations2 (factorize_labels (df_columns z)))).
  { rewrite factorize_labels_unique by exact Hnd.
    apply permutations2_NoDup, NoDup_seq. }
  pose proof (pair_loop_cells g z _ Hpairs _ _ _ _ H) as Hall.
  eapply Forall_forall in Hall; [exact Hall|].
  apply pairs_of_unique_labels; auto.
Qed.

Lemma compute_redundancy_one_split (g x y : DataFrame) (objective : pyval)
    (w w' : world) (r : npfloat) :
  compute_redundancy g x y objective w = (Ok r, w') ->
  exists evs, calls w' = calls w ++ evs /\ count_splits evs = 1%nat.
Proof.
  intros Hrun.
  destruct (post_run _ _ _ _ _ (compute_redundancy_fits g x y objective w) Hrun
              eq_refl) as (cv & splits & rng1 & fits & _ & Hc & Hfits).
  exists (EvSplit cv g :: fits). split; [exact Hc|].
  unfold count_splits. rewrite filter_cons_True by reflexivity. cbn [length].
  f_equal. rewrite filter_none; [reflexivity|].
  intros ev Hev. apply list_elem_of_lookup_1 in Hev. destruct Hev as [k Hk].
  destruct (Forall2_lookup_r _ _ _ _ _ Hfits Hk)
    as (split & _ & (search & ? & ? & ? & ? & ? & ? & -> & _)).
  cbn. discriminate.
Qed.

Lemma count_splits_app (a b : list event) :
  count_splits (a ++ b) = (count_splits a + count_splits b)%nat.
Proof. unfold count_splits. rewrite filter_app, length_app. reflexivity. Qed.

Lemma pair_loop_split_count (g z : DataFrame) (pairs : list (nat * nat)) :
  forall (red m : list (list npfloat)) (w w' : world),
    pair_loop g z pairs red w = (Ok m, w') ->
    exists evs, calls w' = calls w ++ evs /\
                count_splits evs = length pairs.
Proof.
  induction pairs as [|[i j] rest IH]; intros red m w w' H.
  - injection H as <- <-. exists []. rewrite app_nil_r. auto.
  - cbn [pair_loop] in H. apply bind_ok in H.
    destruct H as (red1 & w1 & Hstep & H).
    apply pair_step_ok in Hstep.
    destruct Hstep as (objective & xt & yt & r & _ & Hr & _).
    apply compute_redundancy_one_split in Hr.
    destruct Hr as (evs1 & Hc1 & Hn1).
    destruct (IH _ _ _ _ H) as (evs2 & Hc2 & Hn2).
    exists (evs1 ++ evs2). rewrite Hc2, Hc1, app_assoc. split; [reflexivity|].
    rewrite count_splits_app, Hn1, Hn2. reflexivity.
Qed.

(** X10: for a table of [n] columns with unique labels the pair loop visits
    [n * (n - 1)] pairs, none twice, namely the off-diagonal cells; and a
    build that returns has called the grouped splitter once for each of
    them: every pair is scored afresh, nothing is reused between pairs. *)
Theorem every_pair_scored_once (g z : DataFrame) (w w' : world)
    (m : list (list npfloat)) :
  NoDup (df_columns z) ->
  eda_redundancy g z w = (Ok m, w') ->
  let n := length (df_columns z) in
  let pairs := permutations2 (factorize_labels (df_columns z)) in
  NoDup pairs /\
  length pairs = (n * (n - 1))%nat /\
  (forall i j, (i, j) ∈ pairs <-> i <> j /\ (i < n)%nat /\ (j < n)%nat) /\
  exists evs, calls w' = calls w ++ evs /\
              count_splits evs = (n * (n - 1))%nat.
Proof.
  intros Hnd H n pairs.
  assert (Hlen : length pairs = (n * (n - 1))%nat).
  { unfold pairs, n, factorize_labels.
    rewrite permutations2_length, factorize_from_length. reflexivity. }
  split; [|split; [exact Hlen|split]].
  - unfold pairs. rewrite factorize_labels_unique by exact Hnd.
    apply permutations2_NoDup, NoDup_seq.
  - intros i j. apply pairs_of_unique_labels. exact Hnd.
  - unfold eda_redundancy in H. apply pair_loop_split_count in H.
    destruct H as (evs & Hc & Hn). exists evs. split; [exact Hc|].
    rewrite Hn. exact Hlen.
Qed.

Lemma pair_loop_reaches_failure (g z : DataFrame) (ids : nat * nat)
    (e0 : exn) (Inv : world -> Prop) :
  (forall w1 w2, Inv w1 -> frame_except derived_keys w1 w2 -> Inv w2) ->
  (forall red w1, Inv w1 -> pair_step g z ids red w1 = (Raise e0, w1)) ->
  forall (pairs : list (nat * nat)) (red : list (list npfloat)) (w : world),
    Inv w -> ids ∈ pairs ->
    exists e w', pair_loop g z pairs red w = (Raise e, w').
Proof.
  intros Hinv Hfail pairs.
  induction pairs as [|p rest IH]; intros red w Hw Hin.
  - apply elem_of_nil in Hin. destruct Hin.
  - cbn [pair_loop]. rewrite run_bind.
    apply elem_of_cons in Hin. destruct Hin as [<-|Hin].
    + rewrite (Hfail red w Hw). eauto.
    + pose proof (pair_step_frame g z p red w) as Hf. unfold post in Hf.
      destruct (pair_step g z p red w) as [[red1|e] w1]; [|eauto].
      cbn in Hf. apply IH; [eapply Hinv; eassumption | exact Hin].
Qed.

(** X12: an unsupported task objective stops the build at the designated
    target.  When the task objective is none of regression, binary and
    multiclass, the step of any pair that predicts a column whose role is
    designated target raises the unsupported-objective error of [prepare]
    before the matrix or the task is written and before any library call;
    with unique labels and a second column, the build returns no matrix. *)
Theorem unsupported_task_objective_aborts (g z : DataFrame) (w : world)
    (con bin mult ys : list string) (i j : nat) (predictor target : string)
    (task_objective : pyval) :
  role_lists (task w) con bin mult ys ->
  task w !! "OBJECTIVE"%string = Some task_objective ->
  task_objective <> PStr "regression" ->
  task_objective <> PStr "binary" ->
  task_objective <> PStr "multiclass" ->
  NoDup (df_columns z) ->
  df_columns z !! i = Some predictor ->
  df_columns z !! j = Some target ->
  first_role con bin mult ys target = Some Target ->
  (forall red, pair_step g z (i, j) red w = (Raise objective_error, w)) /\
  (i <> j -> exists e w', eda_redundancy g z w = (Raise e, w')).
Proof.
  intros Hroles Hobj Hr Hb Hm Hnd Hi Hj Hrole.
  set (Inv := fun w1 : world =>
                role_lists (task w1) con bin mult ys /\
                task w1 !! "OBJECTIVE"%string = Some task_objective).
  assert (Hfail : forall red w1, Inv w1 ->
            pair_step g z (i, j) red w1 = (Raise objective_error, w1)).
  { intros red w1 [Hroles1 Hobj1]. unfold pair_step. rewrite run_bind.
    rewrite (select_task_dispatch z i j w1 con bin mult ys predictor target
               task_objective Target Hroles1 Hobj1 Hnd Hi Hj Hrole).
    unfold dispatch. cbn [role_objective]. rewrite run_bind.
    unfold compute_redundancy. rewrite run_bind. unfold lift at 1.
    unfold prepare, py_eq_str.
    rewrite !bool_decide_eq_false_2 by assumption. reflexivity. }
  split.
  - intros red. apply Hfail. split; assumption.
  - intros Hne. unfold eda_redundancy.
    apply (pair_loop_reaches_failure g z (i, j) objective_error Inv).
    + intros w1 w2 [Hroles1 Hobj1] Hf. split.
      * eapply role_lists_frame; eassumption.
      * rewrite Hf by solve_notin. exact Hobj1.
    + exact Hfail.
    + split; assumption.
    + apply pairs_of_unique_labels; [exact Hnd|].
      split; [exact Hne|]. split; eapply lookup_lt_Some; eassumption.
Qed.

End MatrixMore.
(** ** Data preparation of [main] *)

Lemma filter_map_comm {A B} (f : A -> B) (P : B -> Prop)
    `{forall b, Decision (P b)} (l : list A) :
  filter P (map f l) = map f (filter (fun a => P (f a)) l).
Proof.
  induction l as [|a l IH]; [reflexivity|].
  cbn [map]. rewrite !filter_cons. destruct (decide (P (f a))); cbn; rewrite IH;
    reflexivity.
Qed.

Lemma range_rows (F : DataFrame) :
  range_indexed F ->
  df_rows F
  = map (fun p => (Z.of_nat p, row_values F p)) (seq 0 (length (df_rows F))).
Proof.
  intros Hr. apply list_eq. intros i. rewrite list_lookup_fmap.
  destruct (df_rows F !! i) as [r|] eqn:Hi.
  - rewrite lookup_seq_lt by (eapply lookup_lt_Some; exact Hi). cbn.
    unfold row_values. rewrite Hi. cbn.
    assert (Hl : df_index F !! i = Some (fst r)).
    { unfold df_index. rewrite list_lookup_fmap, Hi. reflexivity. }
    rewrite Hr, list_lookup_fmap in Hl.
    rewrite lookup_seq_lt in Hl by (eapply lookup_lt_Some; exact Hi).
    cbn in Hl. injection Hl as Hl. rewrite Hl. destruct r; reflexivity.
  - rewrite lookup_seq_ge by (apply lookup_ge_None; exact Hi). reflexivity.
Qed.

Lemma range_index_NoDup (F : DataFrame) :
  range_indexed F -> NoDup (df_index F).
Proof.
  intros ->. apply (NoDup_fmap_2 Z.of_nat), NoDup_seq.
Qed.

Lemma gather_row (F : DataFrame) (src : list nat) (q p : nat) :
  src !! q = Some p ->
  df_rows (gather F src) !! q = Some (Z.of_nat q, row_values F p).
Proof. intros H. cbn. rewrite list_lookup_imap, H. reflexivity. Qed.

Lemma gather_length (F : DataFrame) (src : list nat) :
  length (df_rows (gather F src)) = length src.
Proof. cbn. apply length_imap. Qed.

Lemma gather_range_indexed (F : DataFrame) (src : list nat) :
  range_indexed (gather F src).
Proof.
  unfold range_indexed. rewrite gather_length. unfold df_index. cbn.
  apply list_eq. intros i. rewrite !list_lookup_fmap, list_lookup_imap.
  destruct (src !! i) as [p|] eqn:Hi.
  - rewrite lookup_seq_lt by (eapply lookup_lt_Some; exact Hi). reflexivity.
  - rewrite lookup_seq_ge by (apply lookup_ge_None; exact Hi). reflexivity.
Qed.

Lemma gather_row_values (F : DataFrame) (src : list nat) (q p : nat) :
  src !! q = Some p -> row_values (gather F src) q = row_values F p.
Proof.
  intros H. unfold row_values at 1. rewrite (gather_row F src q p H).
  reflexivity.
Qed.

Lemma reset_index_gather (cols : list string) (F : DataFrame)
    (ps : list nat) (f : nat -> Z) :
  cols = df_columns F ->
  reset_index (mkDataFrame cols (map (fun p => (f p, row_values F p)) ps))
  = gather F ps.
Proof.
  intros ->. unfold reset_index, gather. cbn. f_equal.
  apply list_eq. intros i. rewrite !list_lookup_imap, list_lookup_fmap.
  destruct (ps !! i); reflexivity.
Qed.

Lemma range_find_row (F : DataFrame) (p : nat) :
  range_indexed F -> (p < length (df_rows F))%nat ->
  reindex_row F (Z.of_nat p) = (Z.of_nat p, row_values F p).
Proof.
  intros Hr Hp. unfold reindex_row.
  destruct (lookup_lt_is_Some_2 (df_rows F) p Hp) as [r Hrow].
  assert (Hlabel : forall i u, df_rows F !! i = Some u -> fst u = Z.of_nat i).
  { intros i u Hi. rewrite (range_rows F Hr), list_lookup_fmap in Hi.
    destruct (seq 0 (length (df_rows F)) !! i) as [k|] eqn:Hk; [|discriminate].
    apply lookup_seq in Hk. destruct Hk as [-> _]. cbn in Hi.
    injection Hi as <-. reflexivity. }
  assert (Hfind : list_find (fun u => fst u = Z.of_nat p) (df_rows F)
                  = Some (p, r)).
  { apply list_find_Some. split; [exact Hrow|]. split; [apply Hlabel, Hrow|].
    intros i u Hi Hlt Hu. rewrite (Hlabel i u Hi) in Hu. lia. }
  rewrite Hfind. unfold row_values. rewrite Hrow. reflexivity.
Qed.

Lemma reindex_range (F : DataFrame) (ps : list nat) :
  range_indexed F ->
  Forall (fun p => (p < length (df_rows F))%nat) ps ->
  reindex F (map Z.of_nat ps)
  = Ok (mkDataFrame (df_columns F)
          (map (fun p => (Z.of_nat p, row_values F p)) ps)).
Proof.
  intros Hr Hps. unfold reindex.
  rewrite decide_True by (apply range_index_NoDup; exact Hr).
  do 2 f_equal. rewrite map_map. apply Forall_fmap_ext_1.
  eapply Forall_impl; [exact Hps|]. intros p Hp. cbn.
  apply range_find_row; assumption.
Qed.

Lemma range_loc_label (F : DataFrame) (q : nat) :
  range_indexed F -> (q < length (df_rows F))%nat ->
  loc_label (df_rows F) (Z.of_nat q) = Ok [(Z.of_nat q, row_values F q)].
Proof.
  intros Hr Hq. unfold loc_label.
  assert (Hf : filter (fun r => fst r = Z.of_nat q) (df_rows F)
               = [(Z.of_nat q, row_values F q)]).
  { rewrite (range_rows F Hr) at 1. rewrite filter_map_comm. cbn [fst].
    assert (Hs : filter (fun a => Z.of_nat a = Z.of_nat q)
                   (seq 0 (length (df_rows F))) = [q]).
    { generalize (length (df_rows F)) Hq. intros n Hn.
      assert (Hsplit : seq 0 n = seq 0 q ++ q :: seq (S q) (n - S q)).
      { replace n with (q + S (n - S q))%nat at 1 by lia.
        rewrite seq_app. reflexivity. }
      rewrite Hsplit, filter_app, filter_cons_True by reflexivity.
      rewrite !filter_none; [reflexivity| |].
      - intros a Ha Heq. apply elem_of_seq in Ha. lia.
      - intros a Ha Heq. apply elem_of_seq in Ha. lia. }
    rewrite Hs. reflexivity. }
  rewrite Hf. reflexivity.
Qed.

Lemma loc_range (F : DataFrame) (qs : list nat) :
  range_indexed F ->
  Forall (fun q => (q < length (df_rows F))%nat) qs ->
  loc F (map Z.of_nat qs)
  = Ok (mkDataFrame (df_columns F)
          (map (fun q => (Z.of_nat q, row_values F q)) qs)).
Proof.
  intros Hr Hqs. unfold loc.
  assert (H : loc_rows (df_rows F) (map Z.of_nat qs)
              = Ok (map (fun q => (Z.of_nat q, row_values F q)) qs)).
  { induction Hqs as [|q qs Hq _ IH]; [reflexivity|].
    cbn [map loc_rows]. rewrite (range_loc_label F q Hr Hq). cbn.
    rewrite IH. reflexivity. }
  rewrite H. reflexivity.
Qed.

Lemma iloc_range (F : DataFrame) (qs : list nat) :
  Forall (fun q => (q < length (df_rows F))%nat) qs ->
  range_indexed F ->
  iloc F (map Z.of_nat qs)
  = Ok (mkDataFrame (df_columns F)
          (map (fun q => (Z.of_nat q, row_values F q)) qs)).
Proof.
  intros Hqs Hr. unfold iloc.
  assert (H : iloc_rows (df_rows F) (map Z.of_nat qs)
              = Ok (map (fun q => (Z.of_nat q, row_values F q)) qs)).
  { induction Hqs as [|q qs Hq _ IH]; [reflexivity|].
    cbn [map iloc_rows]. unfold iloc_row, norm_index.
    rewrite decide_True by lia. rewrite Nat2Z.id.
    destruct (lookup_lt_is_Some_2 (df_rows F) q Hq) as [r Hrow].
    rewrite Hrow. cbn. rewrite IH. cbn. do 2 f_equal.
    pose proof Hrow as Hrow'.
    rewrite (range_rows F Hr), list_lookup_fmap in Hrow'.
    rewrite lookup_seq_lt in Hrow' by exact Hq. cbn in Hrow'.
    injection Hrow' as <-. reflexivity. }
  rewrite H. reflexivity.
Qed.

Lemma gather_gather (F : DataFrame) (ps qs : list nat) :
  Forall (fun q => (q < length ps)%nat) qs ->
  gather (gather F ps) qs = gather F (map (fun q => nth q ps 0%nat) qs).
Proof.
  intros Hqs. unfold gather at 1 3. cbn [df_columns]. f_equal.
  apply list_eq. intros i. rewrite !list_lookup_imap, list_lookup_fmap.
  destruct (qs !! i) as [q|] eqn:Hi; [|reflexivity]. cbn. do 2 f_equal.
  apply gather_row_values.
  rewrite Forall_forall in Hqs.
  assert (Hq : (q < length ps)%nat).
  { apply Hqs. eapply list_elem_of_lookup_2. exact Hi. }
  destruct (lookup_lt_is_Some_2 ps q Hq) as [p Hp]. rewrite Hp. f_equal.
  symmetry. apply nth_lookup_Some with (d := 0%nat) in Hp. exact Hp.
Qed.

Lemma raw_column_range (Y : DataFrame) (j : nat) (name : string) :
  range_indexed Y -> range_indexed (raw_column Y j name).
Proof.
  unfold range_indexed, df_index, raw_column. cbn [df_rows].
  rewrite length_map, map_map. cbn [fst]. trivial.
Qed.

Lemma dropna_rows (C : DataFrame) :
  range_indexed C ->
  df_rows (dropna C)
  = map (fun p => (Z.of_nat p, row_values C p))
      (filter (fun p => forallb not_nan (row_values C p) = true)
         (seq 0 (length (df_rows C)))).
Proof.
  intros Hr. unfold dropna. cbn [df_rows].
  rewrite (range_rows C Hr) at 1. rewrite filter_map_comm. reflexivity.
Qed.

Lemma nth_NoDup_map (ps qs : list nat) :
  NoDup ps -> NoDup qs -> Forall (fun q => (q < length ps)%nat) qs ->
  NoDup (map (fun q => nth q ps 0%nat) qs).
Proof.
  intros Hps Hqs Hlt. induction Hqs as [|q qs Hnotin Hqs IH]; [constructor|].
  apply Forall_cons in Hlt. destruct Hlt as [Hq Hlt].
  cbn [map]. apply NoDup_cons_2; [|apply IH; exact Hlt].
  intros Hin. apply list_elem_of_fmap in Hin. destruct Hin as [q' [Heq Hq']].
  apply Hnotin.
  assert (Hq'lt : (q' < length ps)%nat).
  { rewrite Forall_forall in Hlt. apply Hlt, Hq'. }
  assert (q = q'); [|subst; exact Hq'].
  apply (proj1 (NoDup_nth ps 0%nat)) ; [apply NoDup_ListNoDup; exact Hps | | | ];
    assumption.
Qed.

(** X8: the data preparation of [main] keeps the three tables aligned.  For
    tables read with a range index and equally many rows, a uniquely
    labelled target column and a non-negative [MAX_SAMPLES], it returns, and
    the groups, predictors and target it hands to [eda] are the rows of the
    loaded tables at one and the same list of positions: no position twice,
    every one a row whose target is known, and [min(known rows,
    MAX_SAMPLES)] of them, whatever rows the sampler draws. *)
Theorem prepared_tables_stay_aligned (choice : nat -> nat -> list nat)
    (G X Y : DataFrame) (y_name : string) (j : nat) (max_samples : Z) :
  sampler_ok choice ->
  range_indexed G -> range_indexed X -> range_indexed Y ->
  length (df_rows G) = length (df_rows Y) ->
  length (df_rows X) = length (df_rows Y) ->
  NoDup (df_columns Y) -> df_columns Y !! j = Some y_name ->
  0 <= max_samples ->
  exists src : list nat,
    prepare_target choice G X Y y_name max_samples
    = Ok (gather G src, gather X src, gather (raw_column Y j y_name) src)
    /\ NoDup src
    /\ Forall (fun p => (p < length (df_rows Y))%nat
                        /\ target_known Y j y_name p) src
    /\ Z.of_nat (length src)
       = Z.min (shape0 (dropna (raw_column Y j y_name))) max_samples.
Proof.
  intros Hch HG HX HY HlG HlX Hnd Hj Hmax.
  set (C := raw_column Y j y_name).
  assert (HC : range_indexed C) by (apply raw_column_range; exact HY).
  assert (HlC : length (df_rows C) = length (df_rows Y))
    by (unfold C, raw_column; cbn [df_rows]; apply length_map).
  set (ps := filter (fun p => forallb not_nan (row_values C p) = true)
               (seq 0 (length (df_rows C)))).
  assert (Hrows : df_rows (dropna C)
                  = map (fun p => (Z.of_nat p, row_values C p)) ps)
    by (apply dropna_rows; exact HC).
  assert (Hps : Forall (fun p => (p < length (df_rows Y))%nat
                                 /\ target_known Y j y_name p) ps).
  { apply Forall_forall. intros p Hp.
    unfold ps in Hp. apply list_elem_of_filter in Hp. destruct Hp as [Hk Hp].
    apply elem_of_seq in Hp. split; [lia|exact Hk]. }
  assert (Hps_nd : NoDup ps) by (apply NoDup_filter, NoDup_seq).
  assert (Hidx : df_index (dropna C) = map Z.of_nat ps).
  { unfold df_index. rewrite Hrows, map_map. reflexivity. }
  set (n' := Z.min (shape0 (gather X ps)) max_samples).
  assert (Hshape : shape0 (gather X ps) = Z.of_nat (length ps))
    by (unfold shape0; rewrite gather_length; reflexivity).
  assert (Hn' : (Z.to_nat n' <= length ps)%nat) by (unfold n'; lia).
  destruct (Hch (length ps) (Z.to_nat n') Hn') as [Hlen [Hqs_nd Hqs]].
  set (qs := choice (length ps) (Z.to_nat n')) in *.
  exists (map (fun q => nth q ps 0%nat) qs).
  split; [|split; [|split]].
  - unfold prepare_target, target_frame.
    rewrite (getitem_raw_column Y y_name j Hnd Hj).
    cbn [mbind result_mbind result_bind raw_column df_columns]. fold C.
    rewrite Hidx.
    rewrite (reindex_range G ps HG)
      by (eapply Forall_impl; [exact Hps|]; cbn; intros p [Hp _]; lia).
    rewrite (reindex_range X ps HX)
      by (eapply Forall_impl; [exact Hps|]; cbn; intros p [Hp _]; lia).
    cbn [mbind result_mbind result_bind].
    rewrite !reset_index_gather by reflexivity.
    assert (Hy : reset_index (dropna C) = gather C ps).
    { transitivity
        (reset_index
           (mkDataFrame (df_columns C)
              (map (fun p => (Z.of_nat p, row_values C p)) ps))).
      - unfold reset_index. rewrite Hrows. reflexivity.
      - apply reset_index_gather. reflexivity. }
    rewrite Hy. fold n'.
    unfold sample.
    rewrite decide_False by (unfold n'; lia).
    rewrite decide_False by (unfold n'; lia).
    rewrite gather_length. fold qs.
    rewrite (iloc_range (gather X ps) qs)
      by (rewrite ?gather_length; auto using gather_range_indexed).
    cbn [mbind result_mbind result_bind].
    assert (Hix : df_index
                    (mkDataFrame (df_columns (gather X ps))
                       (map (fun q => (Z.of_nat q, row_values (gather X ps) q))
                          qs)) = map Z.of_nat qs).
    { unfold df_index. cbn [df_rows]. rewrite map_map. reflexivity. }
    rewrite Hix.
    rewrite (loc_range (gather G ps) qs)
      by (rewrite ?gather_length; auto using gather_range_indexed).
    rewrite (loc_range (gather C ps) qs)
      by (rewrite ?gather_length; auto using gather_range_indexed).
    cbn [mbind result_mbind result_bind].
    rewrite !reset_index_gather by reflexivity.
    rewrite !gather_gather by exact Hqs. reflexivity.
  - apply nth_NoDup_map; assumption.
  - apply Forall_forall. intros p Hp.
    apply list_elem_of_fmap in Hp. destruct Hp as [q [-> Hq]].
    rewrite Forall_forall in Hps. apply Hps.
    apply list_elem_of_In, nth_In. rewrite Forall_forall in Hqs.
    apply Hqs, Hq.
  - rewrite length_map. fold qs in Hlen. rewrite Hlen.
    unfold n'. rewrite Hshape. unfold shape0. rewrite Hrows, length_map. lia.
Qed.

(** ** The further properties on the small inputs *)

Module MoreWitnesses.

Import Reference ReferenceFacts Examples.

Lemma last_rows_ok : sampler_ok last_rows.
Proof.
  intros len n Hn. unfold last_rows. split; [|split].
  - rewrite length_reverse, length_seq. reflexivity.
  - rewrite reverse_Permutation. apply NoDup_seq.
  - apply Forall_forall. intros p Hp. apply elem_of_reverse, elem_of_seq in Hp.
    lia.
Qed.

(** The quotient is a float: above [2^53] the stored count is not the
    ceiling of the exact quotient. *)
Lemma float_quotient_rounds :
  ceil_ratio (PInt (2 ^ 53 + 1)) 1 = Ok (2 ^ 53) /\
  ceil_ratio (PInt 12) 8 = Ok 2 /\
  ceil_ratio (PInt 1) (2 ^ 1075) = Ok 0.
Proof. repeat split; vm_compute; reflexivity. Qed.

(** X1 on the predictor column of the small table. *)
Lemma split_data_in_bounds_iff_witness :
  is_ok (split_data demo_x [0; 1; -1] [2; 3]) = true /\
  split_data demo_x [0; 1] [8] = Raise IndexError.
Proof.
  split.
  - apply (proj1 (split_data_in_bounds_iff demo_x [0; 1; -1] [2; 3] eq_refl)).
    split; repeat constructor; cbn; lia.
  - apply (proj2 (split_data_in_bounds_iff demo_x [0; 1] [8] eq_refl)).
    reflexivity.
Defined.

(** X2 on the predictor column of the small table: the first two groups
    held out. *)
Lemma split_data_partition_witness :
  exists df_trn df_tst,
    split_data demo_x [4; 5; 6; 7] [0; 1; 2; 3] = Ok (df_trn, df_tst) /\
    map snd (df_rows df_trn) ++ map snd (df_rows df_tst)
    ≡ₚ map snd (df_rows demo_x).
Proof.
  assert (H : exists a b,
             split_data demo_x (map Z.of_nat [4; 5; 6; 7]%nat)
               (map Z.of_nat [0; 1; 2; 3]%nat) = Ok (a, b))
    by (eexists; eexists; vm_compute; reflexivity).
  destruct H as (a & b & H). exists a, b. split; [exact H|].
  apply (split_data_partition demo_x a b [4; 5; 6; 7]%nat [0; 1; 2; 3]%nat
           eq_refl); [|exact H].
  apply (Permutation_app_comm [4; 5; 6; 7]%nat [0; 1; 2; 3]%nat).
Defined.

(** X3 for the binary objective. *)
Lemma prepare_scorer_metric_agree_witness :
  prepare (PStr "binary")
  = Ok (make_estimator LGBMClassifier (PStr "binary") (Some "balanced"%string),
        search_space) /\
  get_scorer (PStr "binary") = Ok "balanced_accuracy"%string.
Proof.
  destruct (prepare_scorer_metric_agree (PStr "binary") _ _ eq_refl)
    as [_ [[H _]|[_ [_ [H _]]]]]; [discriminate H|].
  split; [reflexivity | exact H].
Defined.

(** X4 on the small table: a task without any entry, a count beyond the
    float range, and a task without [N_CV_FOLDS]. *)
Lemma compute_redundancy_setting_failures_witness :
  compute_redundancy demo_g demo_x demo_y (PStr "regression") empty_world
  = (Raise (KeyError "N_PRED_OUTER_CV"), empty_world) /\
  compute_redundancy demo_g demo_x demo_y (PStr "regression") huge_world
  = (Raise OverflowError, huge_world) /\
  compute_redundancy demo_g demo_x demo_y (PStr "regression") no_folds_world
  = (Raise (KeyError "N_CV_FOLDS"),
     mkWorld (<["n_rep_outer_cv"%string := PInt 2]> (task no_folds_world))
       0%nat []).
Proof.
  split; [|split].
  - apply (proj1 (compute_redundancy_setting_failures demo_g demo_x demo_y
                    (PStr "regression") empty_world eq_refl)).
    reflexivity.
  - apply (proj1 (proj2 (proj2 (proj2
             (compute_redundancy_setting_failures demo_g demo_x demo_y
                (PStr "regression") huge_world eq_refl))))
             (PInt (2 ^ 1030)) (2 ^ 1030)).
    + reflexivity.
    + reflexivity.
    + vm_compute. reflexivity.
  - apply (proj2 (proj2 (proj2 (proj2
             (compute_redundancy_setting_failures demo_g demo_x demo_y
                (PStr "regression") no_folds_world eq_refl))))
             (PInt 12) 2).
    + reflexivity.
    + vm_compute. reflexivity.
    + reflexivity.
Defined.

(** X5 on the run on the small table. *)
Lemma one_search_per_split_witness :
  compute_redundancy demo_g demo_x demo_y (PStr "regression") demo_world
  = (Ok demo_score, demo_after) /\
  exists cv splits rng1 fits,
    cv_split cv demo_g demo_g (rng demo_world) = (Ok splits, rng1) /\
    calls demo_after = calls demo_world ++ EvSplit cv demo_g :: fits /\
    Forall2 (fit_of_split demo_g demo_x demo_y) splits fits.
Proof.
  assert (H : compute_redundancy demo_g demo_x demo_y (PStr "regression")
                demo_world = (Ok demo_score, demo_after))
    by (apply run_result; vm_compute; reflexivity).
  split; [exact H|].
  exact (one_search_per_split _ _ _ _ _ _ _ H).
Defined.

(** X7 on the small table: a fresh task against one with stale counts. *)
Lemma stale_repeat_counts_ignored_witness :
  same_except derived_keys demo_world stale_world /\
  fst (compute_redundancy demo_g demo_x demo_y (PStr "regression") demo_world)
  = fst (compute_redundancy demo_g demo_x demo_y (PStr "regression")
           stale_world) /\
  same_except derived_keys
    (snd (compute_redundancy demo_g demo_x demo_y (PStr "regression")
            demo_world))
    (snd (compute_redundancy demo_g demo_x demo_y (PStr "regression")
            stale_world)).
Proof.
  assert (H : same_except derived_keys demo_world stale_world).
  { split; [reflexivity|]. split; [reflexivity|].
    intros key Hk. unfold stale_world. cbn [task].
    rewrite !lookup_insert_ne; [reflexivity| |].
    - intros <-. apply Hk, list_elem_of_here.
    - intros <-. apply Hk, list_elem_of_further, list_elem_of_here. }
  split; [exact H|].
  exact (stale_repeat_counts_ignored demo_g demo_x demo_y (PStr "regression")
           demo_world stale_world H).
Defined.

(** X9 on the matrix of the small table: the cell of predictor [a] and
    target [b]. *)
Lemma matrix_entries_are_scores_witness :
  eda_redundancy demo_g demo_z demo_world = (Ok demo_matrix, snd demo_build) /\
  cell_scored demo_g demo_z demo_matrix (0, 1)%nat.
Proof.
  assert (Hbuild : eda_redundancy demo_g demo_z demo_world
                   = (Ok demo_matrix, snd demo_build))
    by (apply run_result; vm_compute; reflexivity).
  split; [exact Hbuild|].
  apply (matrix_entries_are_scores demo_g demo_z demo_world (snd demo_build)
           demo_matrix 0 1); [solve_nodup | exact Hbuild | | |]; cbn; lia.
Defined.

(** X10 on the small table of four columns: twelve pairs, twelve splitter
    calls. *)
Lemma every_pair_scored_once_witness :
  NoDup (permutations2 (factorize_labels (df_columns demo_z))) /\
  length (permutations2 (factorize_labels (df_columns demo_z))) = 12%nat /\
  exists evs, calls (snd demo_build) = calls demo_world ++ evs /\
              count_splits evs = 12%nat.
Proof.
  assert (Hbuild : eda_redundancy demo_g demo_z demo_world
                   = (Ok demo_matrix, snd demo_build))
    by (apply run_result; vm_compute; reflexivity).
  assert (Hnd : NoDup (df_columns demo_z)) by solve_nodup.
  destruct (every_pair_scored_once demo_g demo_z demo_world (snd demo_build)
              demo_matrix Hnd Hbuild) as (Hp & Hl & _ & Hev).
  split; [exact Hp|]. split; [exact Hl | exact Hev].
Defined.

(** X12 on the small table under the objective [ordinal]. *)
Lemma unsupported_task_objective_aborts_witness :
  (forall red,
     pair_step demo_g demo_z (0, 3)%nat red ordinal_world
     = (Raise objective_error, ordinal_world)) /\
  exists e w', eda_redundancy demo_g demo_z ordinal_world = (Raise e, w').
Proof.
  assert (Hroles : role_lists (task ordinal_world) ["a"] ["b"] ["c"] ["t"]%string)
    by (unfold role_lists; repeat split; reflexivity).
  destruct (unsupported_task_objective_aborts demo_g demo_z ordinal_world
              ["a"] ["b"] ["c"] ["t"] 0 3 "a" "t" (PStr "ordinal")
              Hroles eq_refl ltac:(discriminate) ltac:(discriminate)
              ltac:(discriminate) ltac:(solve_nodup) eq_refl eq_refl eq_refl)%string
    as [Hstep Hbuild].
  split; [exact Hstep | apply Hbuild; lia].
Defined.


(** X8 on the small table: target [t] is unknown at two of six rows, and
    at most three rows are kept. *)
Lemma prepared_tables_stay_aligned_witness :
  exists src : list nat,
    prepare_target last_rows demo_g demo_x demo_Y "t" 3
    = Ok (gather demo_g src, gather demo_x src,
          gather (raw_column demo_Y 0 "t") src)
    /\ NoDup src
    /\ Forall (fun p => (p < length (df_rows demo_Y))%nat
                        /\ target_known demo_Y 0 "t" p) src
    /\ Z.of_nat (length src)
       = Z.min (shape0 (dropna (raw_column demo_Y 0 "t"))) 3.
Proof.
  apply (prepared_tables_stay_aligned last_rows demo_g demo_x demo_Y "t" 0 3
           last_rows_ok).
  - reflexivity.
  - reflexivity.
  - reflexivity.
  - reflexivity.
  - reflexivity.
  - solve_nodup.
  - reflexivity.
  - lia.
Defined.

End MoreWitnesses.
